(** * ValidateOrRevokeMessagesJobScheduler

    A shallow embedding of
    [apps/hubble/src/storage/jobs/validateOrRevokeMessagesJob.ts]: the
    scheduler object, the job runner [doJobs], the per-FID signer-change sweep
    [doJobForFid] and the unconditional username sweep [doUsernamesJobForFid].

    The job is asynchronous code over an engine and a store.  It is embedded as
    a program tree ([Prog]) whose nodes are the external calls of the source
    and the reads and writes of the [_running] flag.  An interpreter ([run])
    executes a tree against an arbitrary environment and records the calls
    made; a cooperative scheduler ([Pool], [act]) executes several invocations
    of [doJobs], interleaved at their [await]s.

    Numbers are integers ([Z]); the two [do ... while] loops take a budget and
    end in [Spin] when it is used up.  Calls on the logger and on statsd, which
    only write, are left out. *)

From Stdlib Require Import ZArith List Bool Ascii String Lia.
From Stdlib Require Import Strings.Byte.
Import ListNotations.
Local Open Scope Z_scope.

Set Implicit Arguments.

(** ** Results and errors (neverthrow's [Result], the hub's [HubError]) *)

Record HubError : Type := mkHubError { errCode : string; message : string }.

Inductive Result (A : Type) : Type :=
| ok (value : A)
| err (error : HubError).
Arguments ok {A} value.
Arguments err {A} error.

Definition unwrapOr {A} (r : Result A) (d : A) : A :=
  match r with ok v => v | err _ => d end.

Definition bytes : Type := list byte.

(** [Buffer.readUint8(offset)]: the byte at [offset] as a number, a
    [RangeError] (here [None]) outside the buffer. *)
Definition readUint8 (b : bytes) (offset : nat) : option Z :=
  option_map (fun x => Z.of_N (Byte.to_N x)) (nth_error b offset).

(** ** Data read and written by the job *)

(** [HubState.validateOrRevokeState]: the checkpoint. *)
Record ValidateOrRevokeState : Type := mkValidateOrRevokeState {
  lastJobTimestamp : Z;
  lastFid : Z
}.

(** An on-chain signer event; the job reads its block timestamp only. *)
Record OnChainEvent : Type := mkOnChainEvent { blockTimestamp : Z }.

(** The value of [engine.getFids]. *)
Record FidsPage : Type := mkFidsPage {
  fids : list Z;
  fidsNextPageToken : option bytes
}.

(** The value of [engine.getOnChainSignersByFid]. *)
Record SignersPage : Type := mkSignersPage {
  events : list OnChainEvent;
  eventsNextPageToken : option bytes
}.

(** What a run of a program ends in: a returned value, a rejected promise,
    or an exhausted loop budget. *)
Inductive Outcome (R : Type) : Type :=
| Returned (r : R)
| Rejected (e : HubError)
| OutOfFuel.
Arguments Returned {R} r.
Arguments Rejected {R} e.
Arguments OutOfFuel {R}.

Section Job.

(** Imports of the source file that are not part of it: the decoded message
    type, the fields of [HubState] other than the checkpoint, the key
    layout constants of [db/types], and the pure helpers [makeUserKey] and
    [toFarcasterTime]. *)
Context {Message HubStateRest : Type}.
Variables (FID_BYTES TSHASH_LENGTH : nat).
Variables (UserMessagePostfixMax UsernameProofMessage UserDataMessage : Z).
Variable makeUserKey : Z -> bytes.
Variable toFarcasterTime : Z -> Result Z.

Record HubState : Type := mkHubState {
  validateOrRevokeState : option ValidateOrRevokeState;
  otherFields : HubStateRest
}.

(** *** External calls *)

(** Modelled from the spec: the store, the engine and the decoder live in
    other files ([db/hubState], [db/rocksdb], [db/message], [engine]); their
    calls are taken with the signatures of the consumed capabilities.
    [GetOnChainSignersByFid] is the paginated signer query, its second
    argument the page token; [ForEachIteratorByPrefix] is the time-boxed
    prefix iteration, and its answer is the list of key-value pairs handed to
    the callback, in key order, before the iteration ends or its time box
    closes; [MessageDecode] is
    [Result.fromThrowable(() => messageDecode(value))()]. *)
Inductive Call : Type :=
| GetHubState
| PutHubState (h : HubState)
| GetFids (pageToken : option bytes) (pageSize : Z)
| GetOnChainSignersByFid (fid : Z) (pageToken : option bytes)
| ForEachIteratorByPrefix (prefix : bytes) (timeoutMs : Z)
| MessageDecode (value : bytes)
| ValidateOrRevokeMessage (m : Message)
| DateNow.

Definition Resp (c : Call) : Type :=
  match c with
  | GetHubState => Result HubState
  | PutHubState _ => Result unit
  | GetFids _ _ => Result FidsPage
  | GetOnChainSignersByFid _ _ => Result SignersPage
  | ForEachIteratorByPrefix _ _ => list (bytes * bytes)
  | MessageDecode _ => Result Message
  | ValidateOrRevokeMessage _ => Result (option Z)
  | DateNow => Z
  end.

(** The decoder and the clock answer at once; every other call is awaited:
    the caller is suspended there. *)
Definition suspends (c : Call) : bool :=
  match c with
  | MessageDecode _ | DateNow => false
  | _ => true
  end.

(** *** Programs *)

Inductive Prog (R : Type) : Type :=
| Ret (r : R)
| Throw (e : HubError)
| Spin
| GetRunning (k : bool -> Prog R)
| SetRunning (b : bool) (k : Prog R)
| Do (c : Call) (k : Resp c -> Prog R).
Arguments Ret {R} r.
Arguments Throw {R} e.
Arguments Spin {R}.
Arguments GetRunning {R} k.
Arguments SetRunning {R} b k.
Arguments Do {R} c k.

Fixpoint bind {A B} (m : Prog A) (f : A -> Prog B) : Prog B :=
  match m with
  | Ret a => f a
  | Throw e => Throw e
  | Spin => Spin
  | GetRunning k => GetRunning (fun r => bind (k r) f)
  | SetRunning b k => SetRunning b (bind k f)
  | Do c k => Do c (fun x => bind (k x) f)
  end.

Definition call (c : Call) : Prog (Resp c) := Do c (fun x => Ret x).

(** [await p] of a promise that may reject, outside any [Result] wrapper:
    the rejection is thrown in the caller. *)
Definition orThrow {A} (m : Prog (Result A)) : Prog A :=
  bind m (fun r => match r with ok a => Ret a | err e => Throw e end).

Notation "x <- m ;; k" := (bind m (fun x => k))
  (at level 61, m at next level, right associativity).

(** *** The record sweeps *)

Definition recordKeyLength : nat := 1 + FID_BYTES + 1 + TSHASH_LENGTH.

Definition rangeError : HubError := mkHubError "ERR_OUT_OF_RANGE" "readUint8".

(** The tail of both callbacks: decode the value and, when that succeeds,
    validate or revoke the message and count it. *)
Definition decodeAndValidate (value : bytes) (count : Z) : Prog Z :=
  message <- call (MessageDecode value) ;;
  match message with
  | ok m =>
      _ <- call (ValidateOrRevokeMessage m) ;;
      Ret (count + 1)
  | err _ => Ret count
  end.

(** The callback of [doJobForFid]'s iteration. *)
Definition messageCallback (key value : bytes) (count : Z) : Prog Z :=
  if negb (Nat.eqb (List.length key) recordKeyLength) then Ret count
  else
    match readUint8 key (1 + FID_BYTES) with
    | None => Throw rangeError
    | Some postfix =>
        if postfix >? UserMessagePostfixMax then Ret count
        else decodeAndValidate value count
    end.

(** The callback of [doUsernamesJobForFid]'s iteration. *)
Definition usernameCallback (key value : bytes) (count : Z) : Prog Z :=
  if negb (Nat.eqb (List.length key) recordKeyLength) then Ret count
  else
    match readUint8 key (1 + FID_BYTES) with
    | None => Throw rangeError
    | Some postfix =>
        if negb (postfix =? UsernameProofMessage) && negb (postfix =? UserDataMessage)
        then Ret count
        else decodeAndValidate value count
    end.

Fixpoint forEachEntry (callback : bytes -> bytes -> Z -> Prog Z)
    (entries : list (bytes * bytes)) (count : Z) : Prog Z :=
  match entries with
  | [] => Ret count
  | (key, value) :: rest =>
      count' <- callback key value count ;;
      forEachEntry callback rest count'
  end.

(** Modelled from the spec: [db.forEachIteratorByPrefix] of [db/rocksdb],
    the time-boxed prefix iteration over a snapshot of the store.  The
    callback is run on every pair the store hands over; the callbacks of
    this file never ask it to stop. *)
Definition forEachIteratorByPrefix (prefix : bytes)
    (callback : bytes -> bytes -> Z -> Prog Z) (timeoutMs : Z) : Prog Z :=
  entries <- call (ForEachIteratorByPrefix prefix timeoutMs) ;;
  forEachEntry callback entries 0.

Definition iteratorTimeoutMs : Z := 15 * 60 * 1000.

(** The [do ... while (!finished)] of [doJobForFid].  The source assigns
    [pageToken] but calls [getOnChainSignersByFid(fid)] without it. *)
Fixpoint fetchAllSigners (fuel : nat) (fid : Z) (allSigners : list OnChainEvent)
    (pageToken : option bytes) : Prog (Result (list OnChainEvent)) :=
  match fuel with
  | O => Spin
  | S fuel' =>
      signers <- call (GetOnChainSignersByFid fid None) ;;
      match signers with
      | err e => Ret (err e)
      | ok page =>
          match eventsNextPageToken page with
          | None => Ret (ok (allSigners ++ events page))
          | Some nextPageToken =>
              fetchAllSigners fuel' fid (allSigners ++ events page) (Some nextPageToken)
          end
      end
  end.

Definition newestBlockTimestamp (allSigners : list OnChainEvent) : Z :=
  fold_left
    (fun acc signer => if acc >? blockTimestamp signer then acc else blockTimestamp signer)
    allSigners 0.

Definition latestSignerEventTs (allSigners : list OnChainEvent) : Z :=
  unwrapOr (toFarcasterTime (1000 * newestBlockTimestamp allSigners)) 0.

Definition doJobForFid (fuel : nat) (lastJobTimestamp fid : Z) : Prog (Result Z) :=
  let prefix := makeUserKey fid in
  signers <- fetchAllSigners fuel fid [] None ;;
  match signers with
  | err e => Ret (err e)
  | ok allSigners =>
      if latestSignerEventTs allSigners <? lastJobTimestamp then Ret (ok 0)
      else
        count <- forEachIteratorByPrefix prefix messageCallback iteratorTimeoutMs ;;
        Ret (ok count)
  end.

Definition doUsernamesJobForFid (fid : Z) : Prog (Result Z) :=
  let prefix := makeUserKey fid in
  count <- forEachIteratorByPrefix prefix usernameCallback iteratorTimeoutMs ;;
  Ret (ok count).

(** *** The job runner *)

Definition fidsPageSize : Z := 100.
Definition progressInterval : Z := 5000.

(** [hubState.validateOrRevokeState = { lastFid, lastJobTimestamp }]. *)
Definition withValidateOrRevokeState (hubState : HubState)
    (lastFid lastJobTimestamp : Z) : HubState :=
  {| validateOrRevokeState :=
       Some {| lastJobTimestamp := lastJobTimestamp; lastFid := lastFid |};
     otherFields := otherFields hubState |}.

(** Lines 94 to 108: add the two counts to the totals and, every 5000 FIDs,
    read the hub state, set the checkpoint to this FID and write it back.
    Both store calls are bare [await]s. *)
Definition tally (lastJobTimestamp fid : Z) (numChecked numUsernamesChecked : Result Z)
    (totals : Z * Z) : Prog (Z * Z) :=
  let totalMessagesChecked :=
    fst totals + (unwrapOr numChecked 0 + unwrapOr numUsernamesChecked 0) in
  let totalFidsChecked := snd totals + 1 in
  if Z.rem totalFidsChecked progressInterval =? 0 then
    hubState <- orThrow (call GetHubState) ;;
    _ <- orThrow (call (PutHubState
           (withValidateOrRevokeState hubState fid lastJobTimestamp))) ;;
    Ret (totalMessagesChecked, totalFidsChecked)
  else Ret (totalMessagesChecked, totalFidsChecked).

(** Lines 91 to 108: the work done for one FID that is not skipped. *)
Definition processFid (fuel : nat) (lastJobTimestamp fid : Z) (totals : Z * Z)
    : Prog (Z * Z) :=
  numChecked <- doJobForFid fuel lastJobTimestamp fid ;;
  numUsernamesChecked <- doUsernamesJobForFid fid ;;
  tally lastJobTimestamp fid numChecked numUsernamesChecked totals.

(** The [for] loop over one page of FIDs. *)
Fixpoint forFids (fuel : nat) (lastJobTimestamp lastFid : Z) (fids : list Z)
    (totals : Z * Z) : Prog (Z * Z) :=
  match fids with
  | [] => Ret totals
  | fid :: rest =>
      if (lastFid >? 0) && (fid <? lastFid)
      then forFids fuel lastJobTimestamp lastFid rest totals
      else
        totals' <- processFid fuel lastJobTimestamp fid totals ;;
        forFids fuel lastJobTimestamp lastFid rest totals'
  end.

(** The [do ... while (!finished)] over the pages of FIDs; [err] is the
    early [return err(fidsPage.error)].  [pages] bounds the number of pages
    fetched, [fuel] the signer loop of each FID. *)
Fixpoint forPages (pages fuel : nat) (lastJobTimestamp lastFid : Z)
    (pageToken : option bytes) (totals : Z * Z) : Prog (Result (Z * Z)) :=
  match pages with
  | O => Spin
  | S pages' =>
      fidsPage <- call (GetFids pageToken fidsPageSize) ;;
      match fidsPage with
      | err e => Ret (err e)
      | ok page =>
          totals' <- forFids fuel lastJobTimestamp lastFid (fids page) totals ;;
          match fidsNextPageToken page with
          | None => Ret (ok totals')
          | Some nextPageToken =>
              forPages pages' fuel lastJobTimestamp lastFid (Some nextPageToken) totals'
          end
      end
  end.

(** Lines 112 to 126: the terminal checkpoint, written after the last page. *)
Definition finishJob (start totalMessagesChecked : Z) : Prog (Result Z) :=
  _ <- call DateNow ;;
  hubState <- orThrow (call GetHubState) ;;
  _ <- orThrow (call (PutHubState
         (withValidateOrRevokeState hubState 0 (unwrapOr (toFarcasterTime start) 0)))) ;;
  SetRunning false (Ret (ok totalMessagesChecked)).

Definition checkpointTimestamp (hubState : HubState) : Z :=
  match validateOrRevokeState hubState with
  | Some st => lastJobTimestamp st
  | None => 0
  end.

Definition checkpointFid (hubState : HubState) : Z :=
  match validateOrRevokeState hubState with
  | Some st => lastFid st
  | None => 0
  end.

Definition doJobs (fuel : nat) : Prog (Result Z) :=
  GetRunning (fun running =>
    if running then Ret (ok 0)
    else
      hubStateResult <- call GetHubState ;;
      match hubStateResult with
      | err e => Ret (err e)
      | ok hubState =>
          let lastJobTimestamp := checkpointTimestamp hubState in
          let lastFid := checkpointFid hubState in
          SetRunning true (
            start <- call DateNow ;;
            scanned <- forPages fuel fuel lastJobTimestamp lastFid None (0, 0) ;;
            match scanned with
            | err e => Ret (err e)
            | ok totals => finishJob start (fst totals)
            end)
      end).

(** *** The scheduler object *)

Definition DEFAULT_VALIDATE_AND_REVOKE_MESSAGES_CRON : string := "0 1 * * *".

(** node-cron's [ScheduledTask]: its expression and whether it still fires. *)
Record ScheduledTask : Type := mkScheduledTask {
  cronExpression : string;
  firing : bool
}.

Inductive SchedulerStatus : Type := started | stopped.

Record Scheduler : Type := mkScheduler {
  _cronTask : option ScheduledTask;
  _running : bool
}.

(** The constructor: no task, not running. *)
Definition newScheduler : Scheduler :=
  {| _cronTask := None; _running := false |}.

(** node-cron is an import of the source file: [validate expression] is
    whether it accepts the cron expression; [cron.schedule] throws on an
    expression it does not accept. *)
Variable validate : string -> bool.

(** [cron.schedule(expression, () => this.doJobs())]: the task, scheduled
    and firing, or [None] when node-cron throws. *)
Definition cron_schedule (expression : string) : option ScheduledTask :=
  if validate expression
  then Some {| cronExpression := expression; firing := true |}
  else None.

(** [start]: the assignment of line 32 takes place only when
    [cron.schedule] returns.  [None] is the call of [start] that throws:
    nothing is assigned and the scheduler is as it was. *)
Definition start (cronSchedule : option string) (s : Scheduler) : option Scheduler :=
  let expression :=
    match cronSchedule with
    | Some e => e
    | None => DEFAULT_VALIDATE_AND_REVOKE_MESSAGES_CRON
    end in
  match cron_schedule expression with
  | Some task => Some {| _cronTask := Some task; _running := _running s |}
  | None => None
  end.

Definition stop (s : Scheduler) : Scheduler :=
  match _cronTask s with
  | Some task =>
      {| _cronTask := Some {| cronExpression := cronExpression task; firing := false |};
         _running := _running s |}
  | None => s
  end.

Definition status (s : Scheduler) : SchedulerStatus :=
  match _cronTask s with
  | Some _ => started
  | None => stopped
  end.

(** *** Running a program against an environment *)

(** The environment: a world of type [W] behind the store, the engine, the
    decoder and the clock, and what each call answers and does to it. *)
Context {W : Type}.
Variable handle : forall c : Call, W -> Resp c * W.

Definition Event : Type := { c : Call & Resp c }.
Definition event (c : Call) (x : Resp c) : Event := existT Resp c x.

Record Machine : Type := mkMachine {
  sched : Scheduler;
  world : W
}.

Definition setRunning (b : bool) (m : Machine) : Machine :=
  {| sched := {| _cronTask := _cronTask (sched m); _running := b |};
     world := world m |}.

Definition setWorld (w : W) (m : Machine) : Machine :=
  {| sched := sched m; world := w |}.

(** [run p m]: how [p] ends when nothing else is interleaved with it, the
    machine it leaves, and the calls it made with their answers. *)
Fixpoint run {R} (p : Prog R) (m : Machine) : Outcome R * Machine * list Event :=
  match p with
  | Ret r => (Returned r, m, [])
  | Throw e => (Rejected e, m, [])
  | Spin => (OutOfFuel, m, [])
  | GetRunning k => run (k (_running (sched m))) m
  | SetRunning b k => run k (setRunning b m)
  | Do c k =>
      let (x, w) := handle c (world m) in
      let '(o, m', log) := run (k x) (setWorld w m) in
      (o, m', event c x :: log)
  end.

(** *** Interleaved invocations *)

(** [settle p m] executes [p] up to its next [await] (or its end): the code
    between two [await]s runs without interruption. *)
Fixpoint settle {R} (p : Prog R) (m : Machine) : Prog R * Machine * list Event :=
  match p with
  | GetRunning k => settle (k (_running (sched m))) m
  | SetRunning b k => settle k (setRunning b m)
  | Do c k =>
      if suspends c then (p, m, [])
      else
        let (x, w) := handle c (world m) in
        let '(p', m', log) := settle (k x) (setWorld w m) in
        (p', m', event c x :: log)
  | _ => (p, m, [])
  end.

(** [resume p m]: the awaited call of a suspended [p] completes and [p] runs
    on to its next [await]. *)
Definition resume {R} (p : Prog R) (m : Machine) : Prog R * Machine * list Event :=
  match p with
  | Do c k =>
      let (x, w) := handle c (world m) in
      let '(p', m', log) := settle (k x) (setWorld w m) in
      (p', m', event c x :: log)
  | _ => (p, m, [])
  end.

(** The process: the scheduler object and its world, the invocations of
    [doJobs] made so far, and the calls made so far. *)
Record Pool : Type := mkPool {
  machine : Machine;
  invocations : list (Prog (Result Z));
  history : list Event
}.

Inductive Action : Type :=
| Trigger (fuel : nat)
| Resume (i : nat).

Fixpoint replaceNth {A} (i : nat) (x : A) (l : list A) : list A :=
  match l, i with
  | [], _ => []
  | _ :: t, O => x :: t
  | h :: t, S i' => h :: replaceNth i' x t
  end.

Definition act (a : Action) (p : Pool) : Pool :=
  match a with
  | Trigger fuel =>
      let '(t, m, log) := settle (doJobs fuel) (machine p) in
      {| machine := m; invocations := invocations p ++ [t]; history := history p ++ log |}
  | Resume i =>
      match nth_error (invocations p) i with
      | Some t =>
          let '(t', m, log) := resume t (machine p) in
          {| machine := m; invocations := replaceNth i t' (invocations p);
             history := history p ++ log |}
      | None => p
      end
  end.

Definition schedule (actions : list Action) (p : Pool) : Pool :=
  fold_left (fun p a => act a p) actions p.

(** An invocation is in progress until it has returned or thrown. *)
Definition inProgress {R} (p : Prog R) : bool :=
  match p with
  | Ret _ | Throw _ => false
  | _ => true
  end.

(** An invocation suspended in the page loop of its scan. *)
Definition awaitsFidsPage {R} (p : Prog R) : bool :=
  match p with
  | Do (GetFids _ _) _ => true
  | _ => false
  end.

(** *** Reading a log of calls *)

Definition callsOf (log : list Event) : list Call :=
  map (fun e => projT1 e) log.

(** The calls of a record sweep: the iteration, a decode, a validation. *)
Definition isRecordCall (c : Call) : bool :=
  match c with
  | ForEachIteratorByPrefix _ _ | MessageDecode _ | ValidateOrRevokeMessage _ => true
  | _ => false
  end.

(** The values handed to [messageDecode], in order. *)
Definition decodedValues (log : list Event) : list bytes :=
  flat_map (fun c => match c with MessageDecode value => [value] | _ => [] end)
    (callsOf log).

(** [logged l r]: the run [r] with the calls [l] made before it. *)
Definition logged {R} (l : list Event) (r : Outcome R * Machine * list Event)
    : Outcome R * Machine * list Event :=
  let '(o, m, log) := r in (o, m, l ++ log).

(** The type tag of a key of the record length. *)
Definition postfixOf (key : bytes) : option Z :=
  if Nat.eqb (List.length key) recordKeyLength
  then readUint8 key (1 + FID_BYTES)
  else None.

(** Keys of the record length whose tag is the username-proof or the
    user-data tag. *)
Definition isUsernameKey (key : bytes) : bool :=
  match postfixOf key with
  | Some postfix => (postfix =? UsernameProofMessage) || (postfix =? UserDataMessage)
  | None => false
  end.

(** *** Method calls on the scheduler object *)

Inductive Method : Type :=
| CallStart (cronSchedule : option string)
| CallStop
| CallStatus
| CallDoJobs (fuel : nat).

Definition setSched (s : Scheduler) (m : Machine) : Machine :=
  {| sched := s; world := world m |}.

(** A call of a method on the scheduler of [m]; a call that throws leaves
    the object as it was. *)
Definition invoke (m : Machine) (method : Method) : Machine :=
  match method with
  | CallStart cronSchedule =>
      match start cronSchedule (sched m) with
      | Some s => setSched s m
      | None => m
      end
  | CallStop => setSched (stop (sched m)) m
  | CallStatus => m
  | CallDoJobs fuel => snd (fst (run (doJobs fuel) m))
  end.

(** *** Counting runs *)

Definition runsInProgress (p : Pool) : nat :=
  List.length (filter (fun t => inProgress t) (invocations p)).

Definition idlePool (m : Machine) : Pool :=
  {| machine := m; invocations := []; history := [] |}.

(** A program that neither reads nor writes the flag. *)
Inductive Quiet {R} : Prog R -> Prop :=
| Quiet_Ret (r : R) : Quiet (Ret r)
| Quiet_Throw (e : HubError) : Quiet (Throw e)
| Quiet_Spin : Quiet Spin
| Quiet_Do (c : Call) (k : Resp c -> Prog R) :
    (forall x, Quiet (k x)) -> Quiet (Do c k).

(** The shape of a run that has set the flag: calls, then the end, where
    the flag is either cleared just before returning or left alone. *)
Inductive Scanning {R} : Prog R -> Prop :=
| Scanning_Ret (r : R) : Scanning (Ret r)
| Scanning_Throw (e : HubError) : Scanning (Throw e)
| Scanning_Spin : Scanning Spin
| Scanning_Do (c : Call) (k : Resp c -> Prog R) :
    (forall x, Scanning (k x)) -> Scanning (Do c k)
| Scanning_clear (r : R) : Scanning (SetRunning false (Ret r)).

(** An invocation as a trigger leaves it when it finds the flag clear:
    past the guard, awaiting its first read of the checkpoint, the flag not
    yet set. *)
Definition justTriggered (t : Prog (Result Z)) : Prop :=
  exists fuel m, _running (sched m) = false /\ fst (fst (settle (doJobs fuel) m)) = t.

(** A schedule in which no trigger arrives while an earlier invocation is
    still awaiting its first read of the checkpoint. *)
Fixpoint wellTimed (actions : list Action) (p : Pool) : Prop :=
  match actions with
  | [] => True
  | a :: rest =>
      match a with
      | Trigger _ => Forall (fun t => ~ justTriggered t) (invocations p)
      | Resume _ => True
      end /\ wellTimed rest (act a p)
  end.

(** The invariant of a well-timed process: at most one invocation is in
    progress, and one in progress is either awaiting its first read of the
    checkpoint or a started run with the flag set. *)
Definition oneRun (p : Pool) : Prop :=
  (runsInProgress p <= 1)%nat /\
  Forall (fun t => inProgress t = true ->
                   justTriggered t \/
                   (Scanning t /\ _running (sched (machine p)) = true))
    (invocations p).

(** *** More readers of a log *)

Definition isValidation (c : Call) : bool :=
  match c with ValidateOrRevokeMessage _ => true | _ => false end.

(** The number of calls of [validateOrRevokeMessage]. *)
Definition validations (log : list Event) : Z :=
  Z.of_nat (List.length (filter isValidation (callsOf log))).

Definition isCheckpointWrite (c : Call) : bool :=
  match c with PutHubState _ => true | _ => false end.

(** The number of calls of [putHubState]. *)
Definition checkpointWrites (log : list Event) : Z :=
  Z.of_nat (List.length (filter isCheckpointWrite (callsOf log))).

(** The calls made for one FID: the signer query and the record sweep. *)
Definition isEntityCall (c : Call) : bool :=
  match c with
  | GetOnChainSignersByFid _ _ | ForEachIteratorByPrefix _ _
  | MessageDecode _ | ValidateOrRevokeMessage _ => true
  | _ => false
  end.

(** Keys of the record length whose tag is not above the maximum. *)
Definition isMessageKey (key : bytes) : bool :=
  match postfixOf key with
  | Some postfix => postfix <=? UserMessagePostfixMax
  | None => false
  end.

(** The test of line 87. *)
Definition isSkipped (lastFid fid : Z) : bool :=
  (lastFid >? 0) && (fid <? lastFid).

(** The fetches of FID pages: the token and the size asked for, and the
    answer. *)
Definition fidsFetch (e : Event) : list (option bytes * Z * Result FidsPage) :=
  match e with
  | existT _ c x =>
      match c return Resp c -> list (option bytes * Z * Result FidsPage) with
      | GetFids pageToken pageSize => fun r => [(pageToken, pageSize, r)]
      | _ => fun _ => []
      end x
  end.

Definition fidsFetches (log : list Event)
    : list (option bytes * Z * Result FidsPage) :=
  flat_map fidsFetch log.

(** A sequence of fetches that walks the pages: each asks for 100 FIDs with
    the token the fetch before it returned, starting from [pageToken]; a
    failed fetch or a page without a token is the last. *)
Fixpoint chained (pageToken : option bytes)
    (fetches : list (option bytes * Z * Result FidsPage)) : Prop :=
  match fetches with
  | [] => True
  | (asked, size, answer) :: rest =>
      asked = pageToken /\ size = fidsPageSize /\
      match answer with
      | ok page =>
          match fidsNextPageToken page with
          | Some nextPageToken => chained (Some nextPageToken) rest
          | None => rest = []
          end
      | err _ => rest = []
      end
  end.

(** Every call a program can make satisfies [P]. *)
Inductive Calls {R} (P : Call -> Prop) : Prog R -> Prop :=
| Calls_Ret (r : R) : Calls P (Ret r)
| Calls_Throw (e : HubError) : Calls P (Throw e)
| Calls_Spin : Calls P Spin
| Calls_GetRunning (k : bool -> Prog R) :
    (forall b, Calls P (k b)) -> Calls P (GetRunning k)
| Calls_SetRunning (b : bool) (k : Prog R) :
    Calls P k -> Calls P (SetRunning b k)
| Calls_Do (c : Call) (k : Resp c -> Prog R) :
    P c -> (forall x, Calls P (k x)) -> Calls P (Do c k).

(** What a write of the hub state during a run may hold: a progress
    checkpoint with the watermark [lastJobTimestamp] of the run, or the
    terminal checkpoint of a run started at [start]. *)
Definition checkpointOfRun (lastJobTimestamp start : Z) (c : Call) : Prop :=
  match c with
  | PutHubState h =>
      (exists fid,
          validateOrRevokeState h =
          Some {| lastJobTimestamp := lastJobTimestamp; lastFid := fid |}) \/
      validateOrRevokeState h =
      Some {| lastJobTimestamp := unwrapOr (toFarcasterTime start) 0; lastFid := 0 |}
  | _ => True
  end.

(** A log that ends with a failed read or write of the hub state. *)
Definition storeFailure (e : HubError) (log : list Event) : Prop :=
  exists pre,
    log = pre ++ [event GetHubState (err e)] \/
    exists h, log = pre ++ [event (PutHubState h) (err e)].

(** Not a fetch of a page of FIDs. *)
Definition notFetch (c : Call) : Prop :=
  match c with GetFids _ _ => False | _ => True end.

(** The messages the decoder returned, in order. *)
Definition decoded (e : Event) : list Message :=
  match e with
  | existT _ c x =>
      match c return Resp c -> list Message with
      | MessageDecode _ =>
          fun r => match r with ok message => [message] | err _ => [] end
      | _ => fun _ => []
      end x
  end.

Definition decodedMessages (log : list Event) : list Message :=
  flat_map decoded log.

(** The messages handed to [validateOrRevokeMessage], in order. *)
Definition validatedMessages (log : list Event) : list Message :=
  flat_map (fun c => match c with ValidateOrRevokeMessage message => [message] | _ => [] end)
    (callsOf log).

Definition isDecodeOrValidate (c : Call) : bool :=
  match c with
  | MessageDecode _ | ValidateOrRevokeMessage _ => true
  | _ => false
  end.

(** A program in which the validator is called on a message exactly where
    the decoder has just returned that message. *)
Inductive Paired {R} : Prog R -> Prop :=
| Paired_Ret (r : R) : Paired (Ret r)
| Paired_Throw (e : HubError) : Paired (Throw e)
| Paired_Spin : Paired Spin
| Paired_GetRunning (k : bool -> Prog R) :
    (forall b, Paired (k b)) -> Paired (GetRunning k)
| Paired_SetRunning (b : bool) (k : Prog R) :
    Paired k -> Paired (SetRunning b k)
| Paired_Do (c : Call) (k : Resp c -> Prog R) :
    isDecodeOrValidate c = false -> (forall x, Paired (k x)) -> Paired (Do c k)
| Paired_Decode (value : bytes) (k : Result Message -> Prog R)
    (k' : Message -> Result (option Z) -> Prog R) :
    (forall message, k (ok message) = Do (ValidateOrRevokeMessage message) (k' message)) ->
    (forall message x, Paired (k' message x)) ->
    (forall e, Paired (k (err e))) ->
    Paired (Do (MessageDecode value) k).

(** A call made for a FID that [keeps] holds of: the signer query of the
    FID, or an iteration of its prefix.  Calls that name no FID pass. *)
Definition callFor (keeps : Z -> Prop) (c : Call) : Prop :=
  match c with
  | GetOnChainSignersByFid fid _ => keeps fid
  | ForEachIteratorByPrefix prefix _ => exists fid, keeps fid /\ prefix = makeUserKey fid
  | _ => True
  end.

(** The log holds the work for [fid]: a run of [doJobForFid] that
    returned and then, from the state it left, a run of
    [doUsernamesJobForFid] that returned. *)
Definition processedIn (fuel : nat) (lastJobTimestamp fid : Z) (log : list Event) : Prop :=
  exists pre m0 numChecked m1 l1 count m2 l2 post,
    run (doJobForFid fuel lastJobTimestamp fid) m0 = (Returned numChecked, m1, l1) /\
    run (doUsernamesJobForFid fid) m1 = (Returned (ok count), m2, l2) /\
    log = pre ++ l1 ++ l2 ++ post.

End Job.

Arguments HubState : clear implicits.
Arguments Call : clear implicits.
Arguments Prog : clear implicits.
Arguments Event : clear implicits.
Arguments Machine : clear implicits.
Arguments Pool : clear implicits.
Arguments Ret {Message HubStateRest R} r.
Arguments Throw {Message HubStateRest R} e.
Arguments Spin {Message HubStateRest R}.
Arguments GetRunning {Message HubStateRest R} k.
Arguments SetRunning {Message HubStateRest R} b k.
Arguments Do {Message HubStateRest R} c k.

(** ** A concrete hub

    The key layout and tags of [db/types], a store holding three FIDs, and
    an engine whose answers are given by a table; used to evaluate the job
    on explicit inputs. *)
Module Hub.

Definition Message : Type := bytes.
Definition FID_BYTES : nat := 4.
Definition TSHASH_LENGTH : nat := 24.
Definition UserMessagePostfixMax : Z := 7.
Definition UsernameProofMessage : Z := 7.
Definition UserDataMessage : Z := 6.
Definition CastMessage : Z := 1.

Definition byteOf (n : Z) : byte :=
  match Byte.of_N (Z.to_N (Z.land n 255)) with
  | Some b => b
  | None => x00
  end.

(** An instance of [makeUserKey]: the user marker followed by the FID,
    big-endian. *)
Definition makeUserKey (fid : Z) : bytes :=
  x01 :: map (fun shift => byteOf (Z.shiftr fid shift)) [24; 16; 8; 0].

Definition FARCASTER_EPOCH : Z := 1609459200000.

(** [toFarcasterTime] of the hub library: the seconds since the Farcaster
    epoch, [Math.round((time - FARCASTER_EPOCH) / 1000)], an error before
    the epoch or past 32 bits.  On a whole number of milliseconds the
    rounding to the nearest second, halves up, is the floor of
    [(time - FARCASTER_EPOCH + 500) / 1000]. *)
Definition toFarcasterTime (time : Z) : Result Z :=
  if time <? FARCASTER_EPOCH
  then err (mkHubError "bad_request.invalid_param"
              "time must be after Farcaster epoch (01/01/2022)")
  else
    let secondsSinceEpoch := (time - FARCASTER_EPOCH + 500) / 1000 in
    if secondsSinceEpoch >? 2 ^ 32 - 1
    then err (mkHubError "bad_request.invalid_param" "time too far in future")
    else ok secondsSinceEpoch.

(** *** The cron expressions node-cron accepts

    Five fields (minute, hour, day of month, month, day of week) or six with
    the seconds first, separated by blanks.  A field is a list, separated
    by commas, of [*], a number or a range [a-b], each with an optional step
    [/n]; every number must lie in the range of its field.  Names of months
    and of days are not covered here. *)
Fixpoint splitOn (sep : ascii) (s : string) : list string :=
  match s with
  | EmptyString => [EmptyString]
  | String c rest =>
      if Ascii.eqb c sep then EmptyString :: splitOn sep rest
      else
        match splitOn sep rest with
        | [] => [String c EmptyString]
        | field :: fields => String c field :: fields
        end
  end.

Definition digit (c : ascii) : option Z :=
  let n := Z.of_N (N_of_ascii c) in
  if (48 <=? n) && (n <=? 57) then Some (n - 48) else None.

Fixpoint numberFrom (acc : Z) (s : string) : option Z :=
  match s with
  | EmptyString => Some acc
  | String c rest =>
      match digit c with
      | Some d => numberFrom (10 * acc + d) rest
      | None => None
      end
  end.

Definition number (s : string) : option Z :=
  match s with
  | EmptyString => None
  | _ => numberFrom 0 s
  end.

Definition inRange (lo hi : Z) (s : string) : bool :=
  match number s with
  | Some n => (lo <=? n) && (n <=? hi)
  | None => false
  end.

Definition validBase (lo hi : Z) (s : string) : bool :=
  if String.eqb s "*" then true
  else
    match splitOn "-" s with
    | [n] => inRange lo hi n
    | [a; b] => inRange lo hi a && inRange lo hi b
    | _ => false
    end.

Definition validItem (lo hi : Z) (s : string) : bool :=
  match splitOn "/" s with
  | [base] => validBase lo hi base
  | [base; step] =>
      validBase lo hi base &&
      match number step with
      | Some n => 0 <? n
      | None => false
      end
  | _ => false
  end.

Definition validField (lo hi : Z) (s : string) : bool :=
  forallb (validItem lo hi) (splitOn "," s).

Definition validate (expression : string) : bool :=
  let fields :=
    filter (fun field => negb (String.eqb field EmptyString)) (splitOn " " expression) in
  let fiveFields minute hour day month weekday :=
    validField 0 59 minute && validField 0 23 hour && validField 1 31 day &&
    validField 1 12 month && validField 0 7 weekday in
  match fields with
  | [minute; hour; day; month; weekday] => fiveFields minute hour day month weekday
  | [second; minute; hour; day; month; weekday] =>
      validField 0 59 second && fiveFields minute hour day month weekday
  | _ => false
  end.

(** The scheduler after [start()] with the default expression, which
    node-cron accepts. *)
Definition scheduled : Scheduler :=
  match start validate None newScheduler with
  | Some s => s
  | None => newScheduler
  end.

(** The tables behind the engine, the store's iterator and the decoder. *)
Record Tables : Type := mkTables {
  fidsTable : option bytes -> Result FidsPage;
  signersTable : Z -> option bytes -> Result SignersPage;
  entriesTable : bytes -> list (bytes * bytes);
  decodeTable : bytes -> Result Message;
  validateTable : Message -> Result (option Z)
}.

(** The world: the stored hub state and the wall clock. *)
Record World : Type := mkWorld {
  storedHubState : HubState unit;
  wallClock : Z
}.

Definition handle (t : Tables) (c : Call Message unit) : World -> Resp c * World :=
  match c return World -> Resp c * World with
  | GetHubState => fun w => (ok (storedHubState w), w)
  | PutHubState h => fun w => (ok tt, {| storedHubState := h; wallClock := wallClock w |})
  | GetFids pageToken _ => fun w => (fidsTable t pageToken, w)
  | GetOnChainSignersByFid fid pageToken => fun w => (signersTable t fid pageToken, w)
  | ForEachIteratorByPrefix prefix _ => fun w => (entriesTable t prefix, w)
  | MessageDecode value => fun w => (decodeTable t value, w)
  | ValidateOrRevokeMessage m => fun w => (validateTable t m, w)
  | DateNow => fun w =>
      (wallClock w, {| storedHubState := storedHubState w; wallClock := wallClock w + 1000 |})
  end.

(** A record key of [fid] with type tag [postfix], and keys that are not. *)
Definition recordKey (fid postfix : Z) (last : byte) : bytes :=
  makeUserKey fid ++ [byteOf postfix] ++ repeat x00 23 ++ [last].

Definition shortKey (fid : Z) : bytes := makeUserKey fid ++ [x63].

(** Each FID holds a cast, a user-data record, a username proof, a key of
    the record length with tag 200, and a short index key. *)
Definition entriesOf (fid : Z) : list (bytes * bytes) :=
  [ (recordKey fid CastMessage x01, [x0a]);
    (recordKey fid UserDataMessage x02, [x0b]);
    (recordKey fid UsernameProofMessage x03, [x0c]);
    (recordKey fid 200 x04, [x0d]);
    (shortKey fid, [x0e]) ].

Definition bytesEqb (a b : bytes) : bool :=
  if list_eq_dec Byte.byte_eq_dec a b then true else false.

Definition entries (prefix : bytes) : list (bytes * bytes) :=
  if bytesEqb prefix (makeUserKey 1) then entriesOf 1
  else if bytesEqb prefix (makeUserKey 2) then entriesOf 2
  else if bytesEqb prefix (makeUserKey 3) then entriesOf 3
  else [].

Definition unavailable : HubError := mkHubError "unavailable" "event source unreachable".

(** 2021-01-02 and 2021-01-03 in seconds since the Unix epoch. *)
Definition day2 : Z := 1609545600.
Definition day3 : Z := 1609632000.

(** The three-FID store of the scenario: FID 2 has a signer event on day 3,
    the others have none. *)
Definition threeFids : Tables :=
  {| fidsTable := fun _ => ok {| fids := [1; 2; 3]; fidsNextPageToken := None |};
     signersTable := fun fid _ =>
       ok {| events := if fid =? 2 then [mkOnChainEvent day3] else [];
             eventsNextPageToken := None |};
     entriesTable := entries;
     decodeTable := fun value => ok value;
     validateTable := fun _ => ok None |}.

(** The same store when the signer query fails for FID 1. *)
Definition signersFailForFid1 : Tables :=
  {| fidsTable := fidsTable threeFids;
     signersTable := fun fid pageToken =>
       if fid =? 1 then err unavailable else signersTable threeFids fid pageToken;
     entriesTable := entries;
     decodeTable := fun value => ok value;
     validateTable := fun _ => ok None |}.

(** The same store when FID 1 has two pages of signer events: the first page
    carries a token, the page asked for with that token is the last. *)
Definition twoSignerPages : Tables :=
  {| fidsTable := fidsTable threeFids;
     signersTable := fun fid pageToken =>
       if fid =? 1 then
         match pageToken with
         | None => ok {| events := [mkOnChainEvent day2]; eventsNextPageToken := Some [x01] |}
         | Some _ => ok {| events := [mkOnChainEvent day3]; eventsNextPageToken := None |}
         end
       else signersTable threeFids fid pageToken;
     entriesTable := entries;
     decodeTable := fun value => ok value;
     validateTable := fun _ => ok None |}.

(** The same store when the FIDs come in two pages and the query for the
    second page fails. *)
Definition fidsFail : Tables :=
  {| fidsTable := fun pageToken =>
       match pageToken with
       | None => ok {| fids := [1; 2]; fidsNextPageToken := Some [x02] |}
       | Some _ => err unavailable
       end;
     signersTable := signersTable threeFids;
     entriesTable := entries;
     decodeTable := fun value => ok value;
     validateTable := fun _ => ok None |}.

(** A checkpoint left by a run that completed at the end of day 2. *)
Definition checkpointed (lastFid : Z) : HubState unit :=
  {| validateOrRevokeState := Some {| lastJobTimestamp := 86400 ; lastFid := lastFid |};
     otherFields := tt |}.

Definition idle (lastFid : Z) : Machine World :=
  {| sched := scheduled;
     world := {| storedHubState := checkpointed lastFid;
                 wallClock := (day3 + 3600) * 1000 |} |}.

Definition job (fuel : nat) : Prog Message unit (Result Z) :=
  doJobs FID_BYTES TSHASH_LENGTH UserMessagePostfixMax UsernameProofMessage
    UserDataMessage makeUserKey toFarcasterTime fuel.

Definition jobForFid (fuel : nat) (lastJobTimestamp fid : Z)
    : Prog Message unit (Result Z) :=
  doJobForFid FID_BYTES TSHASH_LENGTH UserMessagePostfixMax makeUserKey
    toFarcasterTime fuel lastJobTimestamp fid.

Definition usernamesJobForFid (fid : Z) : Prog Message unit (Result Z) :=
  doUsernamesJobForFid FID_BYTES TSHASH_LENGTH UsernameProofMessage UserDataMessage
    makeUserKey fid.

Definition fidLoop (fuel : nat) (lastJobTimestamp lastFid : Z) (fids : list Z)
    (totals : Z * Z) : Prog Message unit (Z * Z) :=
  forFids FID_BYTES TSHASH_LENGTH UserMessagePostfixMax UsernameProofMessage
    UserDataMessage makeUserKey toFarcasterTime fuel lastJobTimestamp lastFid fids totals.

Definition signerLoop (fuel : nat) (fid : Z) : Prog Message unit (Result (list OnChainEvent)) :=
  fetchAllSigners fuel fid [] None.

(** The process after the given triggers and resumptions, from the idle
    scheduler with no resume point. *)
Definition process (t : Tables) (actions : list Action) : Pool Message unit World :=
  schedule FID_BYTES TSHASH_LENGTH UserMessagePostfixMax UsernameProofMessage
    UserDataMessage makeUserKey toFarcasterTime (handle t) actions (idlePool (idle 0)).

(** The calls of one sweep that decodes and validates [values]. *)
Definition sweepCalls (fid : Z) (values : list bytes) : list (Call Message unit) :=
  ForEachIteratorByPrefix (makeUserKey fid) iteratorTimeoutMs ::
  flat_map (fun value => [MessageDecode value; ValidateOrRevokeMessage value]) values.

(** The scheduler and its world after the run in which the FID query
    failed. *)
Definition afterFailedPage : Machine World :=
  snd (fst (run (handle fidsFail) (job 5) (idle 0))).

(** The hub state after a full scan started at the idle scheduler's clock. *)
Definition completed : HubState unit :=
  {| validateOrRevokeState := Some {| lastJobTimestamp := 176400; lastFid := 0 |};
     otherFields := tt |}.

(** The hub whose store rejects every write of the hub state. *)
Definition handleReadOnly (t : Tables) (c : Call Message unit) : World -> Resp c * World :=
  match c return World -> Resp c * World with
  | PutHubState h => fun w => (err unavailable, w)
  | c' => handle t c'
  end.

(** The iteration of each sweep over given entries, on this hub. *)
Definition messageEntries (entries : list (bytes * bytes)) (count : Z)
    : Prog Message unit Z :=
  forEachEntry (messageCallback FID_BYTES TSHASH_LENGTH UserMessagePostfixMax)
    entries count.

Definition usernameEntries (entries : list (bytes * bytes)) (count : Z)
    : Prog Message unit Z :=
  forEachEntry
    (usernameCallback FID_BYTES TSHASH_LENGTH UsernameProofMessage UserDataMessage)
    entries count.

(** [processedIn] and [callFor] on this hub. *)
Definition workedOn (t : Tables) (fuel : nat) (lastJobTimestamp fid : Z)
    (log : list (Event Message unit)) : Prop :=
  processedIn FID_BYTES TSHASH_LENGTH UserMessagePostfixMax UsernameProofMessage
    UserDataMessage makeUserKey toFarcasterTime (handle t) fuel lastJobTimestamp fid log.

Definition callFrom (X : Z) (c : Call Message unit) : Prop :=
  callFor makeUserKey (fun fid => X <= fid) c.

(** A method call on the scheduler of this hub. *)
Definition call_method (t : Tables) (m : Machine World) (method : Method) : Machine World :=
  invoke FID_BYTES TSHASH_LENGTH UserMessagePostfixMax UsernameProofMessage
    UserDataMessage makeUserKey toFarcasterTime validate (handle t) m method.

(** The scheduler as constructed, before any [start]. *)
Definition fresh : Machine World :=
  {| sched := newScheduler; world := world (idle 0) |}.

End Hub.

(** * Properties *)

Section JobProperties.

Context {Message HubStateRest : Type}.
Variables (FID_BYTES TSHASH_LENGTH : nat).
Variables (UserMessagePostfixMax UsernameProofMessage UserDataMessage : Z).
Variable makeUserKey : Z -> bytes.
Variable toFarcasterTime : Z -> Result Z.
Variable validate : string -> bool.
Context {W : Type}.
Variable handle : forall c : Call Message HubStateRest, W -> Resp c * W.

Local Abbreviation Prog := (Prog Message HubStateRest).
Local Abbreviation Machine := (Machine W).
Local Abbreviation Event := (Event Message HubStateRest).
Local Abbreviation run := (run handle).
Local Abbreviation settle := (settle handle).
Local Abbreviation recordKeyLength := (recordKeyLength FID_BYTES TSHASH_LENGTH).
Local Abbreviation messageCallback :=
  (@messageCallback Message HubStateRest FID_BYTES TSHASH_LENGTH UserMessagePostfixMax).
Local Abbreviation usernameCallback :=
  (@usernameCallback Message HubStateRest FID_BYTES TSHASH_LENGTH
     UsernameProofMessage UserDataMessage).
Local Abbreviation latestSignerEventTs := (latestSignerEventTs toFarcasterTime).
Local Abbreviation isUsernameKey :=
  (isUsernameKey FID_BYTES TSHASH_LENGTH UsernameProofMessage UserDataMessage).
Local Abbreviation decodedValues := (@decodedValues Message HubStateRest).
Local Abbreviation decodeAndValidate := (@decodeAndValidate Message HubStateRest).
Local Abbreviation justTriggered :=
  (justTriggered FID_BYTES TSHASH_LENGTH UserMessagePostfixMax
     UsernameProofMessage UserDataMessage makeUserKey toFarcasterTime handle).
Local Abbreviation oneRun :=
  (oneRun FID_BYTES TSHASH_LENGTH UserMessagePostfixMax
     UsernameProofMessage UserDataMessage makeUserKey toFarcasterTime handle).
Local Abbreviation wellTimed :=
  (wellTimed FID_BYTES TSHASH_LENGTH UserMessagePostfixMax
     UsernameProofMessage UserDataMessage makeUserKey toFarcasterTime handle).
Local Abbreviation doJobForFid :=
  (@doJobForFid Message HubStateRest FID_BYTES TSHASH_LENGTH UserMessagePostfixMax
     makeUserKey toFarcasterTime).
Local Abbreviation doUsernamesJobForFid :=
  (@doUsernamesJobForFid Message HubStateRest FID_BYTES TSHASH_LENGTH
     UsernameProofMessage UserDataMessage makeUserKey).
Local Abbreviation processFid :=
  (@processFid Message HubStateRest FID_BYTES TSHASH_LENGTH UserMessagePostfixMax
     UsernameProofMessage UserDataMessage makeUserKey toFarcasterTime).
Local Abbreviation forFids :=
  (@forFids Message HubStateRest FID_BYTES TSHASH_LENGTH UserMessagePostfixMax
     UsernameProofMessage UserDataMessage makeUserKey toFarcasterTime).
Local Abbreviation forPages :=
  (@forPages Message HubStateRest FID_BYTES TSHASH_LENGTH UserMessagePostfixMax
     UsernameProofMessage UserDataMessage makeUserKey toFarcasterTime).
Local Abbreviation finishJob := (@finishJob Message HubStateRest toFarcasterTime).
Local Abbreviation doJobs :=
  (@doJobs Message HubStateRest FID_BYTES TSHASH_LENGTH UserMessagePostfixMax
     UsernameProofMessage UserDataMessage makeUserKey toFarcasterTime).
Local Abbreviation start := (start validate).
Local Abbreviation invoke :=
  (invoke FID_BYTES TSHASH_LENGTH UserMessagePostfixMax
     UsernameProofMessage UserDataMessage makeUserKey toFarcasterTime validate handle).
Local Abbreviation act :=
  (act FID_BYTES TSHASH_LENGTH UserMessagePostfixMax
     UsernameProofMessage UserDataMessage makeUserKey toFarcasterTime handle).
Local Abbreviation schedule :=
  (schedule FID_BYTES TSHASH_LENGTH UserMessagePostfixMax
     UsernameProofMessage UserDataMessage makeUserKey toFarcasterTime handle).

(** ** The interpreter *)

Lemma logged_nil {R} (r : Outcome R * Machine * list Event) : logged [] r = r.
Proof. destruct r as [[o m] l]; reflexivity. Qed.

(** Running a sequence: the first part, then the rest on the machine it
    left; a rejection or an exhausted loop ends the whole. *)
Lemma run_bind {A B} (p : Prog A) (f : A -> Prog B) (m : Machine) :
  run (bind p f) m =
  match run p m with
  | (Returned a, m1, l1) => logged l1 (run (f a) m1)
  | (Rejected e, m1, l1) => (Rejected e, m1, l1)
  | (OutOfFuel, m1, l1) => (OutOfFuel, m1, l1)
  end.
Proof.
  revert m; induction p as [a | e | | k IH | b k IH | c k IH]; intros m; simpl.
  - now rewrite logged_nil.
  - reflexivity.
  - reflexivity.
  - apply IH.
  - apply IH.
  - destruct (handle c (world m)) as [x w].
    rewrite IH.
    destruct (run (k x) (setWorld w m)) as [[o m1] l1].
    destruct o; try reflexivity.
    destruct (run (f r) m1) as [[o2 m2] l2]; reflexivity.
Qed.

(** No program touches the registered cron task. *)
Lemma run_cronTask {R} (p : Prog R) (m : Machine) :
  _cronTask (sched (snd (fst (run p m)))) = _cronTask (sched m).
Proof.
  revert m; induction p as [a | e | | k IH | b k IH | c k IH]; intros m; simpl;
    try reflexivity.
  - apply IH.
  - now rewrite IH.
  - destruct (handle c (world m)) as [x w].
    specialize (IH x (setWorld w m)).
    destruct (run (k x) (setWorld w m)) as [[o m1] l1]; exact IH.
Qed.

(** Run alone, an invocation does what its pieces between [await]s do. *)
Lemma run_settle {R} (t : Prog R) (m : Machine) :
  run t m = logged (snd (settle t m)) (run (fst (fst (settle t m))) (snd (fst (settle t m)))).
Proof.
  revert m. induction t as [r | e | | k IH | b k IH | c k IH]; intros m;
    cbn [settle fst snd]; try (now rewrite logged_nil).
  - apply IH.
  - apply IH.
  - destruct (suspends c); cbn [fst snd]; [now rewrite logged_nil |].
    cbn [run].
    destruct (handle c (world m)) as [x w].
    rewrite IH.
    destruct (settle (k x) (setWorld w m)) as [[t' m'] log]. cbn [fst snd].
    destruct (run t' m') as [[o m''] log']. reflexivity.
Qed.

Lemma run_resume {R} (t : Prog R) (m : Machine) :
  run t m =
  logged (snd (resume handle t m))
    (run (fst (fst (resume handle t m))) (snd (fst (resume handle t m)))).
Proof.
  destruct t as [r | e | | k | b k | c k]; cbn [resume fst snd];
    try (now rewrite logged_nil).
  cbn [run].
  destruct (handle c (world m)) as [x w].
  rewrite run_settle.
  destruct (settle (k x) (setWorld w m)) as [[t' m'] log]. cbn [fst snd].
  destruct (run t' m') as [[o m''] log']. reflexivity.
Qed.

(** ** Where the flag is touched *)

Lemma Quiet_bind {A B} (p : Prog A) (f : A -> Prog B) :
  Quiet p -> (forall a, Quiet (f a)) -> Quiet (bind p f).
Proof.
  intros Hp Hf. induction Hp; cbn [bind]; try constructor; auto.
Qed.

Lemma Scanning_bind {A B} (p : Prog A) (f : A -> Prog B) :
  Quiet p -> (forall a, Scanning (f a)) -> Scanning (bind p f).
Proof.
  intros Hp Hf. induction Hp; cbn [bind]; try constructor; auto.
Qed.

Lemma Quiet_call (c : Call Message HubStateRest) : Quiet (call c).
Proof. unfold call. constructor. intros x. constructor. Qed.

Lemma Quiet_orThrow {A} (p : Prog (Result A)) : Quiet p -> Quiet (orThrow p).
Proof.
  intros Hp. unfold orThrow. apply Quiet_bind; [assumption |].
  intros [a | e]; constructor.
Qed.

Ltac quiet :=
  repeat first
    [ apply Quiet_call
    | apply Quiet_orThrow
    | apply Quiet_bind
    | assumption
    | intro
    | match goal with
      | |- Quiet (call ?c) => exact (Quiet_call c)
      | |- Quiet (match ?x with _ => _ end) => destruct x
      | |- Quiet (Ret _) => constructor
      | |- Quiet (Throw _) => constructor
      | |- Quiet Spin => constructor
      end ].

Lemma Quiet_forEachEntry (callback : bytes -> bytes -> Z -> Prog Z)
    (entries : list (bytes * bytes)) :
  (forall key value count, Quiet (callback key value count)) ->
  forall count, Quiet (forEachEntry callback entries count).
Proof.
  intros Hcallback.
  induction entries as [| [key value] entries IH]; intros count; cbn [forEachEntry].
  - constructor.
  - apply Quiet_bind; auto.
Qed.

Lemma Quiet_messageCallback (key value : bytes) (count : Z) :
  Quiet (messageCallback key value count).
Proof. unfold messageCallback, decodeAndValidate. quiet. Qed.

Lemma Quiet_usernameCallback (key value : bytes) (count : Z) :
  Quiet (usernameCallback key value count).
Proof. unfold usernameCallback, decodeAndValidate. quiet. Qed.

Lemma Quiet_fetchAllSigners (fuel : nat) (fid : Z) :
  forall allSigners pageToken,
    Quiet (@fetchAllSigners Message HubStateRest fuel fid allSigners pageToken).
Proof.
  induction fuel as [| fuel IH]; intros allSigners pageToken; cbn [fetchAllSigners].
  - constructor.
  - quiet. apply IH.
Qed.

Lemma Quiet_doJobForFid (fuel : nat) (lastJobTimestamp fid : Z) :
  Quiet (doJobForFid fuel lastJobTimestamp fid).
Proof.
  unfold doJobForFid, forEachIteratorByPrefix.
  apply Quiet_bind; [apply Quiet_fetchAllSigners |].
  quiet. apply Quiet_forEachEntry. apply Quiet_messageCallback.
Qed.

Lemma Quiet_doUsernamesJobForFid (fid : Z) : Quiet (doUsernamesJobForFid fid).
Proof.
  unfold doUsernamesJobForFid, forEachIteratorByPrefix.
  quiet. apply Quiet_forEachEntry. apply Quiet_usernameCallback.
Qed.

Lemma Quiet_processFid (fuel : nat) (lastJobTimestamp fid : Z) (totals : Z * Z) :
  Quiet (processFid fuel lastJobTimestamp fid totals).
Proof.
  unfold processFid, tally.
  apply Quiet_bind; [apply Quiet_doJobForFid |]. intros numChecked.
  apply Quiet_bind; [apply Quiet_doUsernamesJobForFid |]. intros numUsernamesChecked.
  cbv zeta. quiet.
Qed.

Lemma Quiet_forFids (fuel : nat) (lastJobTimestamp lastFid : Z) (fids : list Z) :
  forall totals, Quiet (forFids fuel lastJobTimestamp lastFid fids totals).
Proof.
  induction fids as [| fid rest IH]; intros totals; cbn [forFids].
  - constructor.
  - destruct ((lastFid >? 0) && (fid <? lastFid)); [apply IH |].
    apply Quiet_bind; [apply Quiet_processFid | apply IH].
Qed.

Lemma Quiet_forPages (fuel : nat) (lastJobTimestamp lastFid : Z) (pages : nat) :
  forall pageToken totals,
    Quiet (forPages pages fuel lastJobTimestamp lastFid pageToken totals).
Proof.
  induction pages as [| pages IH]; intros pageToken totals; cbn [forPages].
  - constructor.
  - apply Quiet_bind; [quiet |]. intros [page | e]; [| constructor].
    apply Quiet_bind; [apply Quiet_forFids |]. intros totals'.
    destruct (fidsNextPageToken page); [apply IH | constructor].
Qed.

Lemma Scanning_finishJob (start totalMessagesChecked : Z) :
  Scanning (finishJob start totalMessagesChecked).
Proof.
  unfold finishJob.
  apply Scanning_bind; [quiet |]. intros _.
  apply Scanning_bind; [quiet |]. intros hubState.
  apply Scanning_bind; [quiet |]. intros _.
  constructor.
Qed.

(** A program that does not touch the flag leaves the scheduler object as
    it was. *)
Lemma run_Quiet {R} (p : Prog R) :
  Quiet p -> forall m, sched (snd (fst (run p m))) = sched m.
Proof.
  induction 1 as [r | e | | c k Hk IH]; intros m; cbn [run fst snd]; try reflexivity.
  destruct (handle c (world m)) as [x w].
  specialize (IH x (setWorld w m)).
  destruct (run (k x) (setWorld w m)) as [[o m1] l1]. exact IH.
Qed.

(** ** The record sweeps *)

(** A key on which the callback does nothing can be dropped from the
    iteration. *)
Lemma forEachEntry_skip (callback : bytes -> bytes -> Z -> Prog Z)
    (key value : bytes) (pre post : list (bytes * bytes)) :
  (forall count m, run (callback key value count) m = (Returned count, m, [])) ->
  forall count m,
    run (forEachEntry callback (pre ++ (key, value) :: post) count) m =
    run (forEachEntry callback (pre ++ post) count) m.
Proof.
  intros Hskip.
  induction pre as [| [k v] pre IH]; intros count m; simpl.
  - rewrite run_bind, Hskip. apply logged_nil.
  - rewrite !run_bind.
    destruct (run (callback k v count) m) as [[o m1] l1].
    destruct o; try reflexivity.
    now rewrite IH.
Qed.

Lemma messageCallback_skips (key value : bytes) (count : Z) (m : Machine) :
  List.length key <> recordKeyLength \/
  (exists postfix,
      readUint8 key (1 + FID_BYTES) = Some postfix /\ UserMessagePostfixMax < postfix) ->
  run (messageCallback key value count) m = (Returned count, m, []).
Proof.
  intros [Hlen | [postfix [Hread Hmax]]]; unfold messageCallback.
  - apply Nat.eqb_neq in Hlen. now rewrite Hlen.
  - destruct (Nat.eqb (List.length key) recordKeyLength); [| reflexivity].
    cbn [negb]. rewrite Hread.
    assert ((postfix >? UserMessagePostfixMax) = true) as -> by (apply Z.gtb_lt; lia).
    reflexivity.
Qed.

Lemma usernameCallback_skips (key value : bytes) (count : Z) (m : Machine) :
  List.length key <> recordKeyLength \/
  (exists postfix,
      readUint8 key (1 + FID_BYTES) = Some postfix /\
      postfix <> UsernameProofMessage /\ postfix <> UserDataMessage) ->
  run (usernameCallback key value count) m = (Returned count, m, []).
Proof.
  intros [Hlen | [postfix [Hread [Hproof Hdata]]]]; unfold usernameCallback.
  - apply Nat.eqb_neq in Hlen. now rewrite Hlen.
  - destruct (Nat.eqb (List.length key) recordKeyLength); [| reflexivity].
    cbn [negb]. rewrite Hread.
    apply Z.eqb_neq in Hproof, Hdata. now rewrite Hproof, Hdata.
Qed.

(** C9.  A key whose length is not the record-key length
    [1 + FID_BYTES + 1 + TSHASH_LENGTH], or whose type tag lies above
    [UserMessagePostfixMax], is skipped by both sweeps: on such a key the
    callback of [doJobForFid] and the callback of [doUsernamesJobForFid]
    return normally with the count unchanged and make no call at all, so
    neither [messageDecode] nor [validateOrRevokeMessage] sees the record;
    the iteration then goes on exactly as if the key were not there.  The
    two tags of the username sweep are record tags, hence not above the
    maximum. *)
Theorem sweeps_skip_non_record_keys (key value : bytes) :
  UsernameProofMessage <= UserMessagePostfixMax ->
  UserDataMessage <= UserMessagePostfixMax ->
  List.length key <> recordKeyLength \/
  (exists postfix,
      readUint8 key (1 + FID_BYTES) = Some postfix /\ UserMessagePostfixMax < postfix) ->
  (forall count m,
      run (messageCallback key value count) m = (Returned count, m, []) /\
      run (usernameCallback key value count) m = (Returned count, m, [])) /\
  (forall pre post count m,
      run (forEachEntry messageCallback (pre ++ (key, value) :: post) count) m =
      run (forEachEntry messageCallback (pre ++ post) count) m /\
      run (forEachEntry usernameCallback (pre ++ (key, value) :: post) count) m =
      run (forEachEntry usernameCallback (pre ++ post) count) m).
Proof.
  intros Hproof Hdata Hbad.
  assert (Hmsg : forall count m,
             run (messageCallback key value count) m = (Returned count, m, []))
    by (intros; now apply messageCallback_skips).
  assert (Husr : forall count m,
             run (usernameCallback key value count) m = (Returned count, m, [])).
  { intros; apply usernameCallback_skips.
    destruct Hbad as [Hlen | [postfix [Hread Hmax]]]; [now left | right].
    exists postfix; repeat split; trivial; lia. }
  split.
  - intros; split; [apply Hmsg | apply Husr].
  - intros; split; now apply forEachEntry_skip.
Qed.

(** ** The signer-change sweep *)

(** The signer loop asks for the first page and nothing else. *)
Lemma fetchAllSigners_calls (fuel : nat) (fid : Z) (allSigners : list OnChainEvent)
    (pageToken : option bytes) (m : Machine) :
  Forall (fun c => c = GetOnChainSignersByFid fid None)
    (callsOf (snd (run (fetchAllSigners fuel fid allSigners pageToken) m))).
Proof.
  revert allSigners pageToken m.
  induction fuel as [| fuel IH]; intros allSigners pageToken m; simpl.
  - constructor.
  - destruct (handle (GetOnChainSignersByFid fid None) (world m)) as [signers w].
    destruct signers as [page | e]; simpl.
    + destruct (eventsNextPageToken page) as [nextPageToken |]; simpl.
      * specialize (IH (allSigners ++ events page) (Some nextPageToken) (setWorld w m)).
        destruct (run (fetchAllSigners fuel fid (allSigners ++ events page)
                         (Some nextPageToken)) (setWorld w m)) as [[o m1] l1].
        simpl in *. now constructor.
      * repeat constructor.
    + repeat constructor.
Qed.

Lemma signer_calls_are_not_record_calls (fid : Z) (calls : list (Call Message HubStateRest)) :
  Forall (fun c => c = GetOnChainSignersByFid fid None) calls ->
  filter (@isRecordCall Message HubStateRest) calls = [].
Proof.
  induction 1 as [| c calls Hc _ IH]; simpl; [reflexivity |].
  now subst c.
Qed.

(** X15.  When the signer loop of a FID has returned its events and the
    newest of them, as a Farcaster time (the fallback 0 when the conversion
    fails), lies strictly before [lastJobTimestamp], [doJobForFid] returns
    [ok 0] right after the signer queries: it starts no iteration, decodes
    nothing and validates nothing. *)
Theorem doJobForFid_skips_unchanged_fid (fuel : nat) (lastJobTimestamp fid : Z)
    (m m1 : Machine) (allSigners : list OnChainEvent) (l1 : list Event) :
  run (fetchAllSigners fuel fid [] None) m = (Returned (ok allSigners), m1, l1) ->
  latestSignerEventTs allSigners < lastJobTimestamp ->
  run (doJobForFid fuel lastJobTimestamp fid) m = (Returned (ok 0), m1, l1) /\
  filter (@isRecordCall Message HubStateRest) (callsOf l1) = [].
Proof.
  intros Hfetch Hold. split.
  - unfold doJobForFid. rewrite run_bind, Hfetch.
    apply Z.ltb_lt in Hold. rewrite Hold. simpl. now rewrite app_nil_r.
  - apply signer_calls_are_not_record_calls with (fid := fid).
    pose proof (fetchAllSigners_calls fuel fid [] None m) as Hcalls.
    now rewrite Hfetch in Hcalls.
Qed.

(** While the first page of a FID's signer events carries a page token and
    the query answers the same each time, the signer loop never ends: it
    asks for the first page again and again. *)
Lemma fetchAllSigners_spins (fid : Z) (page : SignersPage) (nextPageToken : bytes) :
  (forall w, handle (GetOnChainSignersByFid fid None) w = (ok page, w)) ->
  eventsNextPageToken page = Some nextPageToken ->
  forall fuel allSigners pageToken m,
    fst (fst (run (fetchAllSigners fuel fid allSigners pageToken) m)) = OutOfFuel.
Proof.
  intros Hpage Htoken.
  induction fuel as [| fuel IH]; intros allSigners pageToken m; simpl.
  - reflexivity.
  - rewrite Hpage. simpl. rewrite Htoken.
    specialize (IH (allSigners ++ events page) (Some nextPageToken) (setWorld (world m) m)).
    destruct (run (fetchAllSigners fuel fid (allSigners ++ events page)
                     (Some nextPageToken)) (setWorld (world m) m)) as [[o m1] l1].
    exact IH.
Qed.

(** [doJobForFid] never returns for a FID whose first page of signer events
    carries a page token. *)
Lemma doJobForFid_spins (fid : Z) (page : SignersPage) (nextPageToken : bytes) :
  (forall w, handle (GetOnChainSignersByFid fid None) w = (ok page, w)) ->
  eventsNextPageToken page = Some nextPageToken ->
  forall fuel lastJobTimestamp m,
    fst (fst (run (doJobForFid fuel lastJobTimestamp fid) m)) = OutOfFuel.
Proof.
  intros Hpage Htoken fuel lastJobTimestamp m.
  unfold doJobForFid. rewrite run_bind.
  pose proof (fetchAllSigners_spins Hpage Htoken fuel [] None m) as Hspin.
  destruct (run (fetchAllSigners fuel fid [] None) m) as [[o m1] l1].
  cbn [fst] in Hspin. now subst o.
Qed.

(** A run whose first FID to process never comes back from [doJobForFid]
    never comes back either. *)
Lemma doJobs_spins (fuel : nat) (m : Machine) (hubState : HubState HubStateRest)
    (start : Z) (page : FidsPage) (fid : Z) (rest : list Z) (w w1 w2 : W) :
  _running (sched m) = false ->
  handle GetHubState (world m) = (ok hubState, w) ->
  handle DateNow w = (start, w1) ->
  handle (GetFids None fidsPageSize) w1 = (ok page, w2) ->
  fids page = fid :: rest ->
  (checkpointFid hubState >? 0) && (fid <? checkpointFid hubState) = false ->
  (forall lastJobTimestamp m',
      fst (fst (run (doJobForFid (S fuel) lastJobTimestamp fid) m')) = OutOfFuel) ->
  fst (fst (run (doJobs (S fuel)) m)) = OutOfFuel.
Proof.
  intros Hidle Hget Hnow Hfids Hpage Hkept Hspin.
  unfold doJobs. cbn [run]. rewrite Hidle.
  cbn [bind call]. cbn [run]. rewrite Hget.
  cbn [run world setWorld setRunning]. rewrite Hnow.
  rewrite run_bind. cbn [forPages bind call]. cbn [run].
  cbn [world setWorld setRunning]. rewrite Hfids.
  rewrite run_bind, Hpage. cbn [forFids]. rewrite Hkept.
  rewrite run_bind. unfold processFid. rewrite run_bind.
  match goal with
  | |- context [run (doJobForFid (S fuel) ?ts fid) ?m'] =>
      pose proof (Hspin ts m') as Hhere;
      destruct (run (doJobForFid (S fuel) ts fid) m') as [[o m1] l1]
  end.
  cbn [fst] in Hhere. subst o. reflexivity.
Qed.

(** ** One FID *)

(** Whatever [doJobForFid] returned, the username sweep comes next. *)
Lemma processFid_after_doJobForFid (fuel : nat) (lastJobTimestamp fid : Z)
    (totals : Z * Z) (m m1 : Machine) (numChecked : Result Z) (l1 : list Event) :
  run (doJobForFid fuel lastJobTimestamp fid) m = (Returned numChecked, m1, l1) ->
  run (processFid fuel lastJobTimestamp fid totals) m =
  logged l1
    (run (bind (doUsernamesJobForFid fid)
            (fun numUsernamesChecked =>
               tally lastJobTimestamp fid numChecked numUsernamesChecked totals)) m1).
Proof.
  intros Hjob. unfold processFid. now rewrite run_bind, Hjob.
Qed.

(** An error of [doJobForFid] is tallied as [ok 0]. *)
Lemma tally_err (lastJobTimestamp fid : Z) (e : HubError)
    (numUsernamesChecked : Result Z) (totals : Z * Z) :
  @tally Message HubStateRest lastJobTimestamp fid (err e) numUsernamesChecked totals =
  tally lastJobTimestamp fid (ok 0) numUsernamesChecked totals.
Proof. reflexivity. Qed.

(** C1, as the code has it.  When the signer query of a FID fails, so that
    [doJobForFid] returns an error, the run does not abort: the for loop
    counts no checked record for that FID's signer sweep, still runs the
    username sweep for it, adds it to the FIDs checked, and goes on with
    the rest of the page. *)
Theorem signer_failure_counts_zero_and_continues (fuel : nat)
    (lastJobTimestamp lastFid fid : Z) (rest : list Z) (totals : Z * Z)
    (m m1 : Machine) (e : HubError) (l1 : list Event) :
  (lastFid >? 0) && (fid <? lastFid) = false ->
  run (doJobForFid fuel lastJobTimestamp fid) m = (Returned (err e), m1, l1) ->
  run (forFids fuel lastJobTimestamp lastFid (fid :: rest) totals) m =
  logged l1
    (run (bind (doUsernamesJobForFid fid)
            (fun numUsernamesChecked =>
               bind (tally lastJobTimestamp fid (ok 0) numUsernamesChecked totals)
                 (fun totals' => forFids fuel lastJobTimestamp lastFid rest totals')))
       m1).
Proof.
  intros Hkept Hjob.
  cbn [forFids]. rewrite Hkept.
  rewrite run_bind.
  rewrite processFid_after_doJobForFid with (1 := Hjob).
  rewrite !run_bind.
  destruct (run (doUsernamesJobForFid fid) m1) as [[o m2] l2].
  destruct o as [numUsernamesChecked | e2 |]; cbn [logged]; try reflexivity.
  rewrite tally_err, run_bind.
  destruct (run (tally lastJobTimestamp fid (ok 0) numUsernamesChecked totals) m2)
    as [[o3 m3] l3].
  destruct o3 as [totals' | e3 |]; cbn [logged]; try reflexivity.
  destruct (run (forFids fuel lastJobTimestamp lastFid rest totals') m3) as [[o4 m4] l4].
  cbn [logged]. now rewrite !app_assoc.
Qed.

(** ** The username sweep *)

Lemma decodedValues_app (l1 l2 : list Event) :
  decodedValues (l1 ++ l2) = decodedValues l1 ++ decodedValues l2.
Proof. unfold decodedValues, callsOf. now rewrite map_app, flat_map_app. Qed.

(** A key of the record length has a type tag to read. *)
Lemma readUint8_postfix (key : bytes) :
  List.length key = recordKeyLength ->
  exists postfix, readUint8 key (1 + FID_BYTES) = Some postfix.
Proof.
  intros Hlen. unfold readUint8.
  destruct (nth_error key (1 + FID_BYTES)) as [b |] eqn:Hnth.
  - eexists; reflexivity.
  - apply nth_error_None in Hnth.
    unfold recordKeyLength in Hlen. lia.
Qed.

(** ** The terminal checkpoint *)


(** ** The scheduler object *)

Lemma invoke_keeps_task (m : Machine) (method : Method) :
  status (sched m) = started -> status (sched (invoke m method)) = started.
Proof.
  unfold status. destruct method as [cronSchedule | | | fuel]; cbn [invoke].
  - unfold start, cron_schedule.
    destruct (validate _); [reflexivity | trivial].
  - cbn [setSched sched]. unfold stop.
    destruct (_cronTask (sched m)); [reflexivity | discriminate].
  - trivial.
  - now rewrite run_cronTask.
Qed.

(** A call of [start] that returns has registered a firing task. *)
Lemma start_registers (cronSchedule : option string) (s s' : Scheduler) :
  start cronSchedule s = Some s' ->
  exists expression,
    s' = {| _cronTask := Some {| cronExpression := expression; firing := true |};
            _running := _running s |}.
Proof.
  unfold start, cron_schedule.
  destruct (validate _); [| discriminate].
  intros Hstart. injection Hstart as <-. eexists. reflexivity.
Qed.

(** C10, as the code has it.  Once a call of [start] has returned
    (node-cron accepted the expression and the task is assigned),
    whatever methods are called next and in whatever order ([stop],
    [start], also one that throws, [status], [doJobs]), [status] answers
    [started]: [stop] stops the task from firing but leaves it
    registered. *)
Theorem status_started_forever (cronSchedule : option string) (methods : list Method)
    (m : Machine) (s : Scheduler) :
  start cronSchedule (sched m) = Some s ->
  status (sched (fold_left invoke methods (invoke m (CallStart cronSchedule)))) = started /\
  status (sched (invoke (invoke m (CallStart cronSchedule)) CallStop)) = started /\
  option_map firing (_cronTask (sched (invoke (invoke m (CallStart cronSchedule)) CallStop)))
    = Some false.
Proof.
  intros Hstart.
  assert (Hinvoke : invoke m (CallStart cronSchedule) = setSched s m)
    by (cbn [invoke]; now rewrite Hstart).
  destruct (@start_registers _ _ _ Hstart) as [expression ->].
  rewrite Hinvoke.
  split; [| split; reflexivity].
  assert (Hstarted : status (sched (setSched
             {| _cronTask := Some {| cronExpression := expression; firing := true |};
                _running := _running (sched m) |} m)) = started)
    by reflexivity.
  revert Hstarted. generalize (setSched
             {| _cronTask := Some {| cronExpression := expression; firing := true |};
                _running := _running (sched m) |} m) as m0.
  induction methods as [| method methods IH]; intros m0 Hstarted.
  - exact Hstarted.
  - cbn [fold_left]. apply IH. now apply invoke_keeps_task.
Qed.

(** ** The running flag *)

(** With the flag set, [doJobs] returns [ok 0] before its first [await]:
    no call is made, nothing changes. *)
Lemma doJobs_guard (fuel : nat) (m : Machine) :
  _running (sched m) = true ->
  run (doJobs fuel) m = (Returned (ok 0), m, []) /\
  settle (doJobs fuel) m = (Ret (ok 0), m, []).
Proof.
  intros Hrunning. unfold doJobs. cbn [run settle].
  rewrite Hrunning. split; reflexivity.
Qed.

(** A run that has read its checkpoint and then ends with an error, the
    failed fetch of a page of FIDs, leaves the flag set; every later
    [doJobs] is then a no-op. *)
Lemma doJobs_abort_leaves_flag_set (fuel : nat) (m m' : Machine)
    (hubState : HubState HubStateRest) (e : HubError) (log : list Event) :
  _running (sched m) = false ->
  fst (handle GetHubState (world m)) = ok hubState ->
  run (doJobs fuel) m = (Returned (err e), m', log) ->
  _running (sched m') = true /\
  forall fuel', run (doJobs fuel') m' = (Returned (ok 0), m', []).
Proof.
  intros Hidle Hget Hrun.
  assert (Hset : _running (sched m') = true);
    [| split; [exact Hset | intros fuel'; now apply doJobs_guard]].
  revert Hrun. unfold doJobs. cbn [run]. rewrite Hidle.
  cbn [bind call]. cbn [run].
  destruct (handle GetHubState (world m)) as [[hubState0 | e0] w0]; cbn [run];
    [| discriminate Hget].
  destruct (handle DateNow (world (setRunning true (setWorld w0 m)))) as [start w1].
  rewrite run_bind.
  pose proof (run_Quiet (Quiet_forPages fuel (checkpointTimestamp hubState0)
                           (checkpointFid hubState0) fuel None (0, 0))
                (setWorld w1 (setRunning true (setWorld w0 m)))) as Hsched.
  destruct (run (forPages fuel fuel (checkpointTimestamp hubState0)
                   (checkpointFid hubState0) None (0, 0))
              (setWorld w1 (setRunning true (setWorld w0 m)))) as [[o m1] scan].
  cbn [fst snd] in Hsched.
  destruct o as [[totals | e1] | e1 |]; cbn [logged]; try discriminate.
  - unfold finishJob, orThrow. cbn [bind call]. cbn [run].
    destruct (handle DateNow (world m1)) as [tEnd w2].
    destruct (handle GetHubState (world (setWorld w2 m1))) as [[h | e2] w3];
      cbn [bind run]; [| discriminate].
    destruct (handle _ (world (setWorld w3 (setWorld w2 m1)))) as [[[] | e2] w4];
      cbn [bind run]; discriminate.
  - intros Hrun. injection Hrun as _ <- _. now rewrite Hsched.
Qed.

(** A trigger that finds the flag set adds a finished invocation and
    changes nothing else. *)
Lemma act_trigger_running (fuel : nat) (p : Pool Message HubStateRest W) :
  _running (sched (machine p)) = true ->
  act (Trigger fuel) p =
    {| machine := machine p;
       invocations := invocations p ++ [Ret (ok 0)];
       history := history p |}.
Proof.
  intros Hrunning.
  destruct (doJobs_guard fuel (machine p) Hrunning) as [_ Hsettle].
  unfold act. rewrite Hsettle. now rewrite app_nil_r.
Qed.

(** ** Interleaved invocations *)

(** Up to its next [await] a started run stays a started run, and while it
    is in progress it leaves the flag as it found it. *)
Lemma settle_Scanning {R} (t : Prog R) :
  Scanning t ->
  forall m,
    Scanning (fst (fst (settle t m))) /\
    (inProgress (fst (fst (settle t m))) = true ->
     _running (sched (snd (fst (settle t m)))) = _running (sched m)).
Proof.
  induction 1 as [r | e | | c k Hk IH | r]; intros m; cbn [settle].
  - split; [constructor | reflexivity].
  - split; [constructor | reflexivity].
  - split; [constructor | reflexivity].
  - destruct (suspends c).
    + split; [now constructor | reflexivity].
    + destruct (handle c (world m)) as [x w].
      specialize (IH x (setWorld w m)).
      destruct (settle (k x) (setWorld w m)) as [[t' m'] log]. exact IH.
  - split; [constructor | discriminate].
Qed.

Lemma resume_Scanning {R} (t : Prog R) (m : Machine) :
  Scanning t ->
  Scanning (fst (fst (resume handle t m))) /\
  (inProgress (fst (fst (resume handle t m))) = true ->
   _running (sched (snd (fst (resume handle t m)))) = _running (sched m)).
Proof.
  intros Ht. destruct Ht as [r | e | | c k Hk | r]; cbn [resume fst snd];
    try (split; [constructor | reflexivity]).
  destruct (handle c (world m)) as [x w].
  pose proof (settle_Scanning (Hk x) (setWorld w m)) as IH.
  destruct (settle (k x) (setWorld w m)) as [[t' m'] log]. exact IH.
Qed.

(** Once its first read of the checkpoint completes, a triggered invocation
    has either ended or is a started run with the flag set. *)
Lemma resume_justTriggered (t : Prog (Result Z)) (m : Machine) :
  justTriggered t ->
  Scanning (fst (fst (resume handle t m))) /\
  (inProgress (fst (fst (resume handle t m))) = true ->
   _running (sched (snd (fst (resume handle t m)))) = true).
Proof.
  intros (fuel & m0 & Hidle & <-).
  unfold doJobs. cbn [settle]. rewrite Hidle.
  cbn [bind call settle suspends fst resume].
  destruct (handle GetHubState (world m)) as [[hubState | e] w].
  - cbn [settle suspends].
    destruct (handle DateNow (world (setRunning true (setWorld w m)))) as [start w1].
    match goal with
    | |- context [settle ?body ?m1] =>
        assert (Hbody : Scanning body);
        [| pose proof (settle_Scanning Hbody m1) as IH;
           destruct (settle body m1) as [[t' m'] log]; exact IH ]
    end.
    apply Scanning_bind; [apply Quiet_forPages |].
    intros [totals | e]; [apply Scanning_finishJob | constructor].
  - cbn [settle fst snd]. split; [constructor | discriminate].
Qed.

Lemma no_runs_Forall {R} (l : list (Prog R)) :
  List.length (filter (fun t => inProgress t) l) = 0%nat ->
  Forall (fun t => inProgress t = false) l.
Proof.
  induction l as [| h tl IH]; intros Hnone; [constructor |].
  cbn [filter] in Hnone. destruct (inProgress h) eqn:Hh; [discriminate |].
  constructor; auto.
Qed.

(** Replacing the only invocation in progress leaves at most one. *)
Lemma replaceNth_sole {R} (l : list (Prog R)) (i : nat) (t t' : Prog R) :
  (List.length (filter (fun u => inProgress u) l) <= 1)%nat ->
  nth_error l i = Some t ->
  inProgress t = true ->
  Forall (fun u => u = t' \/ inProgress u = false) (replaceNth i t' l) /\
  (List.length (filter (fun u => inProgress u) (replaceNth i t' l)) <= 1)%nat.
Proof.
  revert i. induction l as [| h tl IH]; intros i Hone Hnth Ht.
  - destruct i; discriminate.
  - destruct i as [| i]; cbn [nth_error replaceNth] in *.
    + injection Hnth as ->. cbn [filter] in Hone. rewrite Ht in Hone.
      cbn [List.length] in Hone.
      assert (Hnone : List.length (filter (fun u => inProgress u) tl) = 0%nat) by lia.
      pose proof (no_runs_Forall tl Hnone) as Hdone. split.
      * constructor; [now left |].
        eapply Forall_impl; [| exact Hdone]. intros u Hu; now right.
      * cbn [filter]. destruct (inProgress t'); cbn [List.length]; lia.
    + cbn [filter] in Hone. destruct (inProgress h) eqn:Hh.
      * cbn [List.length] in Hone.
        assert (Hnone : List.length (filter (fun u => inProgress u) tl) = 0%nat) by lia.
        pose proof (no_runs_Forall tl Hnone) as Hdone.
        rewrite Forall_forall in Hdone.
        apply nth_error_In in Hnth. apply Hdone in Hnth. congruence.
      * destruct (IH i Hone Hnth Ht) as [Hall Hle]. split.
        -- constructor; [now right | exact Hall].
        -- cbn [filter]. now rewrite Hh.
Qed.

Lemma replaceNth_same {A} (l : list A) (i : nat) (x : A) :
  nth_error l i = Some x -> replaceNth i x l = l.
Proof.
  revert i. induction l as [| h tl IH]; intros [| i] Hnth; try discriminate;
    cbn [nth_error replaceNth] in *.
  - now injection Hnth as ->.
  - now rewrite IH.
Qed.

(** An invocation that has just been triggered awaits the checkpoint, not a
    page of FIDs. *)
Lemma justTriggered_awaits_checkpoint (t : Prog (Result Z)) :
  justTriggered t -> awaitsFidsPage t = false.
Proof.
  intros (fuel & m & Hidle & <-).
  unfold doJobs. cbn [settle]. now rewrite Hidle.
Qed.

Lemma oneRun_trigger (fuel : nat) (p : Pool Message HubStateRest W) :
  oneRun p ->
  Forall (fun t => ~ justTriggered t) (invocations p) ->
  oneRun (act (Trigger fuel) p).
Proof.
  intros [Hone Hshape] Hfresh.
  destruct (_running (sched (machine p))) eqn:Hflag.
  - rewrite act_trigger_running by assumption.
    unfold oneRun, runsInProgress in *. cbn [invocations machine]. split.
    + rewrite filter_app. cbn [filter inProgress]. now rewrite app_nil_r.
    + rewrite Hflag.
      apply Forall_app. split; [exact Hshape | repeat constructor; discriminate].
  - assert (Hdone : Forall (fun t => inProgress t = false) (invocations p)).
    { rewrite Forall_forall in *. intros t Hin.
      destruct (inProgress t) eqn:Ht; [| reflexivity].
      destruct (Hshape t Hin Ht) as [Hjust | [_ Hset]].
      - now apply Hfresh in Hjust.
      - congruence. }
    assert (Hjust : justTriggered (fst (fst (settle (doJobs fuel) (machine p)))))
      by (exists fuel, (machine p); auto).
    unfold act.
    assert (Hsettle : snd (fst (settle (doJobs fuel) (machine p))) = machine p).
    { unfold doJobs. cbn [settle]. now rewrite Hflag. }
    destruct (settle (doJobs fuel) (machine p)) as [[t m'] log].
    cbn [fst snd] in *. subst m'.
    unfold oneRun, runsInProgress. cbn [invocations machine]. split.
    + rewrite filter_app, length_app.
      assert (filter (fun u => inProgress u) (invocations p) = []) as ->.
      { clear - Hdone. induction Hdone as [| u l Hu _ IH]; [reflexivity |].
        cbn [filter]. now rewrite Hu. }
      cbn [filter List.length]. destruct (inProgress t); cbn [List.length]; lia.
    + apply Forall_app. split; [| repeat constructor; auto].
      eapply Forall_impl; [| exact Hdone]. cbn beta. intros u Hu Hin. congruence.
Qed.

Lemma oneRun_resume (i : nat) (p : Pool Message HubStateRest W) :
  oneRun p -> oneRun (act (Resume i) p).
Proof.
  intros [Hone Hshape]. unfold act.
  destruct (nth_error (invocations p) i) as [t |] eqn:Hnth; [| now split].
  destruct (inProgress t) eqn:Ht.
  - assert (Hin : In t (invocations p)) by (eapply nth_error_In; eassumption).
    assert (Hnext :
              Scanning (fst (fst (resume handle t (machine p)))) /\
              (inProgress (fst (fst (resume handle t (machine p)))) = true ->
               _running (sched (snd (fst (resume handle t (machine p))))) = true)).
    { rewrite Forall_forall in Hshape.
      destruct (Hshape t Hin Ht) as [Hjust | [Hscan Hset]].
      - now apply resume_justTriggered.
      - destruct (resume_Scanning (machine p) Hscan) as [H1 H2].
        split; [exact H1 |]. intros H3. rewrite (H2 H3). exact Hset. }
    destruct (resume handle t (machine p)) as [[t' m'] log]. cbn [fst snd] in Hnext.
    destruct (replaceNth_sole (invocations p) i t' Hone Hnth Ht) as [Hall Hle].
    unfold oneRun, runsInProgress. cbn [invocations machine].
    split; [exact Hle |].
    eapply Forall_impl; [| exact Hall]. cbn beta.
    intros u [-> | Hu] Hprog; [| congruence].
    right. destruct Hnext as [H1 H2]. auto.
  - assert (Hsame : resume handle t (machine p) = (t, machine p, [])).
    { destruct t; try reflexivity; discriminate. }
    rewrite Hsame, replaceNth_same by assumption.
    now split.
Qed.

Lemma oneRun_schedule (actions : list Action) :
  forall p, oneRun p -> wellTimed actions p -> oneRun (schedule actions p).
Proof.
  induction actions as [| a actions IH]; intros p Hinv Htimed; [exact Hinv |].
  cbn [schedule fold_left]. destruct Htimed as [Hnow Hlater].
  apply IH; [| exact Hlater].
  destruct a as [fuel | i]; [now apply oneRun_trigger | now apply oneRun_resume].
Qed.

(** X14.  A trigger of [doJobs] that finds the [_running] flag set is a
    no-op: it returns [ok 0], not an error, before any [await], makes no
    call on the store or the engine, and leaves the flag, the world and the
    other invocations as they were.  And in every schedule of triggers and
    resumptions in which no trigger arrives while an earlier invocation is
    still awaiting its first read of the checkpoint, at most one run is in
    progress at any time. *)
Theorem one_run_at_a_time :
  (forall (fuel : nat) (p : Pool Message HubStateRest W),
      _running (sched (machine p)) = true ->
      run (doJobs fuel) (machine p) = (Returned (ok 0), machine p, []) /\
      act (Trigger fuel) p =
        {| machine := machine p;
           invocations := invocations p ++ [Ret (ok 0)];
           history := history p |} /\
      runsInProgress (act (Trigger fuel) p) = runsInProgress p) /\
  (forall (actions : list Action) (m : Machine),
      wellTimed actions (idlePool m) ->
      (runsInProgress (schedule actions (idlePool m)) <= 1)%nat).
Proof.
  split.
  - intros fuel p Hrunning.
    destruct (doJobs_guard fuel (machine p) Hrunning) as [Hrun _].
    pose proof (act_trigger_running fuel p Hrunning) as Hact.
    repeat split; trivial.
    rewrite Hact. unfold runsInProgress. cbn [invocations].
    rewrite filter_app. cbn [filter inProgress]. now rewrite app_nil_r.
  - intros actions m Htimed.
    assert (Hidle : oneRun (idlePool m)) by (split; [apply Nat.le_0_l | constructor]).
    exact (proj1 (oneRun_schedule actions Hidle Htimed)).
Qed.

(** ** What the calls of a run are *)

Local Abbreviation validations := (@validations Message HubStateRest).
Local Abbreviation checkpointWrites := (@checkpointWrites Message HubStateRest).
Local Abbreviation fidsFetches := (@fidsFetches Message HubStateRest).
Local Abbreviation isEntityCall := (@isEntityCall Message HubStateRest).
Local Abbreviation isMessageKey :=
  (isMessageKey FID_BYTES TSHASH_LENGTH UserMessagePostfixMax).
Local Abbreviation checkpointOfRun := (@checkpointOfRun Message HubStateRest toFarcasterTime).

Lemma Calls_bind {A B} (P : Call Message HubStateRest -> Prop)
    (p : Prog A) (f : A -> Prog B) :
  Calls P p -> (forall a, Calls P (f a)) -> Calls P (bind p f).
Proof.
  intros Hp Hf. induction Hp; cbn [bind]; try constructor; auto.
Qed.

Lemma Calls_impl {R} (P Q : Call Message HubStateRest -> Prop) (p : Prog R) :
  (forall c, P c -> Q c) -> Calls P p -> Calls Q p.
Proof.
  intros HPQ Hp. induction Hp; constructor; auto.
Qed.

(** The calls in the log of a run are calls of the program. *)
Lemma run_Calls {R} (P : Call Message HubStateRest -> Prop) (p : Prog R) :
  Calls P p -> forall m, Forall P (callsOf (snd (run p m))).
Proof.
  induction 1 as [r | e | | k Hk IH | b k Hk IH | c k Hc Hk IH]; intros m;
    cbn [run snd callsOf map]; try constructor.
  - apply IH.
  - apply IH.
  - destruct (handle c (world m)) as [x w].
    specialize (IH x (setWorld w m)).
    destruct (run (k x) (setWorld w m)) as [[o m1] l1].
    cbn [snd callsOf map projT1 event] in *. constructor; assumption.
Qed.

Ltac calls :=
  repeat first
    [ assumption
    | match goal with
      | |- Calls _ (bind _ _) => apply Calls_bind
      | |- Calls _ (orThrow _) => unfold orThrow
      | |- Calls _ (call ?c) => unfold call
      | |- Calls _ (Do _ _) => constructor; [cbn; auto |]
      | |- Calls _ (match ?x with _ => _ end) => destruct x
      | |- Calls _ (Ret _) => constructor
      | |- Calls _ (Throw _) => constructor
      | |- Calls _ Spin => constructor
      | |- Calls _ (SetRunning _ _) => constructor
      | |- Calls _ (GetRunning _) => constructor
      end
    | intro ].

Lemma Calls_forEachEntry (P : Call Message HubStateRest -> Prop)
    (callback : bytes -> bytes -> Z -> Prog Z) (entries : list (bytes * bytes)) :
  (forall key value count, Calls P (callback key value count)) ->
  forall count, Calls P (forEachEntry callback entries count).
Proof.
  intros Hcallback.
  induction entries as [| [key value] entries IH]; intros count; cbn [forEachEntry].
  - constructor.
  - apply Calls_bind; auto.
Qed.

(** The work for one FID calls the signer query, the iterator, the decoder
    and the validator, and nothing else. *)
Lemma Calls_doJobForFid (fuel : nat) (lastJobTimestamp fid : Z) :
  Calls (fun c => isEntityCall c = true) (doJobForFid fuel lastJobTimestamp fid).
Proof.
  unfold doJobForFid, forEachIteratorByPrefix. apply Calls_bind.
  - generalize (@nil OnChainEvent) as allSigners, (@None bytes) as pageToken.
    induction fuel as [| fuel IH]; intros allSigners pageToken; cbn [fetchAllSigners].
    + constructor.
    + calls. apply IH.
  - calls. apply Calls_forEachEntry. intros k v n.
    unfold messageCallback, decodeAndValidate. calls.
Qed.

Lemma Calls_doUsernamesJobForFid (fid : Z) :
  Calls (fun c => isEntityCall c = true) (doUsernamesJobForFid fid).
Proof.
  unfold doUsernamesJobForFid, forEachIteratorByPrefix.
  calls. apply Calls_forEachEntry. intros k v n.
  unfold usernameCallback, decodeAndValidate. calls.
Qed.

Lemma validations_app (l1 l2 : list Event) :
  validations (l1 ++ l2) = validations l1 + validations l2.
Proof.
  unfold validations, callsOf.
  now rewrite map_app, filter_app, length_app, Nat2Z.inj_add.
Qed.

Lemma checkpointWrites_app (l1 l2 : list Event) :
  checkpointWrites (l1 ++ l2) = checkpointWrites l1 + checkpointWrites l2.
Proof.
  unfold checkpointWrites, callsOf.
  now rewrite map_app, filter_app, length_app, Nat2Z.inj_add.
Qed.

Lemma fidsFetches_app (l1 l2 : list Event) :
  fidsFetches (l1 ++ l2) = fidsFetches l1 ++ fidsFetches l2.
Proof. unfold fidsFetches. apply flat_map_app. Qed.

(** Calls made for one FID write no checkpoint and fetch no page. *)
Lemma entity_calls (l : list Event) :
  Forall (fun c => isEntityCall c = true) (callsOf l) ->
  checkpointWrites l = 0 /\ fidsFetches l = [].
Proof.
  unfold checkpointWrites, fidsFetches, callsOf.
  induction l as [| [c x] l IH]; intros Hall; [split; reflexivity |].
  cbn [map projT1] in Hall. inversion Hall as [| c' l' Hc Hl]; subst.
  destruct (IH Hl) as [IH1 IH2].
  cbn [map projT1 filter flat_map].
  destruct c; try discriminate Hc; cbn [isCheckpointWrite fidsFetch app];
    split; assumption.
Qed.

(** ** Counting the records checked *)

Lemma decodeAndValidate_counts (value : bytes) (count : Z) (m : Machine) :
  exists count' m' l,
    run (decodeAndValidate value count) m = (Returned count', m', l) /\
    decodedValues l = [value] /\
    count' = count + validations l.
Proof.
  unfold decodeAndValidate. cbn [bind call run].
  destruct (handle (MessageDecode value) (world m)) as [[message | e] w].
  - cbn [bind call run].
    destruct (handle (ValidateOrRevokeMessage message) (world (setWorld w m))) as [x w'].
    cbn [run]. do 3 eexists; repeat split; reflexivity.
  - cbn [run]. do 3 eexists; repeat split. cbn. lia.
Qed.

Lemma messageCallback_counts (key value : bytes) (count : Z) (m : Machine) :
  exists count' m' l,
    run (messageCallback key value count) m = (Returned count', m', l) /\
    decodedValues l = (if isMessageKey key then [value] else []) /\
    count' = count + validations l.
Proof.
  unfold messageCallback, isMessageKey, postfixOf.
  destruct (Nat.eqb (List.length key) recordKeyLength) eqn:Hlen; cbn [negb].
  - apply Nat.eqb_eq in Hlen.
    destruct (readUint8_postfix key Hlen) as [postfix ->].
    rewrite Z.gtb_ltb, Z.ltb_antisym.
    destruct (postfix <=? UserMessagePostfixMax); cbn [negb].
    + apply decodeAndValidate_counts.
    + exists count, m, []; repeat split. cbn. lia.
  - exists count, m, []; repeat split. cbn. lia.
Qed.

Lemma usernameCallback_counts (key value : bytes) (count : Z) (m : Machine) :
  exists count' m' l,
    run (usernameCallback key value count) m = (Returned count', m', l) /\
    decodedValues l = (if isUsernameKey key then [value] else []) /\
    count' = count + validations l.
Proof.
  unfold usernameCallback, isUsernameKey, postfixOf.
  destruct (Nat.eqb (List.length key) recordKeyLength) eqn:Hlen; cbn [negb].
  - apply Nat.eqb_eq in Hlen.
    destruct (readUint8_postfix key Hlen) as [postfix ->].
    destruct (postfix =? UsernameProofMessage), (postfix =? UserDataMessage);
      cbn [negb andb orb];
      solve [ apply decodeAndValidate_counts
            | exists count, m, []; repeat split; cbn; lia ].
  - exists count, m, []; repeat split. cbn. lia.
Qed.

(** An iteration returns; the values it decodes are those of the keys its
    callback accepts, in order, and its count is the number of validations
    it made. *)
Lemma sweep_counts (callback : bytes -> bytes -> Z -> Prog Z) (accepts : bytes -> bool) :
  (forall key value count m,
      exists count' m' l,
        run (callback key value count) m = (Returned count', m', l) /\
        decodedValues l = (if accepts key then [value] else []) /\
        count' = count + validations l) ->
  forall entries count m,
    exists count' m' l,
      run (forEachEntry callback entries count) m = (Returned count', m', l) /\
      decodedValues l = map snd (filter (fun kv => accepts (fst kv)) entries) /\
      count' = count + validations l.
Proof.
  intros Hcallback.
  induction entries as [| [key value] entries IH]; intros count m.
  - exists count, m, []; repeat split. cbn. lia.
  - cbn [forEachEntry filter fst]. rewrite run_bind.
    destruct (Hcallback key value count m) as (c1 & m1 & l1 & -> & Hd1 & Hc1).
    destruct (IH c1 m1) as (c2 & m2 & l2 & -> & Hd2 & Hc2).
    exists c2, m2, (l1 ++ l2); split; [reflexivity | split].
    + rewrite decodedValues_app, Hd1, Hd2. destruct (accepts key); reflexivity.
    + rewrite validations_app. lia.
Qed.

(** ** How the work for one FID ends *)

Local Abbreviation storeFailure := (@storeFailure Message HubStateRest).
Local Abbreviation notFetch := (@notFetch Message HubStateRest).

Lemma signer_calls_validations (fid : Z) (l : list Event) :
  Forall (fun c => c = GetOnChainSignersByFid fid None) (callsOf l) ->
  validations l = 0.
Proof.
  unfold validations. generalize (callsOf l) as calls.
  induction 1 as [| c calls Hc _ IH]; [reflexivity |].
  subst c. exact IH.
Qed.

Lemma fetchAllSigners_never_rejects (fuel : nat) (fid : Z) :
  forall allSigners pageToken m e,
    fst (fst (run (fetchAllSigners fuel fid allSigners pageToken) m)) <> Rejected e.
Proof.
  induction fuel as [| fuel IH]; intros allSigners pageToken m e;
    cbn [fetchAllSigners bind call run].
  - discriminate.
  - destruct (handle (GetOnChainSignersByFid fid None) (world m)) as [[page | e0] w].
    + destruct (eventsNextPageToken page) as [nextPageToken |].
      * specialize (IH (allSigners ++ events page) (Some nextPageToken) (setWorld w m) e).
        destruct (run (fetchAllSigners fuel fid (allSigners ++ events page)
                         (Some nextPageToken)) (setWorld w m)) as [[o m1] l1].
        exact IH.
      * discriminate.
    + discriminate.
Qed.

(** The signer loop returns an error only as the answer of its last query. *)
Lemma fetchAllSigners_err (fuel : nat) (fid : Z) :
  forall allSigners pageToken m m1 e l,
    run (fetchAllSigners fuel fid allSigners pageToken) m = (Returned (err e), m1, l) ->
    exists pre, l = pre ++ [event (GetOnChainSignersByFid fid None) (err e)].
Proof.
  induction fuel as [| fuel IH]; intros allSigners pageToken m m1 e l;
    cbn [fetchAllSigners bind call run].
  - discriminate.
  - destruct (handle (GetOnChainSignersByFid fid None) (world m)) as [[page | e0] w].
    + destruct (eventsNextPageToken page) as [nextPageToken |].
      * specialize (IH (allSigners ++ events page) (Some nextPageToken) (setWorld w m)).
        destruct (run (fetchAllSigners fuel fid (allSigners ++ events page)
                         (Some nextPageToken)) (setWorld w m)) as [[o m2] l2].
        intros Hrun. injection Hrun as -> -> <-.
        destruct (IH m1 e l2 eq_refl) as [pre ->].
        now exists (event (GetOnChainSignersByFid fid None) (ok page) :: pre).
      * discriminate.
    + cbn [run]. intros Hrun. injection Hrun as -> _ <-. now exists [].
Qed.

(** The message iteration of [doJobForFid]. *)
Lemma messageSweep_counts (prefix : bytes) (m : Machine) :
  exists count m2 l2,
    let sweep := ForEachIteratorByPrefix prefix iteratorTimeoutMs in
    let entries := fst (handle sweep (world m)) in
    run (forEachIteratorByPrefix prefix messageCallback iteratorTimeoutMs) m =
      (Returned count, m2, event sweep entries :: l2) /\
    decodedValues l2 = map snd (filter (fun kv => isMessageKey (fst kv)) entries) /\
    count = validations l2.
Proof.
  unfold forEachIteratorByPrefix. cbn [bind call]. cbn [run].
  destruct (handle (ForEachIteratorByPrefix prefix iteratorTimeoutMs) (world m))
    as [entries w].
  destruct (sweep_counts messageCallback isMessageKey messageCallback_counts
              entries 0 (setWorld w m)) as (count & m2 & l2 & -> & Hd & Hc).
  exists count, m2, l2. cbn [fst]. repeat split; [exact Hd | lia].
Qed.

Lemma usernameSweep_counts (prefix : bytes) (m : Machine) :
  exists count m2 l2,
    let sweep := ForEachIteratorByPrefix prefix iteratorTimeoutMs in
    let entries := fst (handle sweep (world m)) in
    run (forEachIteratorByPrefix prefix usernameCallback iteratorTimeoutMs) m =
      (Returned count, m2, event sweep entries :: l2) /\
    decodedValues l2 = map snd (filter (fun kv => isUsernameKey (fst kv)) entries) /\
    count = validations l2.
Proof.
  unfold forEachIteratorByPrefix. cbn [bind call]. cbn [run].
  destruct (handle (ForEachIteratorByPrefix prefix iteratorTimeoutMs) (world m))
    as [entries w].
  destruct (sweep_counts usernameCallback isUsernameKey usernameCallback_counts
              entries 0 (setWorld w m)) as (count & m2 & l2 & -> & Hd & Hc).
  exists count, m2, l2. cbn [fst]. repeat split; [exact Hd | lia].
Qed.

(** X1.  When the signer loop of a FID has returned its events and the
    newest of them is not older than [lastJobTimestamp] (the comparison of
    line 168 is strict, so an equal timestamp counts as changed),
    [doJobForFid] iterates the prefix [makeUserKey fid] with the 15 minute
    time box and returns [ok count]: it decodes the values of exactly the
    keys of record length whose tag is at most [UserMessagePostfixMax], in
    key order, and [count] is the number of [validateOrRevokeMessage] calls
    it made, whatever those calls answered. *)
Theorem doJobForFid_sweeps_changed_fid (fuel : nat) (lastJobTimestamp fid : Z)
    (m m1 : Machine) (allSigners : list OnChainEvent) (l1 : list Event) :
  run (fetchAllSigners fuel fid [] None) m = (Returned (ok allSigners), m1, l1) ->
  lastJobTimestamp <= latestSignerEventTs allSigners ->
  exists count m2 l2,
    let sweep := ForEachIteratorByPrefix (makeUserKey fid) iteratorTimeoutMs in
    let entries := fst (handle sweep (world m1)) in
    run (doJobForFid fuel lastJobTimestamp fid) m =
      (Returned (ok count), m2, l1 ++ event sweep entries :: l2) /\
    decodedValues l2 = map snd (filter (fun kv => isMessageKey (fst kv)) entries) /\
    count = validations l2.
Proof.
  intros Hfetch Hnew.
  destruct (messageSweep_counts (makeUserKey fid) m1)
    as (count & m2 & l2 & Hsweep & Hd & Hc).
  exists count, m2, l2. cbv zeta in *. split; [| split; assumption].
  unfold doJobForFid. rewrite run_bind, Hfetch.
  apply Z.ltb_ge in Hnew. rewrite Hnew.
  rewrite run_bind, Hsweep. cbn [logged run]. now rewrite app_nil_r.
Qed.

(** X2.  [doJobForFid] returns an error only when the signer query failed:
    the error is the answer of the last call it made, a query for the first
    page of the FID's signer events, and it made no call of the record
    sweep (no iteration, no decode, no validation). *)
Theorem doJobForFid_error_is_signer_failure (fuel : nat) (lastJobTimestamp fid : Z)
    (m m1 : Machine) (e : HubError) (l : list Event) :
  run (doJobForFid fuel lastJobTimestamp fid) m = (Returned (err e), m1, l) ->
  (exists pre, l = pre ++ [event (GetOnChainSignersByFid fid None) (err e)]) /\
  filter (@isRecordCall Message HubStateRest) (callsOf l) = [].
Proof.
  unfold doJobForFid. rewrite run_bind.
  pose proof (fetchAllSigners_calls fuel fid [] None m) as Hcalls.
  pose proof (@fetchAllSigners_err fuel fid [] None m) as Herr.
  destruct (run (fetchAllSigners fuel fid [] None) m) as [[o m0] l0].
  cbn [snd] in Hcalls.
  destruct o as [[allSigners | e0] | e0 |]; try discriminate.
  - destruct (latestSignerEventTs allSigners <? lastJobTimestamp).
    + cbn [run logged]. discriminate.
    + rewrite run_bind.
      destruct (messageSweep_counts (makeUserKey fid) m0)
        as (count & m2 & l2 & Hsweep & _). cbv zeta in Hsweep.
      rewrite Hsweep. cbn [logged run]. discriminate.
  - cbn [run logged]. rewrite app_nil_r. intros Hrun. injection Hrun as -> _ <-.
    split; [now apply (Herr m0 e l0) |].
    now apply signer_calls_are_not_record_calls with (fid := fid).
Qed.

(** However [doJobForFid] ends, it has not rejected; what it returns, read
    with [unwrapOr 0], is the number of validations it made. *)
Lemma doJobForFid_outcome (fuel : nat) (lastJobTimestamp fid : Z) (m : Machine) :
  match run (doJobForFid fuel lastJobTimestamp fid) m with
  | (Returned numChecked, _, l) => unwrapOr numChecked 0 = validations l
  | (Rejected _, _, _) => False
  | (OutOfFuel, _, _) => True
  end.
Proof.
  unfold doJobForFid. rewrite run_bind.
  pose proof (fetchAllSigners_calls fuel fid [] None m) as Hcalls.
  pose proof (fetchAllSigners_never_rejects fuel fid [] None m) as Hnever.
  destruct (run (fetchAllSigners fuel fid [] None) m) as [[o m0] l0].
  cbn [snd fst] in *. apply signer_calls_validations in Hcalls.
  destruct o as [[allSigners | e0] | e0 |]; [| | now apply (Hnever e0) | exact I].
  - destruct (latestSignerEventTs allSigners <? lastJobTimestamp).
    + cbn [run logged unwrapOr]. rewrite app_nil_r. lia.
    + rewrite run_bind.
      destruct (messageSweep_counts (makeUserKey fid) m0)
        as (count & m2 & l2 & Hsweep & _ & Hc). cbv zeta in Hsweep.
      rewrite Hsweep. cbn [logged run unwrapOr].
      rewrite app_nil_r, validations_app. cbn [app].
      change (validations (event (ForEachIteratorByPrefix (makeUserKey fid)
                                    iteratorTimeoutMs)
                             (fst (handle (ForEachIteratorByPrefix (makeUserKey fid)
                                             iteratorTimeoutMs) (world m0))) :: l2))
        with (validations l2). lia.
  - cbn [run logged unwrapOr]. rewrite app_nil_r. lia.
Qed.

Lemma doUsernamesJobForFid_outcome (fid : Z) (m : Machine) :
  exists count m2 l,
    run (doUsernamesJobForFid fid) m = (Returned (ok count), m2, l) /\
    count = validations l.
Proof.
  unfold doUsernamesJobForFid. rewrite run_bind.
  destruct (usernameSweep_counts (makeUserKey fid) m)
    as (count & m2 & l2 & Hsweep & _ & Hc). cbv zeta in Hsweep.
  rewrite Hsweep. cbn [logged run]. do 3 eexists. split; [reflexivity |].
  rewrite app_nil_r. exact Hc.
Qed.

Lemma storeFailure_logged (e : HubError) (l0 l : list Event) :
  storeFailure e l -> storeFailure e (l0 ++ l).
Proof.
  intros [pre [-> | [h ->]]]; exists (l0 ++ pre); rewrite app_assoc;
    [now left | right; now exists h].
Qed.

(** One more FID checked is one more progress checkpoint exactly when the
    count reaches a multiple of 5000. *)
Lemma cadence_step (t : Z) :
  0 <= t ->
  (t + 1) / 5000 - t / 5000 = if Z.rem (t + 1) progressInterval =? 0 then 1 else 0.
Proof.
  intros Ht. unfold progressInterval.
  rewrite Z.rem_mod_nonneg by lia.
  destruct (Z.eqb_spec ((t + 1) mod 5000) 0) as [Hzero | Hnonzero];
    Z.div_mod_to_equations; lia.
Qed.

Lemma tally_outcome (lastJobTimestamp fid : Z) (numChecked numUsernamesChecked : Result Z)
    (totals : Z * Z) (m : Machine) :
  match run (tally lastJobTimestamp fid numChecked numUsernamesChecked totals) m with
  | (Returned totals', _, l) =>
      fst totals' =
        fst totals + (unwrapOr numChecked 0 + unwrapOr numUsernamesChecked 0) /\
      snd totals' = snd totals + 1 /\
      validations l = 0 /\
      checkpointWrites l =
        (if Z.rem (snd totals + 1) progressInterval =? 0 then 1 else 0)
  | (Rejected e, _, l) => storeFailure e l
  | (OutOfFuel, _, _) => True
  end.
Proof.
  unfold tally. cbv zeta.
  destruct (Z.rem (snd totals + 1) progressInterval =? 0).
  - unfold orThrow. cbn [bind call]. cbn [run].
    destruct (handle GetHubState (world m)) as [[hubState | e] w]; cbn [bind run].
    + destruct (handle _ (world (setWorld w m))) as [[[] | e] w']; cbn [bind run].
      * repeat split; reflexivity.
      * exists [event GetHubState (ok hubState)]. right. eexists. reflexivity.
    + exists []. now left.
  - cbn [run]. repeat split; reflexivity.
Qed.

(** How the work for one FID ends: with the totals advanced by the
    validations made and by one FID, or with the rejection of a read or
    write of the hub state. *)
Lemma processFid_outcome (fuel : nat) (lastJobTimestamp fid : Z) (totals : Z * Z)
    (m : Machine) :
  match run (processFid fuel lastJobTimestamp fid totals) m with
  | (Returned totals', _, l) =>
      fst totals' = fst totals + validations l /\
      snd totals' = snd totals + 1 /\
      checkpointWrites l =
        (if Z.rem (snd totals + 1) progressInterval =? 0 then 1 else 0)
  | (Rejected e, _, l) => storeFailure e l
  | (OutOfFuel, _, _) => True
  end.
Proof.
  unfold processFid. rewrite run_bind.
  pose proof (doJobForFid_outcome fuel lastJobTimestamp fid m) as Hjob.
  pose proof (run_Calls (Calls_doJobForFid fuel lastJobTimestamp fid) m) as Hcalls1.
  destruct (run (doJobForFid fuel lastJobTimestamp fid) m) as [[o m1] l1].
  cbn [snd] in Hcalls1. apply entity_calls in Hcalls1 as [Hw1 _].
  destruct o as [numChecked | e | ]; [| contradiction | exact I].
  rewrite run_bind.
  pose proof (run_Calls (Calls_doUsernamesJobForFid fid) m1) as Hcalls2.
  destruct (doUsernamesJobForFid_outcome fid m1) as (count & m2 & l2 & Husr & Hcount).
  rewrite Husr in *. cbn [snd] in Hcalls2. apply entity_calls in Hcalls2 as [Hw2 _].
  pose proof (tally_outcome lastJobTimestamp fid numChecked (ok count) totals m2) as Htally.
  destruct (run (tally lastJobTimestamp fid numChecked (ok count) totals) m2)
    as [[o3 m3] l3].
  destruct o3 as [totals' | e |]; cbn [logged].
  - destruct Htally as (Hfst & Hsnd & Hv3 & Hw3). cbn [unwrapOr] in Hfst.
    rewrite !validations_app, !checkpointWrites_app. repeat split; lia.
  - now apply storeFailure_logged, storeFailure_logged.
  - exact I.
Qed.

Lemma forFids_outcome (fuel : nat) (lastJobTimestamp lastFid : Z) (fids : list Z) :
  forall totals m,
    match run (forFids fuel lastJobTimestamp lastFid fids totals) m with
    | (Returned totals', _, l) =>
        fst totals' = fst totals + validations l /\
        snd totals' =
          snd totals +
          Z.of_nat (List.length (filter (fun fid => negb (isSkipped lastFid fid)) fids)) /\
        (0 <= snd totals ->
         checkpointWrites l = snd totals' / 5000 - snd totals / 5000)
    | (Rejected e, _, l) => storeFailure e l
    | (OutOfFuel, _, _) => True
    end.
Proof.
  induction fids as [| fid rest IH]; intros totals m.
  - cbn [forFids run filter List.length]. repeat split; intros; cbn; lia.
  - cbn [forFids filter]. unfold isSkipped at 1.
    destruct ((lastFid >? 0) && (fid <? lastFid)); cbn [negb].
    + apply IH.
    + rewrite run_bind.
      pose proof (processFid_outcome fuel lastJobTimestamp fid totals m) as Hone.
      destruct (run (processFid fuel lastJobTimestamp fid totals) m) as [[o m1] l1].
      destruct o as [totals1 | e |]; [| exact Hone | exact I].
      destruct Hone as (Hfst & Hsnd & Hw1).
      specialize (IH totals1 m1).
      destruct (run (forFids fuel lastJobTimestamp lastFid rest totals1) m1)
        as [[o2 m2] l2].
      destruct o2 as [totals' | e |]; cbn [logged].
      * destruct IH as (Hfst2 & Hsnd2 & Hw2).
        rewrite validations_app, checkpointWrites_app. cbn [List.length].
        rewrite Nat2Z.inj_succ. repeat split; try lia.
        intros Hpos. rewrite Hw1, Hw2 by lia.
        rewrite <- (cadence_step Hpos), Hsnd. lia.
      * now apply storeFailure_logged.
      * exact I.
Qed.

Lemma forPages_outcome (fuel : nat) (lastJobTimestamp lastFid : Z) (pages : nat) :
  forall pageToken totals m,
    match run (forPages pages fuel lastJobTimestamp lastFid pageToken totals) m with
    | (Returned (ok totals'), _, l) =>
        fst totals' = fst totals + validations l /\
        snd totals <= snd totals' /\
        (0 <= snd totals ->
         checkpointWrites l = snd totals' / 5000 - snd totals / 5000)
    | (Returned (err e), _, l) =>
        exists pre asked, l = pre ++ [event (GetFids asked fidsPageSize) (err e)]
    | (Rejected e, _, l) => storeFailure e l
    | (OutOfFuel, _, _) => True
    end.
Proof.
  induction pages as [| pages IH]; intros pageToken totals m.
  - exact I.
  - cbn [forPages bind call]. cbn [run].
    destruct (handle (GetFids pageToken fidsPageSize) (world m)) as [[page | e] w].
    + rewrite run_bind.
      pose proof (forFids_outcome fuel lastJobTimestamp lastFid (fids page) totals
                    (setWorld w m)) as Hpage.
      destruct (run (forFids fuel lastJobTimestamp lastFid (fids page) totals)
                  (setWorld w m)) as [[o m1] l1].
      destruct o as [totals1 | e |];
        [| now apply (storeFailure_logged [_]) | exact I].
      destruct Hpage as (Hfst & Hsnd & Hw).
      destruct (fidsNextPageToken page) as [nextPageToken |].
      * specialize (IH (Some nextPageToken) totals1 m1).
        destruct (run (forPages pages fuel lastJobTimestamp lastFid
                         (Some nextPageToken) totals1) m1) as [[o2 m2] l2].
        destruct o2 as [[totals' | e] | e |]; cbn [logged].
        -- destruct IH as (Hfst2 & Hsnd2 & Hw2).
           change (validations (event (GetFids pageToken fidsPageSize) (ok page)
                                  :: l1 ++ l2)) with (validations (l1 ++ l2)).
           change (checkpointWrites (event (GetFids pageToken fidsPageSize) (ok page)
                                       :: l1 ++ l2)) with (checkpointWrites (l1 ++ l2)).
           rewrite validations_app, checkpointWrites_app. repeat split; lia.
        -- destruct IH as (pre & asked & ->).
           exists (event (GetFids pageToken fidsPageSize) (ok page) :: l1 ++ pre), asked.
           cbn [app]. now rewrite <- app_assoc.
        -- now apply (storeFailure_logged [_]), storeFailure_logged.
        -- exact I.
      * cbn [run logged]. rewrite app_nil_r.
        change (validations (event (GetFids pageToken fidsPageSize) (ok page) :: l1))
          with (validations l1).
        change (checkpointWrites (event (GetFids pageToken fidsPageSize) (ok page) :: l1))
          with (checkpointWrites l1).
        repeat split; first [lia | exact Hw].
    + cbn [run]. now exists [], pageToken.
Qed.

(** X3.  The for loop over a page counts one FID checked for every FID it
    does not skip, and, counting from a non-negative total, it writes one
    progress checkpoint each time the total reaches a multiple of 5000:
    [total' / 5000 - total / 5000] writes in all (the interval is the 5000
    of line 97, not the 1000 of the comment at line 100). *)
Theorem progress_checkpoint_cadence (fuel : nat) (lastJobTimestamp lastFid : Z)
    (fids : list Z) (totals totals' : Z * Z) (m m' : Machine) (l : list Event) :
  run (forFids fuel lastJobTimestamp lastFid fids totals) m = (Returned totals', m', l) ->
  0 <= snd totals ->
  snd totals' =
    snd totals +
    Z.of_nat (List.length (filter (fun fid => negb (isSkipped lastFid fid)) fids)) /\
  checkpointWrites l = snd totals' / 5000 - snd totals / 5000.
Proof.
  intros Hrun Hpos.
  pose proof (forFids_outcome fuel lastJobTimestamp lastFid fids totals m) as Hout.
  rewrite Hrun in Hout. destruct Hout as (_ & Hsnd & Hw). auto.
Qed.

(** X4.  The total returned by a run that starts with the flag clear and
    returns [ok n] is the number of [validateOrRevokeMessage] calls made in
    the run, those that answered with an error included; a FID whose signer
    query failed adds none. *)
Theorem doJobs_total_counts_validations (fuel : nat) (m m' : Machine) (n : Z)
    (log : list Event) :
  _running (sched m) = false ->
  run (doJobs fuel) m = (Returned (ok n), m', log) ->
  n = validations log.
Proof.
  intros Hidle. unfold doJobs. cbn [run]. rewrite Hidle.
  cbn [bind call]. cbn [run].
  destruct (handle GetHubState (world m)) as [[hubState0 | e] w0]; cbn [run];
    [| discriminate].
  destruct (handle DateNow (world (setRunning true (setWorld w0 m)))) as [start w1].
  rewrite run_bind.
  pose proof (forPages_outcome fuel (checkpointTimestamp hubState0)
                (checkpointFid hubState0) fuel None (0, 0)
                (setWorld w1 (setRunning true (setWorld w0 m)))) as Hscan.
  destruct (run (forPages fuel fuel (checkpointTimestamp hubState0)
                   (checkpointFid hubState0) None (0, 0))
              (setWorld w1 (setRunning true (setWorld w0 m)))) as [[o m1] scan].
  destruct o as [[totals | e] | e |]; cbn [logged]; try discriminate.
  destruct Hscan as (Hfst & _).
  unfold finishJob, orThrow. cbn [bind call]. cbn [run].
  destruct (handle DateNow (world m1)) as [tEnd w2].
  destruct (handle GetHubState (world (setWorld w2 m1))) as [[hubState | e] w3];
    cbn [bind run]; [| discriminate].
  destruct (handle _ (world (setWorld w3 (setWorld w2 m1)))) as [[[] | e] w4];
    cbn [bind run]; [| discriminate].
  intros Hrun. injection Hrun as <- _ <-.
  change (validations (?a :: ?b :: scan ++ ?c)) with (validations (scan ++ c)).
  rewrite validations_app. cbn [fst] in Hfst. rewrite Hfst. cbn. lia.
Qed.

(** X5.  A run that starts with the flag clear returns an error in two
    cases only.  Either the first read of the checkpoint failed: that read is
    the only call made and the flag is left clear, so the next trigger tries
    again.  Or the fetch of a page of FIDs failed: the failed fetch is the
    last call made and the flag is left set.  Errors of the signer query, of
    the decoder or of the validator are never returned by [doJobs]. *)
Theorem doJobs_error_sources (fuel : nat) (m m' : Machine) (e : HubError)
    (log : list Event) :
  _running (sched m) = false ->
  run (doJobs fuel) m = (Returned (err e), m', log) ->
  (log = [event GetHubState (err e)] /\ _running (sched m') = false) \/
  ((exists pre asked, log = pre ++ [event (GetFids asked fidsPageSize) (err e)]) /\
   _running (sched m') = true).
Proof.
  intros Hidle. unfold doJobs. cbn [run]. rewrite Hidle.
  cbn [bind call]. cbn [run].
  destruct (handle GetHubState (world m)) as [[hubState0 | e0] w0]; cbn [run].
  - destruct (handle DateNow (world (setRunning true (setWorld w0 m)))) as [start w1].
    rewrite run_bind.
    pose proof (forPages_outcome fuel (checkpointTimestamp hubState0)
                  (checkpointFid hubState0) fuel None (0, 0)
                  (setWorld w1 (setRunning true (setWorld w0 m)))) as Hscan.
    pose proof (run_Quiet (Quiet_forPages fuel (checkpointTimestamp hubState0)
                             (checkpointFid hubState0) fuel None (0, 0))
                  (setWorld w1 (setRunning true (setWorld w0 m)))) as Hsched.
    destruct (run (forPages fuel fuel (checkpointTimestamp hubState0)
                     (checkpointFid hubState0) None (0, 0))
                (setWorld w1 (setRunning true (setWorld w0 m)))) as [[o m1] scan].
    cbn [fst snd] in Hsched.
    destruct o as [[totals | e1] | e1 |]; cbn [logged]; try discriminate.
    + unfold finishJob, orThrow. cbn [bind call]. cbn [run].
      destruct (handle DateNow (world m1)) as [tEnd w2].
      destruct (handle GetHubState (world (setWorld w2 m1))) as [[h | e2] w3];
        cbn [bind run]; [| discriminate].
      destruct (handle _ (world (setWorld w3 (setWorld w2 m1)))) as [[[] | e2] w4];
        cbn [bind run]; discriminate.
    + intros Hrun. injection Hrun as -> <- <-. right.
      destruct Hscan as (pre & asked & ->). split.
      * exists (event GetHubState (ok hubState0) :: event DateNow start :: pre), asked.
        now rewrite app_nil_r.
      * now rewrite Hsched.
  - intros Hrun. injection Hrun as -> <- <-. left. split; [reflexivity | exact Hidle].
Qed.

(** X6.  When a run that starts with the flag clear rejects, the rejection
    is that of a read or a write of the hub state made after the first read
    of the checkpoint (for a progress checkpoint or for the terminal one),
    that failed call is the last call of the run, and the flag is left set:
    every later [doJobs] returns [ok 0] without a call. *)
Theorem doJobs_rejection_leaves_flag_set (fuel : nat) (m m' : Machine) (e : HubError)
    (log : list Event) :
  _running (sched m) = false ->
  run (doJobs fuel) m = (Rejected e, m', log) ->
  storeFailure e log /\
  _running (sched m') = true /\
  forall fuel', run (doJobs fuel') m' = (Returned (ok 0), m', []).
Proof.
  intros Hidle Hrun.
  assert (Hboth : storeFailure e log /\ _running (sched m') = true);
    [| destruct Hboth as [Hfail Hset];
       split; [exact Hfail | split; [exact Hset |]];
       intros fuel'; now apply doJobs_guard].
  revert Hrun. unfold doJobs. cbn [run]. rewrite Hidle.
  cbn [bind call]. cbn [run].
  destruct (handle GetHubState (world m)) as [[hubState0 | e0] w0]; cbn [run];
    [| discriminate].
  destruct (handle DateNow (world (setRunning true (setWorld w0 m)))) as [start w1].
  rewrite run_bind.
  pose proof (forPages_outcome fuel (checkpointTimestamp hubState0)
                (checkpointFid hubState0) fuel None (0, 0)
                (setWorld w1 (setRunning true (setWorld w0 m)))) as Hscan.
  pose proof (run_Quiet (Quiet_forPages fuel (checkpointTimestamp hubState0)
                           (checkpointFid hubState0) fuel None (0, 0))
                (setWorld w1 (setRunning true (setWorld w0 m)))) as Hsched.
  destruct (run (forPages fuel fuel (checkpointTimestamp hubState0)
                   (checkpointFid hubState0) None (0, 0))
              (setWorld w1 (setRunning true (setWorld w0 m)))) as [[o m1] scan].
  cbn [fst snd] in Hsched.
  destruct o as [[totals | e1] | e1 |]; cbn [logged]; try discriminate.
  - unfold finishJob, orThrow. cbn [bind call]. cbn [run].
    destruct (handle DateNow (world m1)) as [tEnd w2].
    destruct (handle GetHubState (world (setWorld w2 m1))) as [[h | e2] w3];
      cbn [bind run].
    + destruct (handle _ (world (setWorld w3 (setWorld w2 m1)))) as [[[] | e2] w4];
        cbn [bind run]; [discriminate |].
      intros Hrun. injection Hrun as -> <- <-. split.
      * exists (event GetHubState (ok hubState0) :: event DateNow start ::
                scan ++ [event DateNow tEnd; event GetHubState (ok h)]).
        right. eexists. cbn [app]. rewrite <- app_assoc. reflexivity.
      * cbn [sched setWorld]. now rewrite Hsched.
    + intros Hrun. injection Hrun as -> <- <-. split.
      * exists (event GetHubState (ok hubState0) :: event DateNow start ::
                scan ++ [event DateNow tEnd]).
        left. cbn [app]. rewrite <- app_assoc. reflexivity.
      * cbn [sched setWorld]. now rewrite Hsched.
  - intros Hrun. injection Hrun as -> <- <-. split.
    + now apply (storeFailure_logged [_; _]).
    + now rewrite Hsched.
Qed.

(** ** The calls of the page loop *)

Lemma Calls_forFids (P : Call Message HubStateRest -> Prop) (lastJobTimestamp : Z)
    (fuel : nat) (lastFid : Z) (fids : list Z) :
  (forall c, isEntityCall c = true -> P c) ->
  P GetHubState ->
  (forall h fid, P (PutHubState (withValidateOrRevokeState h fid lastJobTimestamp))) ->
  forall totals, Calls P (forFids fuel lastJobTimestamp lastFid fids totals).
Proof.
  intros Hentity Hget Hput.
  induction fids as [| fid rest IH]; intros totals; cbn [forFids].
  - constructor.
  - destruct ((lastFid >? 0) && (fid <? lastFid)); [apply IH |].
    apply Calls_bind; [| apply IH].
    unfold processFid.
    apply Calls_bind;
      [apply Calls_impl with (2 := Calls_doJobForFid fuel lastJobTimestamp fid);
       exact Hentity |].
    intros numChecked.
    apply Calls_bind;
      [apply Calls_impl with (2 := Calls_doUsernamesJobForFid fid); exact Hentity |].
    intros numUsernamesChecked. unfold tally. cbv zeta.
    destruct (Z.rem (snd totals + 1) progressInterval =? 0); [| constructor].
    unfold orThrow, call. cbn [bind].
    constructor; [exact Hget |]. intros [hubState | e]; cbn [bind]; [| constructor].
    constructor; [apply Hput |]. intros [[] | e]; constructor.
Qed.

Lemma Calls_forPages (P : Call Message HubStateRest -> Prop) (lastJobTimestamp : Z)
    (fuel : nat) (lastFid : Z) (pages : nat) :
  (forall c, isEntityCall c = true -> P c) ->
  P GetHubState ->
  (forall h fid, P (PutHubState (withValidateOrRevokeState h fid lastJobTimestamp))) ->
  (forall pageToken, P (GetFids pageToken fidsPageSize)) ->
  forall pageToken totals,
    Calls P (forPages pages fuel lastJobTimestamp lastFid pageToken totals).
Proof.
  intros Hentity Hget Hput Hfids.
  induction pages as [| pages IH]; intros pageToken totals; cbn [forPages].
  - constructor.
  - unfold call. cbn [bind]. constructor; [apply Hfids |].
    intros [page | e]; cbn [bind]; [| constructor].
    apply Calls_bind; [now apply Calls_forFids |]. intros totals'.
    destruct (fidsNextPageToken page); [apply IH | constructor].
Qed.

(** X7.  In a run that starts with the flag clear and reads the hub state
    [hubState0], every write of the hub state holds either the watermark
    [lastJobTimestamp] of [hubState0] unchanged (a progress checkpoint) or
    the terminal checkpoint, [lastFid = 0] with the Farcaster time of the
    clock value read when the run began: until it completes, a run never
    moves the watermark. *)
Theorem checkpoints_of_a_run (fuel : nat) (m : Machine)
    (hubState0 : HubState HubStateRest) (w0 : W) :
  _running (sched m) = false ->
  handle GetHubState (world m) = (ok hubState0, w0) ->
  Forall (checkpointOfRun (checkpointTimestamp hubState0) (fst (handle DateNow w0)))
    (callsOf (snd (run (doJobs fuel) m))).
Proof.
  intros Hidle Hget. unfold doJobs. cbn [run]. rewrite Hidle.
  cbn [bind call]. cbn [run]. rewrite Hget. cbn [run world setWorld setRunning].
  destruct (handle DateNow w0) as [start w1]. cbn [fst].
  match goal with
  | |- context [run ?body ?m1] =>
      assert (Hbody : Calls (checkpointOfRun (checkpointTimestamp hubState0) start) body);
      [| pose proof (run_Calls Hbody m1) as Hlog;
         destruct (run body m1) as [[o m2] l] ]
  end.
  - apply Calls_bind.
    + apply Calls_forPages.
      * intros c Hc. destruct c; try discriminate Hc; exact I.
      * exact I.
      * intros h fid. left. now exists fid.
      * intros pageToken. exact I.
    + intros [totals | e]; [| constructor].
      unfold finishJob, orThrow, call. cbn [bind].
      constructor; [exact I |]. intros tEnd.
      constructor; [exact I |]. intros [hubState | e]; cbn [bind]; [| constructor].
      constructor; [now right |]. intros [[] | e]; cbn [bind]; repeat constructor.
  - cbn [snd callsOf map projT1 event] in *. repeat constructor. exact Hlog.
Qed.

Lemma no_fetches (l : list Event) :
  Forall notFetch (callsOf l) -> fidsFetches l = [].
Proof.
  unfold fidsFetches, callsOf.
  induction l as [| [c x] l IH]; intros Hall; [reflexivity |].
  cbn [map projT1] in Hall. inversion Hall as [| c' l' Hc Hl]; subst.
  cbn [flat_map]. rewrite (IH Hl).
  destruct c; try contradiction; reflexivity.
Qed.

Lemma forFids_no_fetches (fuel : nat) (lastJobTimestamp lastFid : Z) (fids : list Z)
    (totals : Z * Z) (m : Machine) :
  fidsFetches (snd (run (forFids fuel lastJobTimestamp lastFid fids totals) m)) = [].
Proof.
  apply no_fetches, run_Calls, Calls_forFids.
  - intros c Hc. destruct c; try discriminate Hc; exact I.
  - exact I.
  - intros h fid. exact I.
Qed.

Lemma forPages_chained (fuel : nat) (lastJobTimestamp lastFid : Z) (pages : nat) :
  forall pageToken totals m,
    chained pageToken
      (fidsFetches
         (snd (run (forPages pages fuel lastJobTimestamp lastFid pageToken totals) m))).
Proof.
  induction pages as [| pages IH]; intros pageToken totals m.
  - exact I.
  - cbn [forPages bind call]. cbn [run].
    destruct (handle (GetFids pageToken fidsPageSize) (world m)) as [[page | e] w].
    + rewrite run_bind.
      pose proof (forFids_no_fetches fuel lastJobTimestamp lastFid (fids page) totals
                    (setWorld w m)) as Hnone.
      destruct (run (forFids fuel lastJobTimestamp lastFid (fids page) totals)
                  (setWorld w m)) as [[o m1] l1].
      cbn [snd] in Hnone.
      destruct o as [totals1 | e |].
      * destruct (fidsNextPageToken page) as [nextPageToken |] eqn:Hnext.
        -- specialize (IH (Some nextPageToken) totals1 m1).
           destruct (run (forPages pages fuel lastJobTimestamp lastFid
                            (Some nextPageToken) totals1) m1) as [[o2 m2] l2].
           cbn [logged snd] in *.
           change (fidsFetches (event (GetFids pageToken fidsPageSize) (ok page)
                                  :: l1 ++ l2))
             with ((pageToken, fidsPageSize, ok page) :: fidsFetches (l1 ++ l2)).
           rewrite fidsFetches_app, Hnone. cbn [chained app]. rewrite Hnext. auto.
        -- cbn [run logged snd].
           change (fidsFetches (event (GetFids pageToken fidsPageSize) (ok page)
                                  :: l1 ++ []))
             with ((pageToken, fidsPageSize, ok page) :: fidsFetches (l1 ++ [])).
           rewrite fidsFetches_app, Hnone. cbn [chained app]. rewrite Hnext. auto.
      * cbn [snd].
        change (fidsFetches (event (GetFids pageToken fidsPageSize) (ok page) :: l1))
          with ((pageToken, fidsPageSize, ok page) :: fidsFetches l1).
        rewrite Hnone. cbn [chained].
        destruct (fidsNextPageToken page); cbn [chained]; auto.
      * cbn [snd].
        change (fidsFetches (event (GetFids pageToken fidsPageSize) (ok page) :: l1))
          with ((pageToken, fidsPageSize, ok page) :: fidsFetches l1).
        rewrite Hnone. cbn [chained].
        destruct (fidsNextPageToken page); cbn [chained]; auto.
    + cbn [run snd]. cbn. auto.
Qed.

(** X8.  Whatever the engine and the store answer, the fetches of FID
    pages in a run walk the pages: the first asks for 100 FIDs without a
    token, each later one asks for 100 FIDs with the token the fetch before
    it returned, and no fetch follows a failed fetch or a page without a
    token. *)
Theorem fid_pages_are_walked (fuel : nat) (m : Machine) :
  chained None (fidsFetches (snd (run (doJobs fuel) m))).
Proof.
  unfold doJobs. cbn [run].
  destruct (_running (sched m)); [exact I |].
  cbn [bind call]. cbn [run].
  destruct (handle GetHubState (world m)) as [[hubState0 | e] w0]; cbn [run];
    [| exact I].
  destruct (handle DateNow (world (setRunning true (setWorld w0 m)))) as [start w1].
  rewrite run_bind.
  pose proof (forPages_chained fuel (checkpointTimestamp hubState0)
                (checkpointFid hubState0) fuel None (0, 0)
                (setWorld w1 (setRunning true (setWorld w0 m)))) as Hscan.
  destruct (run (forPages fuel fuel (checkpointTimestamp hubState0)
                   (checkpointFid hubState0) None (0, 0))
              (setWorld w1 (setRunning true (setWorld w0 m)))) as [[o m1] scan].
  cbn [snd] in Hscan.
  assert (Hfinish : forall rest : list Event,
             fidsFetches rest = [] ->
             chained None
               (fidsFetches (event GetHubState (ok hubState0) :: event DateNow start ::
                             scan ++ rest))).
  { intros rest Hrest.
    change (fidsFetches (event GetHubState (ok hubState0) :: event DateNow start ::
                         scan ++ rest)) with (fidsFetches (scan ++ rest)).
    now rewrite fidsFetches_app, Hrest, app_nil_r. }
  destruct o as [[totals | e] | e |]; cbn [logged]; cbn [snd];
    try (rewrite <- (app_nil_r scan); now apply Hfinish).
  - unfold finishJob, orThrow. cbn [bind call]. cbn [run].
    destruct (handle DateNow (world m1)) as [tEnd w2].
    destruct (handle GetHubState (world (setWorld w2 m1))) as [[hubState | e] w3];
      cbn [bind run]; [| now apply Hfinish].
    destruct (handle _ (world (setWorld w3 (setWorld w2 m1)))) as [[[] | e] w4];
      cbn [bind run snd]; now apply Hfinish.
  - cbn [run snd]. now apply Hfinish.
Qed.

(** ** The newest signer event *)

Lemma newest_fold (allSigners : list OnChainEvent) :
  forall acc,
    let newest :=
      fold_left
        (fun acc signer =>
           if acc >? blockTimestamp signer then acc else blockTimestamp signer)
        allSigners acc in
    acc <= newest /\
    (forall signer, In signer allSigners -> blockTimestamp signer <= newest) /\
    (newest = acc \/ exists signer, In signer allSigners /\ blockTimestamp signer = newest).
Proof.
  induction allSigners as [| s rest IH]; intros acc; cbn [fold_left].
  - cbv zeta. repeat split; [lia | contradiction | now left].
  - specialize (IH (if acc >? blockTimestamp s then acc else blockTimestamp s)).
    cbv zeta in *. destruct IH as (Hle & Hall & Hattained).
    destruct (Z.gtb_spec acc (blockTimestamp s)) as [Hgt | Hngt].
    + repeat split; [exact Hle | |].
      * intros signer [<- | Hin]; [lia | now apply Hall].
      * destruct Hattained as [-> | (signer & Hin & Heq)]; [now left |].
        right. exists signer. split; [now right | exact Heq].
    + repeat split; [lia | |].
      * intros signer [<- | Hin]; [exact Hle | now apply Hall].
      * right. destruct Hattained as [-> | (signer & Hin & Heq)].
        -- exists s. split; [now left | reflexivity].
        -- exists signer. split; [now right | exact Heq].
Qed.

(** X10.  The reduce of line 163 computes the newest block timestamp of the
    signer events, with 0 for floor: it is at least 0, at least every
    event's timestamp, and it is either 0 (no event, or none after the
    Unix epoch) or the timestamp of one of the events. *)
Theorem newestBlockTimestamp_is_maximum (allSigners : list OnChainEvent) :
  0 <= newestBlockTimestamp allSigners /\
  (forall signer, In signer allSigners ->
                  blockTimestamp signer <= newestBlockTimestamp allSigners) /\
  (newestBlockTimestamp allSigners = 0 \/
   exists signer, In signer allSigners /\
                  blockTimestamp signer = newestBlockTimestamp allSigners).
Proof. exact (newest_fold allSigners 0). Qed.

(** ** Before the first start *)

(** X11.  Until [start] is called, [status] answers [stopped]: [stop] on a
    scheduler without a task does nothing, and neither [status] nor a run of
    [doJobs], however it ends, registers a task. *)
Theorem status_stopped_until_start (methods : list Method) (m : Machine) :
  status (sched m) = stopped ->
  (forall cronSchedule, ~ In (CallStart cronSchedule) methods) ->
  status (sched (fold_left invoke methods m)) = stopped.
Proof.
  revert m. induction methods as [| method methods IH]; intros m Hstopped Hnever.
  - exact Hstopped.
  - cbn [fold_left]. apply IH.
    + destruct method as [cronSchedule | | | fuel].
      * exfalso. apply (Hnever cronSchedule). now left.
      * cbn [invoke setSched sched]. unfold status in Hstopped |- *. unfold stop.
        destruct (_cronTask (sched m)) eqn:Htask;
          [discriminate Hstopped | now rewrite Htask].
      * exact Hstopped.
      * unfold status in Hstopped |- *. cbn [invoke]. now rewrite run_cronTask.
    + intros cronSchedule Hin. apply (Hnever cronSchedule). now right.
Qed.

(** ** Decoding and validating *)

Local Abbreviation decodedMessages := (@decodedMessages Message HubStateRest).
Local Abbreviation validatedMessages := (@validatedMessages Message HubStateRest).
Local Abbreviation Paired := (@Paired Message HubStateRest _).

Lemma Paired_bind {A B} (p : Prog A) (f : A -> Prog B) :
  Paired p -> (forall a, Paired (f a)) -> Paired (bind p f).
Proof.
  intros Hp Hf.
  induction Hp as [r | e | | k Hk IH | b k Hk IH | c k Hc Hk IH
                  | value k k' Hok Hk' IH' Herr IHerr]; cbn [bind].
  - apply Hf.
  - constructor.
  - constructor.
  - constructor. exact IH.
  - constructor. exact IH.
  - apply Paired_Do; [exact Hc | exact IH].
  - apply Paired_Decode with (k' := fun message x => bind (k' message x) f).
    + intros message. now rewrite Hok.
    + exact IH'.
    + exact IHerr.
Qed.

(** In the log of a run of such a program the validated messages are the
    decoded ones. *)
Lemma run_Paired {R} (p : Prog R) :
  Paired p ->
  forall m, validatedMessages (snd (run p m)) = decodedMessages (snd (run p m)).
Proof.
  induction 1 as [r | e | | k Hk IH | b k Hk IH | c k Hc Hk IH
                 | value k k' Hok Hk' IH' Herr IHerr]; intros m; cbn [run snd];
    try reflexivity.
  - apply IH.
  - apply IH.
  - destruct (handle c (world m)) as [x w].
    specialize (IH x (setWorld w m)).
    destruct (run (k x) (setWorld w m)) as [[o m1] l1]. cbn [snd] in *.
    unfold validatedMessages, decodedMessages, callsOf, event in *.
    cbn [map flat_map projT1]. rewrite IH.
    destruct c; try discriminate Hc; reflexivity.
  - destruct (handle (MessageDecode value) (world m)) as [[message | e] w].
    + rewrite Hok. cbn [run].
      destruct (handle (ValidateOrRevokeMessage message) (world (setWorld w m)))
        as [x w'].
      specialize (IH' message x (setWorld w' (setWorld w m))).
      destruct (run (k' message x) (setWorld w' (setWorld w m))) as [[o m1] l1].
      cbn [snd] in *.
      unfold validatedMessages, decodedMessages, callsOf, event in *.
      cbn [map flat_map projT1 decoded app]. now rewrite IH'.
    + specialize (IHerr e (setWorld w m)).
      destruct (run (k (err e)) (setWorld w m)) as [[o m1] l1]. cbn [snd] in *.
      unfold validatedMessages, decodedMessages, callsOf, event in *.
      cbn [map flat_map projT1 decoded app]. exact IHerr.
Qed.

Ltac paired :=
  repeat first
    [ assumption
    | match goal with
      | |- Paired (bind _ _) => apply Paired_bind
      | |- Paired (orThrow _) => unfold orThrow
      | |- Paired (call ?c) => unfold call
      | |- Paired (Do _ _) => apply Paired_Do; [reflexivity |]
      | |- Paired (match ?x with _ => _ end) => destruct x
      | |- Paired (Ret _) => constructor
      | |- Paired (Throw _) => constructor
      | |- Paired Spin => constructor
      | |- Paired (SetRunning _ _) => constructor
      | |- Paired (GetRunning _) => constructor
      end
    | intro ].

Lemma Paired_decodeAndValidate (value : bytes) (count : Z) :
  Paired (decodeAndValidate value count).
Proof.
  unfold decodeAndValidate, call. cbn [bind].
  apply Paired_Decode with (k' := fun _ _ => Ret (count + 1)).
  - reflexivity.
  - constructor.
  - constructor.
Qed.

Lemma Paired_forEachEntry (callback : bytes -> bytes -> Z -> Prog Z)
    (entries : list (bytes * bytes)) :
  (forall key value count, Paired (callback key value count)) ->
  forall count, Paired (forEachEntry callback entries count).
Proof.
  intros Hcallback.
  induction entries as [| [key value] entries IH]; intros count; cbn [forEachEntry].
  - constructor.
  - apply Paired_bind; auto.
Qed.

Lemma Paired_messageCallback (key value : bytes) (count : Z) :
  Paired (messageCallback key value count).
Proof.
  unfold messageCallback. paired; apply Paired_decodeAndValidate.
Qed.

Lemma Paired_usernameCallback (key value : bytes) (count : Z) :
  Paired (usernameCallback key value count).
Proof.
  unfold usernameCallback. paired; apply Paired_decodeAndValidate.
Qed.

Lemma Paired_fetchAllSigners (fuel : nat) (fid : Z) :
  forall allSigners pageToken, Paired (fetchAllSigners fuel fid allSigners pageToken).
Proof.
  induction fuel as [| fuel IH]; intros allSigners pageToken; cbn [fetchAllSigners].
  - constructor.
  - paired. apply IH.
Qed.

Lemma Paired_processFid (fuel : nat) (lastJobTimestamp fid : Z) (totals : Z * Z) :
  Paired (processFid fuel lastJobTimestamp fid totals).
Proof.
  unfold processFid, doJobForFid, doUsernamesJobForFid, forEachIteratorByPrefix, tally.
  cbv zeta. apply Paired_bind.
  - apply Paired_bind; [apply Paired_fetchAllSigners |].
    paired. apply Paired_forEachEntry, Paired_messageCallback.
  - intros numChecked. apply Paired_bind.
    + paired. apply Paired_forEachEntry, Paired_usernameCallback.
    + paired.
Qed.

Lemma Paired_forFids (fuel : nat) (lastJobTimestamp lastFid : Z) (fids : list Z) :
  forall totals, Paired (forFids fuel lastJobTimestamp lastFid fids totals).
Proof.
  induction fids as [| fid rest IH]; intros totals; cbn [forFids].
  - constructor.
  - destruct ((lastFid >? 0) && (fid <? lastFid)); [apply IH |].
    apply Paired_bind; [apply Paired_processFid | apply IH].
Qed.

Lemma Paired_forPages (fuel : nat) (lastJobTimestamp lastFid : Z) (pages : nat) :
  forall pageToken totals,
    Paired (forPages pages fuel lastJobTimestamp lastFid pageToken totals).
Proof.
  induction pages as [| pages IH]; intros pageToken totals; cbn [forPages].
  - constructor.
  - unfold call. cbn [bind]. apply Paired_Do; [reflexivity |].
    intros [page | e]; cbn [bind]; [| constructor].
    apply Paired_bind; [apply Paired_forFids |]. intros totals'.
    destruct (fidsNextPageToken page); [apply IH | constructor].
Qed.

(** X12.  In every run of [doJobs], however it ends, the messages handed to
    [validateOrRevokeMessage] are exactly the messages [messageDecode]
    returned, in the same order: a record whose value does not decode is
    passed over without a validation, and nothing is validated that was not
    just decoded from the store. *)
Theorem validates_exactly_the_decoded (fuel : nat) (m : Machine) :
  validatedMessages (snd (run (doJobs fuel) m)) =
  decodedMessages (snd (run (doJobs fuel) m)).
Proof.
  apply run_Paired. unfold doJobs.
  constructor. intros [|]; [constructor |].
  unfold call. cbn [bind]. apply Paired_Do; [reflexivity |].
  intros [hubState0 | e]; cbn [bind]; [| constructor].
  constructor. apply Paired_Do; [reflexivity |]. intros start. cbn [bind].
  apply Paired_bind; [apply Paired_forPages |].
  intros [totals | e]; [| constructor].
  unfold finishJob. paired.
Qed.

(** ** The two sweeps on the same records *)

Lemma username_key_is_message_key (key : bytes) :
  UsernameProofMessage <= UserMessagePostfixMax ->
  UserDataMessage <= UserMessagePostfixMax ->
  isUsernameKey key = true -> isMessageKey key = true.
Proof.
  intros Hproof Hdata. unfold isUsernameKey, isMessageKey.
  destruct (postfixOf FID_BYTES TSHASH_LENGTH key) as [postfix |]; [| discriminate].
  intros Htag. apply Bool.orb_true_iff in Htag.
  apply Z.leb_le. destruct Htag as [Htag | Htag]; apply Z.eqb_eq in Htag; lia.
Qed.

(** X13.  The two tags of the username sweep being record tags, every value
    the username sweep decodes from a list of entries the message sweep
    decodes from those entries too: on a FID whose signers changed, a
    username proof or a user-data record is handed to the decoder by both
    sweeps of the same run. *)
Theorem username_records_are_swept_twice (entries : list (bytes * bytes))
    (value : bytes) (count count' : Z) (m m' : Machine) :
  UsernameProofMessage <= UserMessagePostfixMax ->
  UserDataMessage <= UserMessagePostfixMax ->
  In value (decodedValues (snd (run (forEachEntry usernameCallback entries count) m))) ->
  In value (decodedValues (snd (run (forEachEntry messageCallback entries count') m'))).
Proof.
  intros Hproof Hdata.
  destruct (sweep_counts usernameCallback isUsernameKey usernameCallback_counts
              entries count m) as (c1 & m1 & l1 & -> & Hd1 & _).
  destruct (sweep_counts messageCallback isMessageKey messageCallback_counts
              entries count' m') as (c2 & m2 & l2 & -> & Hd2 & _).
  cbn [snd]. rewrite Hd1, Hd2, !in_map_iff.
  intros ([key v] & Hv & Hin). exists (key, v). split; [exact Hv |].
  apply filter_In in Hin as [Hin Hkey]. apply filter_In. split; [exact Hin |].
  now apply username_key_is_message_key.
Qed.

(** ** Which FIDs a run works on *)

Local Abbreviation callFor := (@callFor Message HubStateRest makeUserKey).
Local Abbreviation processedIn :=
  (processedIn FID_BYTES TSHASH_LENGTH UserMessagePostfixMax UsernameProofMessage
     UserDataMessage makeUserKey toFarcasterTime handle).

Lemma callsOf_app (l1 l2 : list Event) : callsOf (l1 ++ l2) = callsOf l1 ++ callsOf l2.
Proof. unfold callsOf. apply map_app. Qed.

(** The calls of the work for one FID: its signer query, the iteration of
    its prefix, decodes and validations, and the two store calls of a
    progress checkpoint. *)
Lemma Calls_processFid_of (P : Call Message HubStateRest -> Prop)
    (fuel : nat) (lastJobTimestamp fid : Z) (totals : Z * Z) :
  P (GetOnChainSignersByFid fid None) ->
  P (ForEachIteratorByPrefix (makeUserKey fid) iteratorTimeoutMs) ->
  (forall value, P (MessageDecode value)) ->
  (forall message, P (ValidateOrRevokeMessage message)) ->
  P GetHubState ->
  (forall h, P (PutHubState h)) ->
  Calls P (processFid fuel lastJobTimestamp fid totals).
Proof.
  intros Hquery Hiter Hdecode Hvalidate Hget Hput.
  assert (Hcallback : forall value count, Calls P (decodeAndValidate value count)).
  { intros value count. unfold decodeAndValidate, call. cbn [bind].
    constructor; [apply Hdecode |]. intros [message | e]; cbn [bind]; [| constructor].
    constructor; [apply Hvalidate |]. intros x. constructor. }
  unfold processFid. apply Calls_bind; [| intros numChecked; apply Calls_bind].
  - unfold doJobForFid. apply Calls_bind.
    + generalize (@nil OnChainEvent) as allSigners, (@None bytes) as pageToken.
      induction fuel as [| fuel IH]; intros allSigners pageToken; cbn [fetchAllSigners].
      * constructor.
      * unfold call. cbn [bind]. constructor; [exact Hquery |].
        intros [page | e]; cbn [bind]; [| constructor].
        destruct (eventsNextPageToken page); [apply IH | constructor].
    + intros [allSigners | e]; [| constructor].
      destruct (latestSignerEventTs allSigners <? lastJobTimestamp); [constructor |].
      apply Calls_bind; [| intros count; constructor].
      unfold forEachIteratorByPrefix, call. cbn [bind].
      constructor; [exact Hiter |]. intros entries.
      apply Calls_forEachEntry. intros k v n. unfold messageCallback.
      destruct (negb _); [constructor |].
      destruct (readUint8 k (1 + FID_BYTES)); [| constructor].
      destruct (_ >? _); [constructor | apply Hcallback].
  - unfold doUsernamesJobForFid. apply Calls_bind; [| intros count; constructor].
    unfold forEachIteratorByPrefix, call. cbn [bind].
    constructor; [exact Hiter |]. intros entries.
    apply Calls_forEachEntry. intros k v n. unfold usernameCallback.
    destruct (negb (Nat.eqb _ _)); [constructor |].
    destruct (readUint8 k (1 + FID_BYTES)); [| constructor].
    destruct (_ && _); [constructor | apply Hcallback].
  - intros numUsernamesChecked. unfold tally. cbv zeta.
    destruct (Z.rem (snd totals + 1) progressInterval =? 0); [| constructor].
    unfold orThrow, call. cbn [bind].
    constructor; [exact Hget |]. intros [hubState | e]; cbn [bind]; [| constructor].
    constructor; [apply Hput |]. intros [[] | e]; constructor.
Qed.

(** The for loop makes calls for the FIDs it does not skip, and for no
    other. *)
Lemma Calls_forFids_for (keeps : Z -> Prop) (fuel : nat) (lastJobTimestamp lastFid : Z)
    (fids : list Z) :
  (forall fid, In fid fids -> isSkipped lastFid fid = false -> keeps fid) ->
  forall totals, Calls (callFor keeps) (forFids fuel lastJobTimestamp lastFid fids totals).
Proof.
  induction fids as [| fid rest IH]; intros Hkeeps totals; cbn [forFids].
  - constructor.
  - assert (Hrest : forall totals',
               Calls (callFor keeps) (forFids fuel lastJobTimestamp lastFid rest totals'))
      by (apply IH; intros f Hin; apply Hkeeps; now right).
    destruct ((lastFid >? 0) && (fid <? lastFid)) eqn:Hskip; [apply Hrest |].
    apply Calls_bind; [| exact Hrest].
    assert (Hfid : keeps fid) by (apply Hkeeps; [now left | exact Hskip]).
    apply Calls_processFid_of; try exact I; try (intros; exact I).
    + exact Hfid.
    + exists fid. split; [exact Hfid | reflexivity].
Qed.

Lemma Calls_forPages_for (keeps : Z -> Prop) (fuel : nat) (lastJobTimestamp lastFid : Z)
    (pages : nat) :
  (forall fid, isSkipped lastFid fid = false -> keeps fid) ->
  forall pageToken totals,
    Calls (callFor keeps) (forPages pages fuel lastJobTimestamp lastFid pageToken totals).
Proof.
  intros Hkeeps.
  induction pages as [| pages IH]; intros pageToken totals; cbn [forPages].
  - constructor.
  - unfold call. cbn [bind]. constructor; [exact I |].
    intros [page | e]; cbn [bind]; [| constructor].
    apply Calls_bind; [apply Calls_forFids_for; auto |]. intros totals'.
    destruct (fidsNextPageToken page); [apply IH | constructor].
Qed.

(** *** The work done for a FID, in the log *)

Lemma processedIn_app (fuel : nat) (lastJobTimestamp fid : Z) (l0 l l3 : list Event) :
  processedIn fuel lastJobTimestamp fid l ->
  processedIn fuel lastJobTimestamp fid (l0 ++ l ++ l3).
Proof.
  intros (pre & m0 & numChecked & m1 & l1 & count & m2 & l2 & post & Hjob & Husr & ->).
  exists (l0 ++ pre), m0, numChecked, m1, l1, count, m2, l2, (post ++ l3).
  split; [exact Hjob | split; [exact Husr |]].
  now rewrite <- !app_assoc.
Qed.

(** A signer loop that has returned has asked. *)
Lemma fetchAllSigners_asks (fuel : nat) (fid : Z) (allSigners : list OnChainEvent)
    (pageToken : option bytes) (m m1 : Machine) (signers : Result (list OnChainEvent))
    (l : list Event) :
  run (fetchAllSigners fuel fid allSigners pageToken) m = (Returned signers, m1, l) ->
  In (GetOnChainSignersByFid fid None) (callsOf l).
Proof.
  destruct fuel as [| fuel]; cbn [fetchAllSigners bind call run]; [discriminate |].
  destruct (handle (GetOnChainSignersByFid fid None) (world m)) as [[page | e] w].
  - destruct (eventsNextPageToken page) as [nextPageToken |].
    + destruct (run (fetchAllSigners fuel fid (allSigners ++ events page)
                       (Some nextPageToken)) (setWorld w m)) as [[o m2] l2].
      intros Hrun. injection Hrun as _ _ <-. now left.
    + cbn [run]. intros Hrun. injection Hrun as _ _ <-. now left.
  - cbn [run]. intros Hrun. injection Hrun as _ _ <-. now left.
Qed.

Lemma doJobForFid_asks (fuel : nat) (lastJobTimestamp fid : Z) (m m1 : Machine)
    (numChecked : Result Z) (l : list Event) :
  run (doJobForFid fuel lastJobTimestamp fid) m = (Returned numChecked, m1, l) ->
  In (GetOnChainSignersByFid fid None) (callsOf l).
Proof.
  unfold doJobForFid. rewrite run_bind.
  pose proof (@fetchAllSigners_asks fuel fid [] None m) as Hasks.
  destruct (run (fetchAllSigners fuel fid [] None) m) as [[o m0] l0].
  destruct o as [signers | e |]; try discriminate.
  specialize (Hasks m0 signers l0 eq_refl).
  destruct (run _ m0) as [[o2 m2] l2]. cbn [logged].
  intros Hrun. injection Hrun as _ _ <-.
  rewrite callsOf_app. apply in_or_app. now left.
Qed.

Lemma doUsernamesJobForFid_iterates (fid : Z) (m m2 : Machine) (count : Result Z)
    (l : list Event) :
  run (doUsernamesJobForFid fid) m = (Returned count, m2, l) ->
  In (ForEachIteratorByPrefix (makeUserKey fid) iteratorTimeoutMs) (callsOf l).
Proof.
  unfold doUsernamesJobForFid. rewrite run_bind.
  destruct (usernameSweep_counts (makeUserKey fid) m)
    as (n & m1 & l1 & Hsweep & _). cbv zeta in Hsweep.
  rewrite Hsweep. cbn [logged run].
  intros Hrun. injection Hrun as _ _ <-. now left.
Qed.

Lemma processedIn_calls (fuel : nat) (lastJobTimestamp fid : Z) (l : list Event) :
  processedIn fuel lastJobTimestamp fid l ->
  In (GetOnChainSignersByFid fid None) (callsOf l) /\
  In (ForEachIteratorByPrefix (makeUserKey fid) iteratorTimeoutMs) (callsOf l).
Proof.
  intros (pre & m0 & numChecked & m1 & l1 & count & m2 & l2 & post & Hjob & Husr & ->).
  apply doJobForFid_asks in Hjob. apply doUsernamesJobForFid_iterates in Husr.
  rewrite !callsOf_app. split.
  - apply in_or_app; right. apply in_or_app; now left.
  - apply in_or_app; right. apply in_or_app; right. apply in_or_app; now left.
Qed.

Lemma processFid_processes (fuel : nat) (lastJobTimestamp fid : Z) (totals totals' : Z * Z)
    (m m' : Machine) (l : list Event) :
  run (processFid fuel lastJobTimestamp fid totals) m = (Returned totals', m', l) ->
  processedIn fuel lastJobTimestamp fid l.
Proof.
  unfold processFid. rewrite run_bind.
  destruct (run (doJobForFid fuel lastJobTimestamp fid) m) as [[o m1] l1] eqn:Hjob.
  destruct o as [numChecked | e |]; try discriminate.
  rewrite run_bind.
  destruct (doUsernamesJobForFid_outcome fid m1) as (count & m2 & l2 & Husr & _).
  rewrite Husr.
  destruct (run (tally lastJobTimestamp fid numChecked (ok count) totals) m2)
    as [[o3 m3] l3].
  destruct o3 as [t | e |]; cbn [logged]; try discriminate.
  intros Hrun. injection Hrun as _ _ <-.
  exists [], m, numChecked, m1, l1, count, m2, l2, l3.
  split; [exact Hjob | split; [exact Husr | reflexivity]].
Qed.

(** When the for loop over a page has returned, the work for every FID of
    the page that it does not skip is in the log. *)
Lemma forFids_processes (fuel : nat) (lastJobTimestamp lastFid : Z) (fids : list Z) :
  forall totals totals' m m' l,
    run (forFids fuel lastJobTimestamp lastFid fids totals) m = (Returned totals', m', l) ->
    forall fid, In fid fids -> isSkipped lastFid fid = false ->
                processedIn fuel lastJobTimestamp fid l.
Proof.
  induction fids as [| fid0 rest IH]; intros totals totals' m m' l Hrun fid Hin Hkept;
    [contradiction |].
  revert Hrun. cbn [forFids].
  destruct ((lastFid >? 0) && (fid0 <? lastFid)) eqn:Hskip.
  - intros Hrun. destruct Hin as [<- | Hin].
    + unfold isSkipped in Hkept. congruence.
    + exact (IH _ _ _ _ _ Hrun fid Hin Hkept).
  - rewrite run_bind.
    destruct (run (processFid fuel lastJobTimestamp fid0 totals) m) as [[o m1] l1] eqn:Hone.
    destruct o as [totals1 | e |]; try discriminate.
    destruct (run (forFids fuel lastJobTimestamp lastFid rest totals1) m1)
      as [[o2 m2] l2] eqn:Hrest.
    cbn [logged]. intros Hrun. injection Hrun as -> _ <-.
    destruct Hin as [<- | Hin].
    + apply processFid_processes in Hone.
      rewrite <- (app_nil_l (l1 ++ l2)). now apply processedIn_app.
    + pose proof (IH _ _ _ _ _ Hrest fid Hin Hkept) as Hthere.
      rewrite <- (app_nil_r l2). now apply processedIn_app.
Qed.

Lemma forPages_processes (fuel : nat) (lastJobTimestamp lastFid : Z) (pages : nat) :
  forall pageToken totals totals' m m' l,
    run (forPages pages fuel lastJobTimestamp lastFid pageToken totals) m =
      (Returned (ok totals'), m', l) ->
    forall asked size page fid,
      In (asked, size, ok page) (fidsFetches l) ->
      In fid (fids page) -> isSkipped lastFid fid = false ->
      processedIn fuel lastJobTimestamp fid l.
Proof.
  induction pages as [| pages IH];
    intros pageToken totals totals' m m' l Hrun asked size page fid Hfetch Hin Hkept;
    [discriminate |].
  revert Hrun Hfetch. cbn [forPages bind call]. cbn [run].
  destruct (handle (GetFids pageToken fidsPageSize) (world m)) as [[page0 | e] w];
    [| cbn [run]; discriminate].
  rewrite run_bind.
  pose proof (forFids_no_fetches fuel lastJobTimestamp lastFid (fids page0) totals
                (setWorld w m)) as Hnone.
  destruct (run (forFids fuel lastJobTimestamp lastFid (fids page0) totals) (setWorld w m))
    as [[o m1] l1] eqn:Hpage.
  cbn [snd] in Hnone.
  destruct o as [totals1 | e |]; try discriminate.
  assert (Hhere : forall rest : list Event,
             In (asked, size, ok page) (fidsFetches rest) \/ page = page0 ->
             (In (asked, size, ok page) (fidsFetches rest) ->
              processedIn fuel lastJobTimestamp fid rest) ->
             processedIn fuel lastJobTimestamp fid
               (event (GetFids pageToken fidsPageSize) (ok page0) :: l1 ++ rest)).
  { intros rest [Hlater | ->] Hrest.
    - change (event (GetFids pageToken fidsPageSize) (ok page0) :: l1 ++ rest)
        with (([event (GetFids pageToken fidsPageSize) (ok page0)] ++ l1) ++ rest).
      rewrite <- (app_nil_r rest). apply processedIn_app. auto.
    - change (event (GetFids pageToken fidsPageSize) (ok page0) :: l1 ++ rest)
        with ([event (GetFids pageToken fidsPageSize) (ok page0)] ++ l1 ++ rest).
      apply processedIn_app.
      eapply forFids_processes; [exact Hpage | exact Hin | exact Hkept]. }
  assert (Hsplit : forall rest : list Event,
             In (asked, size, ok page)
               (fidsFetches (event (GetFids pageToken fidsPageSize) (ok page0)
                               :: l1 ++ rest)) ->
             In (asked, size, ok page) (fidsFetches rest) \/ page = page0).
  { intros rest.
    change (fidsFetches (event (GetFids pageToken fidsPageSize) (ok page0) :: l1 ++ rest))
      with ((pageToken, fidsPageSize, ok page0) :: fidsFetches (l1 ++ rest)).
    rewrite fidsFetches_app, Hnone. cbn [app].
    intros [Heq | Hlater]; [right; congruence | now left]. }
  destruct (fidsNextPageToken page0) as [nextPageToken |].
  - destruct (run (forPages pages fuel lastJobTimestamp lastFid (Some nextPageToken) totals1)
                m1) as [[o2 m2] l2] eqn:Hlater.
    destruct o2 as [[totals2 | e] | e |]; cbn [logged]; try discriminate.
    intros Hrun Hfetch. injection Hrun as _ _ <-.
    apply Hhere; [now apply Hsplit |].
    intros Hin2. exact (IH _ _ _ _ _ _ Hlater asked size page fid Hin2 Hin Hkept).
  - cbn [run logged]. intros Hrun Hfetch. injection Hrun as _ _ <-.
    apply Hhere; [now apply Hsplit |].
    intros Hin2. contradiction.
Qed.

Lemma not_skipped_without_resume_point (lastFid fid : Z) :
  lastFid <= 0 -> isSkipped lastFid fid = false.
Proof.
  intros Hnone. unfold isSkipped.
  assert ((lastFid >? 0) = false) as -> by (rewrite Z.gtb_ltb; apply Z.ltb_ge; lia).
  reflexivity.
Qed.

Lemma not_skipped_from_resume_point (X fid : Z) :
  0 < X -> (isSkipped X fid = false <-> X <= fid).
Proof.
  intros HX. unfold isSkipped.
  assert ((X >? 0) = true) as -> by (apply Z.gtb_lt; lia).
  cbn [andb]. rewrite Z.ltb_ge. reflexivity.
Qed.

(** X9.  With [lastFid] at 0, the value of a checkpoint that has no resume
    point (or below 0), a for loop over a page that returns has skipped no
    FID of the page: it has counted every one, and for every one the log
    holds the work for it, a run of [doJobForFid] and after it a run of
    [doUsernamesJobForFid], both returned, with the signer query of the FID
    and an iteration of its prefix among the calls. *)
Theorem no_resume_point_processes_all (fuel : nat) (lastJobTimestamp lastFid : Z)
    (fids : list Z) (totals totals' : Z * Z) (m m' : Machine) (l : list Event) :
  lastFid <= 0 ->
  run (forFids fuel lastJobTimestamp lastFid fids totals) m = (Returned totals', m', l) ->
  snd totals' = snd totals + Z.of_nat (List.length fids) /\
  forall fid, In fid fids ->
    processedIn fuel lastJobTimestamp fid l /\
    In (GetOnChainSignersByFid fid None) (callsOf l) /\
    In (ForEachIteratorByPrefix (makeUserKey fid) iteratorTimeoutMs) (callsOf l).
Proof.
  intros Hnone Hrun. split.
  - pose proof (forFids_outcome fuel lastJobTimestamp lastFid fids totals m) as Hout.
    rewrite Hrun in Hout. destruct Hout as (_ & Hsnd & _). rewrite Hsnd.
    do 2 f_equal. clear Hrun Hsnd.
    induction fids as [| fid rest IH]; [reflexivity |].
    cbn [filter]. rewrite (not_skipped_without_resume_point fid Hnone). cbn [negb].
    cbn [List.length]. now rewrite IH.
  - intros fid Hin.
    assert (Hthere : processedIn fuel lastJobTimestamp fid l)
      by (eapply forFids_processes;
          [exact Hrun | exact Hin | now apply not_skipped_without_resume_point]).
    split; [exact Hthere | apply processedIn_calls with (1 := Hthere)].
Qed.

(** X16.  Take a run that starts with the flag clear and reads a checkpoint
    with a resume point [lastFid = X > 0].  However the run ends, it makes
    no signer query and no iteration for a FID below [X].  When it returns
    [ok], then for every page of FIDs it fetched and every FID from [X] on
    in the page (whatever FIDs the engine returned, so also those added to
    the store since the checkpoint was written) the log holds the work for
    that FID: a run of [doJobForFid] and after it a run of
    [doUsernamesJobForFid], both returned, with the signer query of the FID
    and an iteration of its prefix among the calls. *)
Theorem doJobs_resumes_from_checkpoint (fuel : nat) (m : Machine)
    (hubState0 : HubState HubStateRest) (w0 : W) (X : Z) :
  _running (sched m) = false ->
  handle GetHubState (world m) = (ok hubState0, w0) ->
  checkpointFid hubState0 = X ->
  0 < X ->
  Forall (callFor (fun fid => X <= fid)) (callsOf (snd (run (doJobs fuel) m))) /\
  forall n m' log,
    run (doJobs fuel) m = (Returned (ok n), m', log) ->
    forall asked size page fid,
      In (asked, size, ok page) (fidsFetches log) -> In fid (fids page) -> X <= fid ->
      processedIn fuel (checkpointTimestamp hubState0) fid log /\
      In (GetOnChainSignersByFid fid None) (callsOf log) /\
      In (ForEachIteratorByPrefix (makeUserKey fid) iteratorTimeoutMs) (callsOf log).
Proof.
  intros Hidle Hget HX Hpos. unfold doJobs. cbn [run]. rewrite Hidle.
  cbn [bind call]. cbn [run]. rewrite Hget. cbn [run world setWorld setRunning].
  destruct (handle DateNow w0) as [start w1]. rewrite HX.
  set (m1 := setWorld w1 (setRunning true (setWorld w0 m))).
  rewrite run_bind.
  pose proof (run_Calls
                (@Calls_forPages_for (fun fid => X <= fid) fuel
                   (checkpointTimestamp hubState0) X fuel
                   (fun fid Hkept => proj1 (not_skipped_from_resume_point fid Hpos) Hkept)
                   None (0, 0)) m1) as Hcalls.
  pose proof (@forPages_processes fuel (checkpointTimestamp hubState0) X fuel None (0, 0))
    as Hwork.
  destruct (run (forPages fuel fuel (checkpointTimestamp hubState0) X None (0, 0)) m1)
    as [[o m2] scan] eqn:Hscan.
  cbn [snd] in Hcalls.
  assert (Hfinish : forall totals : Z * Z,
             Forall (callFor (fun fid => X <= fid))
               (callsOf (snd (run (finishJob start (fst totals)) m2))) /\
             fidsFetches (snd (run (finishJob start (fst totals)) m2)) = []).
  { intros totals. unfold finishJob, orThrow. cbn [bind call]. cbn [run].
    destruct (handle DateNow (world m2)) as [tEnd w2].
    destruct (handle GetHubState (world (setWorld w2 m2))) as [[hubState | e] w3];
      cbn [bind run].
    - destruct (handle _ (world (setWorld w3 (setWorld w2 m2)))) as [[[] | e] w4];
        cbn [bind run snd]; split; try reflexivity; repeat constructor.
    - cbn [snd]. split; [repeat constructor | reflexivity]. }
  split.
  - destruct o as [[totals | e] | e |]; cbn [logged].
    + destruct (Hfinish totals) as [Hlast _].
      destruct (run (finishJob start (fst totals)) m2) as [[o3 m3] l3].
      cbn [logged snd callsOf map projT1 event] in *.
      constructor; [exact I |]. constructor; [exact I |].
      fold (callsOf (scan ++ l3)). rewrite callsOf_app. apply Forall_app. now split.
    + cbn [run logged snd callsOf map projT1 event].
      constructor; [exact I |]. constructor; [exact I |].
      fold (callsOf (scan ++ [])). now rewrite app_nil_r.
    + cbn [snd callsOf map projT1 event].
      constructor; [exact I |]. constructor; [exact I |]. exact Hcalls.
    + cbn [snd callsOf map projT1 event].
      constructor; [exact I |]. constructor; [exact I |]. exact Hcalls.
  - intros n m' log.
    destruct o as [[totals | e] | e |]; cbn [logged]; try discriminate.
    destruct (Hfinish totals) as [_ Hnone].
    destruct (run (finishJob start (fst totals)) m2) as [[o3 m3] l3].
    cbn [logged snd] in *. intros Hrun. injection Hrun as _ _ <-.
    intros asked size page fid Hfetch Hin Hfrom.
    assert (Hthere : processedIn fuel (checkpointTimestamp hubState0) fid
                       ([event GetHubState (ok hubState0); event DateNow start]
                        ++ scan ++ l3)).
    { apply processedIn_app.
      apply (Hwork totals m1 m2 scan Hscan asked size page fid); [| exact Hin |].
      - change (fidsFetches (event GetHubState (ok hubState0) :: event DateNow start
                               :: scan ++ l3))
          with (fidsFetches (scan ++ l3)) in Hfetch.
        now rewrite fidsFetches_app, Hnone, app_nil_r in Hfetch.
      - now apply not_skipped_from_resume_point. }
    split; [exact Hthere | apply processedIn_calls with (1 := Hthere)].
Qed.

(** ** The username sweep of a FID *)

(** X17.  Once [doJobForFid] has returned for a FID that is processed,
    whatever it returned (a skip because of [lastJobTimestamp], a count, or
    an error of the signer query), the next thing the run does is the
    username sweep of that FID; the sweep takes no [lastJobTimestamp].
    The sweep iterates the FID's prefix and returns [ok count]: the values
    it hands to [messageDecode] are exactly those of the keys of record
    length whose tag is [UsernameProofMessage] or [UserDataMessage], in
    key order; the messages it hands to [validateOrRevokeMessage] are
    exactly the messages the decoder returned; and [count] is the number
    of validations. *)
Theorem username_sweep_is_unconditional (fuel : nat) (lastJobTimestamp fid : Z)
    (totals : Z * Z) (m m1 : Machine) (numChecked : Result Z) (l1 : list Event) :
  run (doJobForFid fuel lastJobTimestamp fid) m = (Returned numChecked, m1, l1) ->
  run (processFid fuel lastJobTimestamp fid totals) m =
  logged l1
    (run (bind (doUsernamesJobForFid fid)
            (fun numUsernamesChecked =>
               tally lastJobTimestamp fid numChecked numUsernamesChecked totals)) m1) /\
  exists count m2 l2,
    let sweep := ForEachIteratorByPrefix (makeUserKey fid) iteratorTimeoutMs in
    let entries := fst (handle sweep (world m1)) in
    run (doUsernamesJobForFid fid) m1 =
    (Returned (ok count), m2, event sweep entries :: l2) /\
    decodedValues l2 = map snd (filter (fun kv => isUsernameKey (fst kv)) entries) /\
    validatedMessages l2 = decodedMessages l2 /\
    count = validations l2.
Proof.
  intros Hjob. split.
  - now apply processFid_after_doJobForFid.
  - unfold doUsernamesJobForFid, forEachIteratorByPrefix.
    cbn [bind call]. cbn [run].
    destruct (handle (ForEachIteratorByPrefix (makeUserKey fid) iteratorTimeoutMs)
                (world m1)) as [entries w].
    cbn [fst]. rewrite run_bind.
    pose proof (run_Paired
                  (Paired_forEachEntry usernameCallback entries
                     Paired_usernameCallback 0) (setWorld w m1)) as Hpaired.
    destruct (sweep_counts usernameCallback isUsernameKey usernameCallback_counts
                entries 0 (setWorld w m1)) as (count & m2 & l2 & Hsweep & Hd & Hc).
    rewrite Hsweep in *. cbn [snd logged run] in *.
    exists count, m2, l2. rewrite app_nil_r.
    split; [reflexivity | split; [exact Hd | split; [exact Hpaired | lia]]].
Qed.

(** ** A FID whose signer loop does not return *)

(** When [doJobForFid] exhausts its budget, it has made signer queries
    only. *)
Lemma doJobForFid_spin_calls (fuel : nat) (lastJobTimestamp fid : Z) (m : Machine) :
  fst (fst (run (doJobForFid fuel lastJobTimestamp fid) m)) = OutOfFuel ->
  Forall (fun c => c = GetOnChainSignersByFid fid None)
    (callsOf (snd (run (doJobForFid fuel lastJobTimestamp fid) m))).
Proof.
  unfold doJobForFid. rewrite run_bind.
  pose proof (fetchAllSigners_calls fuel fid [] None m) as Hcalls.
  destruct (run (fetchAllSigners fuel fid [] None) m) as [[o m0] l0].
  cbn [snd] in Hcalls.
  destruct o as [[allSigners | e] | e |]; cbn [run logged fst snd];
    try discriminate; [| intros _; exact Hcalls].
  destruct (latestSignerEventTs allSigners <? lastJobTimestamp);
    [cbn [run logged fst]; discriminate |].
  rewrite run_bind.
  destruct (messageSweep_counts (makeUserKey fid) m0)
    as (count & m2 & l2 & Hsweep & _). cbv zeta in Hsweep.
  rewrite Hsweep. cbn [logged run fst]. discriminate.
Qed.

(** The for loop stops with the first FID it processes whose
    [doJobForFid] does not return: the username sweep of that FID does not
    start, and no later FID of the page is reached. *)
Lemma forFids_spins (fuel : nat) (lastJobTimestamp lastFid fid : Z) (rest : list Z)
    (totals : Z * Z) (m : Machine) :
  isSkipped lastFid fid = false ->
  fst (fst (run (doJobForFid fuel lastJobTimestamp fid) m)) = OutOfFuel ->
  fst (fst (run (forFids fuel lastJobTimestamp lastFid (fid :: rest) totals) m))
    = OutOfFuel /\
  Forall (fun c => c = GetOnChainSignersByFid fid None)
    (callsOf (snd (run (forFids fuel lastJobTimestamp lastFid (fid :: rest) totals) m))).
Proof.
  intros Hkept Hspin.
  pose proof (doJobForFid_spin_calls fuel lastJobTimestamp fid m Hspin) as Hcalls.
  cbn [forFids]. unfold isSkipped in Hkept. rewrite Hkept.
  rewrite run_bind. unfold processFid. rewrite run_bind.
  destruct (run (doJobForFid fuel lastJobTimestamp fid) m) as [[o m1] l1].
  cbn [fst snd] in *. subst o. split; [reflexivity | exact Hcalls].
Qed.

(** A run whose first FID to process never comes back from [doJobForFid]
    makes, after reading the checkpoint, the clock and the first page of
    FIDs, signer queries for that FID only. *)
Lemma doJobs_spins_calls (fuel : nat) (m : Machine) (hubState : HubState HubStateRest)
    (start : Z) (page : FidsPage) (fid : Z) (rest : list Z) (w w1 w2 : W) :
  _running (sched m) = false ->
  handle GetHubState (world m) = (ok hubState, w) ->
  handle DateNow w = (start, w1) ->
  handle (GetFids None fidsPageSize) w1 = (ok page, w2) ->
  fids page = fid :: rest ->
  isSkipped (checkpointFid hubState) fid = false ->
  (forall lastJobTimestamp m',
      fst (fst (run (doJobForFid (S fuel) lastJobTimestamp fid) m')) = OutOfFuel) ->
  Forall (fun c => In c [GetHubState; DateNow; GetFids None fidsPageSize;
                         GetOnChainSignersByFid fid None])
    (callsOf (snd (run (doJobs (S fuel)) m))).
Proof.
  intros Hidle Hget Hnow Hfids Hpage Hkept Hspin.
  unfold doJobs. cbn [run]. rewrite Hidle.
  cbn [bind call]. cbn [run]. rewrite Hget.
  cbn [run world setWorld setRunning]. rewrite Hnow.
  rewrite run_bind. cbn [forPages bind call]. cbn [run].
  cbn [world setWorld setRunning]. rewrite Hfids.
  rewrite run_bind, Hpage.
  match goal with
  | |- context [run (forFids (S fuel) ?ts ?lastFid (fid :: rest) ?totals) ?m'] =>
      destruct (@forFids_spins (S fuel) ts lastFid fid rest totals m' Hkept (Hspin ts m'))
        as [Hout Hcalls];
      destruct (run (forFids (S fuel) ts lastFid (fid :: rest) totals) m')
        as [[o m1] l1]
  end.
  cbn [fst snd] in *. subst o.
  cbn [logged snd callsOf map projT1 event].
  constructor; [now left |]. constructor; [right; now left |].
  constructor; [right; right; now left |].
  apply Forall_impl with (2 := Hcalls).
  intros c ->. right; right; right; now left.
Qed.

End JobProperties.

(** * The properties on the three-FID hub *)

Import Hub.

(** C1, as the claim states it, fails.  On the three-FID hub whose signer
    query fails for FID 1, [doJobForFid] returns that error for FID 1 (the
    fourth call of the run is the failed query), yet [doJobs] returns
    [ok 9], not the error, and after the failure it sweeps the usernames of
    FID 1, processes FIDs 2 and 3 and writes the terminal checkpoint. *)
Lemma signer_failure_does_not_abort_run :
  fst (fst (run (handle signersFailForFid1) (jobForFid 5 86400 1) (idle 0)))
    = Returned (err unavailable) /\
  nth_error (snd (run (handle signersFailForFid1) (job 5) (idle 0))) 3
    = Some (event (GetOnChainSignersByFid 1 None) (err unavailable)) /\
  fst (fst (run (handle signersFailForFid1) (job 5) (idle 0))) = Returned (ok 9) /\
  callsOf (snd (run (handle signersFailForFid1) (job 5) (idle 0))) =
    [GetHubState; DateNow; GetFids None 100; GetOnChainSignersByFid 1 None]
    ++ sweepCalls 1 [[x0b]; [x0c]]
    ++ [GetOnChainSignersByFid 2 None]
    ++ sweepCalls 2 [[x0a]; [x0b]; [x0c]] ++ sweepCalls 2 [[x0b]; [x0c]]
    ++ [GetOnChainSignersByFid 3 None]
    ++ sweepCalls 3 [[x0b]; [x0c]]
    ++ [DateNow; GetHubState; PutHubState completed].
Proof. repeat split; vm_compute; reflexivity. Qed.

(** On the hub whose signer query fails for FID 1, at the first page. *)
Lemma signer_failure_counts_zero_and_continues_witness :
  (0 >? 0) && (1 <? 0) = false /\
  run (handle signersFailForFid1) (jobForFid 5 86400 1) (idle 0) =
    (Returned (err unavailable), idle 0,
     [event (GetOnChainSignersByFid 1 None) (err unavailable)]) /\
  run (handle signersFailForFid1) (fidLoop 5 86400 0 [1; 2; 3] (0, 0)) (idle 0) =
    logged [event (GetOnChainSignersByFid 1 None) (err unavailable)]
      (run (handle signersFailForFid1)
         (bind (usernamesJobForFid 1)
            (fun numUsernamesChecked =>
               bind (tally 86400 1 (ok 0) numUsernamesChecked (0, 0))
                 (fun totals' => fidLoop 5 86400 0 [2; 3] totals')))
         (idle 0)).
Proof.
  assert (Hkept : (0 >? 0) && (1 <? 0) = false) by reflexivity.
  assert (Hjob : run (handle signersFailForFid1) (jobForFid 5 86400 1) (idle 0) =
                 (Returned (err unavailable), idle 0,
                  [event (GetOnChainSignersByFid 1 None) (err unavailable)]))
    by reflexivity.
  split; [exact Hkept | split; [exact Hjob |]].
  exact (signer_failure_counts_zero_and_continues FID_BYTES TSHASH_LENGTH
           UserMessagePostfixMax UsernameProofMessage UserDataMessage makeUserKey
           toFarcasterTime (handle signersFailForFid1) 5 86400 0 1 [2; 3] (0, 0)
           (idle 0) Hkept Hjob).
Defined.

(** C2 fails on the code.  FID 1 of this hub has two pages of signer
    events; the page asked for with the first page's token is the last.
    Whatever the loop budget, [doJobForFid] does not return for FID 1, nor
    does a run of [doJobs] that reaches it: every query of the signer loop
    is the one for the first page. *)
Theorem signer_pages_never_advance (fuel : nat) :
  signersTable twoSignerPages 1 (Some [x01]) =
    ok {| events := [mkOnChainEvent day3]; eventsNextPageToken := None |} /\
  fst (fst (run (handle twoSignerPages) (jobForFid fuel 86400 1) (idle 0))) = OutOfFuel /\
  fst (fst (run (handle twoSignerPages) (job (S fuel)) (idle 0))) = OutOfFuel /\
  Forall (fun c => c = GetOnChainSignersByFid 1 None)
    (callsOf (snd (run (handle twoSignerPages) (signerLoop fuel 1) (idle 0)))).
Proof.
  assert (Hspin : forall fuel' lastJobTimestamp m,
             fst (fst (run (handle twoSignerPages)
                         (jobForFid fuel' lastJobTimestamp 1) m)) = OutOfFuel).
  { intros fuel' lastJobTimestamp m.
    apply doJobForFid_spins
      with (page := {| events := [mkOnChainEvent day2];
                       eventsNextPageToken := Some [x01] |})
           (nextPageToken := [x01]); reflexivity. }
  split; [reflexivity | split; [apply Hspin | split]].
  - apply doJobs_spins
      with (hubState := checkpointed 0) (w := world (idle 0))
           (start := (day3 + 3600) * 1000)
           (w1 := {| storedHubState := checkpointed 0;
                     wallClock := (day3 + 3600) * 1000 + 1000 |})
           (page := {| fids := [1; 2; 3]; fidsNextPageToken := None |})
           (w2 := {| storedHubState := checkpointed 0;
                     wallClock := (day3 + 3600) * 1000 + 1000 |})
           (fid := 1) (rest := [2; 3]);
      try reflexivity.
    exact (Hspin (S fuel)).
  - apply fetchAllSigners_calls.
Qed.

(** C3 fails on the code.  On the hub whose query for the second page of
    FIDs fails, the run processes the first page and then ends with that
    error, with [_running] still set and the checkpoint as it was.  The next
    [doJobs], even on a hub whose engine answers again, is a no-op that
    returns [ok 0]; from the idle scheduler the same hub is scanned in
    full. *)
Theorem failed_fids_page_leaves_scheduler_stuck :
  fst (fst (run (handle fidsFail) (job 5) (idle 0))) = Returned (err unavailable) /\
  callsOf (snd (run (handle fidsFail) (job 5) (idle 0))) =
    [GetHubState; DateNow; GetFids None 100; GetOnChainSignersByFid 1 None]
    ++ sweepCalls 1 [[x0b]; [x0c]]
    ++ [GetOnChainSignersByFid 2 None]
    ++ sweepCalls 2 [[x0a]; [x0b]; [x0c]] ++ sweepCalls 2 [[x0b]; [x0c]]
    ++ [GetFids (Some [x02]) 100] /\
  _running (sched afterFailedPage) = true /\
  storedHubState (world afterFailedPage) = checkpointed 0 /\
  run (handle threeFids) (job 5) afterFailedPage = (Returned (ok 0), afterFailedPage, []) /\
  fst (fst (run (handle threeFids) (job 5) (idle 0))) = Returned (ok 9).
Proof. repeat split; vm_compute; reflexivity. Qed.

(** C4 fails on the code.  Two triggers in a row both pass the guard of
    line 46: the second arrives while the first invocation awaits its read
    of the checkpoint (line 51), and the flag is set only after that read
    (line 63).  The second trigger is then no no-op: once both reads
    complete, two invocations are in progress, each awaiting a page of FIDs
    for its own scan, and the engine serves two page fetches. *)
Theorem two_triggers_start_two_scans :
  runsInProgress (process threeFids [Trigger 5]) = 1%nat /\
  runsInProgress (process threeFids [Trigger 5; Trigger 5]) = 2%nat /\
  map (fun t => awaitsFidsPage t)
    (invocations (process threeFids [Trigger 5; Trigger 5; Resume 0; Resume 1]))
    = [true; true] /\
  callsOf (history (process threeFids
                      [Trigger 5; Trigger 5; Resume 0; Resume 1; Resume 0; Resume 1]))
    = [GetHubState; DateNow; GetHubState; DateNow; GetFids None 100; GetFids None 100].
Proof. repeat split; vm_compute; reflexivity. Qed.

(** On the hub where FID 1 has two pages of signer events, [doJobForFid]
    does not return for FID 1, whatever the budget, the watermark and the
    state it starts in. *)
Lemma firstPageAgain (fuel : nat) (lastJobTimestamp : Z) (m : Machine World) :
  fst (fst (run (handle twoSignerPages) (jobForFid fuel lastJobTimestamp 1) m)) = OutOfFuel.
Proof.
  apply doJobForFid_spins
    with (page := {| events := [mkOnChainEvent day2];
                     eventsNextPageToken := Some [x01] |})
         (nextPageToken := [x01]); reflexivity.
Qed.

(** C5 fails on the code.  FID 1 of this hub has two pages of signer
    events; the newest of them, of day 3, is at Farcaster time 172800,
    before the watermark 1000000, so the claim has [doJobForFid] return
    [ok 0].  Whatever the loop budget it does not return: the signer loop
    asks for the first page again and again (the defect of C2, line 142).
    FID 2, whose event of day 3 comes in one page, is skipped as the claim
    says. *)
Theorem unchanged_fid_with_two_signer_pages_is_not_skipped (fuel : nat) :
  latestSignerEventTs toFarcasterTime [mkOnChainEvent day2; mkOnChainEvent day3]
    = 172800 /\
  172800 < 1000000 /\
  fst (fst (run (handle twoSignerPages) (jobForFid fuel 1000000 1) (idle 0))) = OutOfFuel /\
  run (handle twoSignerPages) (jobForFid 5 1000000 2) (idle 0) =
    (Returned (ok 0), idle 0,
     [event (GetOnChainSignersByFid 2 None)
        (ok {| events := [mkOnChainEvent day3]; eventsNextPageToken := None |})]).
Proof.
  split; [vm_compute; reflexivity | split; [reflexivity | split]].
  - apply firstPageAgain.
  - vm_compute; reflexivity.
Qed.

(** C6 fails on the code.  The checkpoint of this hub holds the resume
    point [lastFid = 1], and the engine returns the FIDs 1, 2 and 3, all
    from the resume point on, so the claim has the run process the three.
    FID 1 has two pages of signer events: whatever the loop budget the run
    does not get past it (the defect of C2, line 142), and apart from the
    reads of the checkpoint, of the clock and of the page of FIDs its
    calls are signer queries for FID 1.  FIDs 2 and 3 get no call.  On the
    hub where FID 1 has one page the resumed run processes the three. *)
Theorem resumed_run_stops_at_fid_with_two_signer_pages (fuel : nat) :
  checkpointFid (storedHubState (world (idle 1))) = 1 /\
  fidsTable twoSignerPages None = ok {| fids := [1; 2; 3]; fidsNextPageToken := None |} /\
  fst (fst (run (handle twoSignerPages) (job (S fuel)) (idle 1))) = OutOfFuel /\
  Forall (fun c => In c [GetHubState; DateNow; GetFids None 100;
                         GetOnChainSignersByFid 1 None])
    (callsOf (snd (run (handle twoSignerPages) (job (S fuel)) (idle 1)))) /\
  fst (fst (run (handle threeFids) (job 5) (idle 1))) = Returned (ok 9).
Proof.
  split; [reflexivity | split; [reflexivity | split; [| split]]].
  - apply doJobs_spins
      with (hubState := checkpointed 1) (w := world (idle 1))
           (start := (day3 + 3600) * 1000)
           (w1 := {| storedHubState := checkpointed 1;
                     wallClock := (day3 + 3600) * 1000 + 1000 |})
           (page := {| fids := [1; 2; 3]; fidsNextPageToken := None |})
           (w2 := {| storedHubState := checkpointed 1;
                     wallClock := (day3 + 3600) * 1000 + 1000 |})
           (fid := 1) (rest := [2; 3]);
      try reflexivity.
    exact (firstPageAgain (S fuel)).
  - apply doJobs_spins_calls
      with (hubState := checkpointed 1) (w := world (idle 1))
           (start := (day3 + 3600) * 1000)
           (w1 := {| storedHubState := checkpointed 1;
                     wallClock := (day3 + 3600) * 1000 + 1000 |})
           (page := {| fids := [1; 2; 3]; fidsNextPageToken := None |})
           (w2 := {| storedHubState := checkpointed 1;
                     wallClock := (day3 + 3600) * 1000 + 1000 |})
           (rest := [2; 3]);
      try reflexivity.
    exact (firstPageAgain (S fuel)).
  - vm_compute; reflexivity.
Qed.

(** C8 fails on the code.  FID 1 of this hub holds a user-data record and
    a username proof, and it is processed in the run: the for loop starts
    on it.  It has two pages of signer events, so [doJobForFid] does not
    return for it (the defect of C2, line 142) and the username sweep of
    lines 92 and 222 to 266 never starts: whatever the loop budget, the for
    loop makes signer queries for FID 1 and no other call, no iteration, no
    decode and no validation.  On the hub where FID 1 has one page its two
    username records are decoded and validated. *)
Theorem username_sweep_never_starts_behind_signer_loop (fuel : nat) :
  map snd
    (filter (fun kv => isUsernameKey FID_BYTES TSHASH_LENGTH UsernameProofMessage
                         UserDataMessage (fst kv)) (entriesOf 1))
    = [[x0b]; [x0c]] /\
  fst (fst (run (handle twoSignerPages) (fidLoop fuel 86400 0 [1; 2; 3] (0, 0)) (idle 0)))
    = OutOfFuel /\
  Forall (fun c => c = GetOnChainSignersByFid 1 None)
    (callsOf (snd (run (handle twoSignerPages) (fidLoop fuel 86400 0 [1; 2; 3] (0, 0))
                     (idle 0)))) /\
  callsOf (snd (run (handle threeFids) (fidLoop 5 86400 0 [1] (0, 0)) (idle 0))) =
    GetOnChainSignersByFid 1 None :: sweepCalls 1 [[x0b]; [x0c]].
Proof.
  split; [vm_compute; reflexivity | ].
  destruct (forFids_spins FID_BYTES TSHASH_LENGTH UserMessagePostfixMax
              UsernameProofMessage UserDataMessage makeUserKey toFarcasterTime
              (handle twoSignerPages) fuel 86400 0 1 [2; 3] (0, 0) (idle 0)
              eq_refl (firstPageAgain fuel 86400 (idle 0))) as [Hout Hcalls].
  split; [exact Hout | split; [exact Hcalls | vm_compute; reflexivity]].
Qed.

(** C10, as the claim states it, fails.  node-cron refuses the expression
    [99 * * * *] (there is no minute 99): [cron.schedule] throws, line 32
    assigns nothing, and after this call of [start] the status is
    [stopped]. *)
Lemma start_that_throws_leaves_status_stopped :
  validate "99 * * * *" = false /\
  start validate (Some "99 * * * *"%string) (sched fresh) = None /\
  status (sched (call_method threeFids fresh (CallStart (Some "99 * * * *"%string))))
    = stopped /\
  status (sched (fold_left (call_method threeFids)
                   [CallStart (Some "99 * * * *"%string); CallStatus; CallDoJobs 5]
                   fresh)) = stopped.
Proof. repeat split; vm_compute; reflexivity. Qed.

(** On the scheduler as constructed: [start()] with the default
    expression, then [stop], a [start] that throws, a run and [stop]. *)
Lemma status_started_forever_witness :
  start validate None (sched fresh) = Some scheduled /\
  status (sched (fold_left (call_method threeFids)
                   [CallStop; CallStart (Some "99 * * * *"%string); CallDoJobs 5; CallStop]
                   (call_method threeFids fresh (CallStart None)))) = started /\
  status (sched (call_method threeFids (call_method threeFids fresh (CallStart None))
                   CallStop)) = started /\
  option_map firing
    (_cronTask (sched (call_method threeFids
                         (call_method threeFids fresh (CallStart None)) CallStop)))
    = Some false.
Proof.
  assert (Hstart : start validate None (sched fresh) = Some scheduled) by reflexivity.
  split; [exact Hstart |].
  exact (status_started_forever FID_BYTES TSHASH_LENGTH UserMessagePostfixMax
           UsernameProofMessage UserDataMessage makeUserKey toFarcasterTime validate
           (handle threeFids) None
           [CallStop; CallStart (Some "99 * * * *"%string); CallDoJobs 5; CallStop]
           fresh Hstart).
Defined.

(** * The further properties on the three-FID hub *)

(** On the three-FID hub: a trigger during a started run, and a schedule
    in which the second trigger comes after the first checkpoint read. *)
Lemma one_run_at_a_time_witness :
  _running (sched (machine (process threeFids [Trigger 5; Resume 0]))) = true /\
  run (handle threeFids) (job 5) (machine (process threeFids [Trigger 5; Resume 0])) =
    (Returned (ok 0), machine (process threeFids [Trigger 5; Resume 0]), []) /\
  (runsInProgress
     (process threeFids [Trigger 5; Resume 0; Trigger 5; Resume 0; Resume 1]) <= 1)%nat.
Proof.
  pose proof (one_run_at_a_time FID_BYTES TSHASH_LENGTH UserMessagePostfixMax
                UsernameProofMessage UserDataMessage makeUserKey toFarcasterTime
                (handle threeFids)) as [Hguard Hone].
  assert (Hset : _running (sched (machine (process threeFids [Trigger 5; Resume 0])))
                 = true) by reflexivity.
  split; [exact Hset | split].
  - exact (proj1 (Hguard 5%nat (process threeFids [Trigger 5; Resume 0]) Hset)).
  - apply (Hone [Trigger 5; Resume 0; Trigger 5; Resume 0; Resume 1] (idle 0)).
    cbn [wellTimed]. repeat split.
    + constructor.
    + constructor; [| constructor].
      intros Hjust. apply justTriggered_awaits_checkpoint in Hjust. discriminate Hjust.
Defined.


(** On the keys of FID 1 with tag 200 and with a short length. *)
Lemma sweeps_skip_non_record_keys_witness :
  UsernameProofMessage <= UserMessagePostfixMax /\
  UserDataMessage <= UserMessagePostfixMax /\
  readUint8 (recordKey 1 200 x04) (1 + FID_BYTES) = Some 200 /\
  UserMessagePostfixMax < 200 /\
  List.length (shortKey 1) <> recordKeyLength FID_BYTES TSHASH_LENGTH /\
  run (handle threeFids)
    (messageCallback FID_BYTES TSHASH_LENGTH UserMessagePostfixMax
       (recordKey 1 200 x04) [x0d] 0) (idle 0) = (Returned 0, idle 0, []) /\
  run (handle threeFids)
    (usernameCallback FID_BYTES TSHASH_LENGTH UsernameProofMessage UserDataMessage
       (recordKey 1 200 x04) [x0d] 0) (idle 0) = (Returned 0, idle 0, []) /\
  run (handle threeFids)
    (messageCallback FID_BYTES TSHASH_LENGTH UserMessagePostfixMax
       (shortKey 1) [x0e] 0) (idle 0) = (Returned 0, idle 0, []) /\
  run (handle threeFids)
    (usernameCallback FID_BYTES TSHASH_LENGTH UsernameProofMessage UserDataMessage
       (shortKey 1) [x0e] 0) (idle 0) = (Returned 0, idle 0, []).
Proof.
  assert (Hproof : UsernameProofMessage <= UserMessagePostfixMax) by discriminate.
  assert (Hdata : UserDataMessage <= UserMessagePostfixMax) by discriminate.
  assert (Hread : readUint8 (recordKey 1 200 x04) (1 + FID_BYTES) = Some 200)
    by reflexivity.
  assert (Hmax : UserMessagePostfixMax < 200) by reflexivity.
  assert (Hshort : List.length (shortKey 1) <> recordKeyLength FID_BYTES TSHASH_LENGTH)
    by discriminate.
  repeat (split; [assumption |]).
  pose proof (proj1 (sweeps_skip_non_record_keys (TSHASH_LENGTH := TSHASH_LENGTH)
                       (handle threeFids) (recordKey 1 200 x04) [x0d] Hproof Hdata
                       (or_intror (ex_intro _ 200 (conj Hread Hmax)))) 0 (idle 0))
    as [Htag1 Htag2].
  pose proof (proj1 (sweeps_skip_non_record_keys (TSHASH_LENGTH := TSHASH_LENGTH)
                       (handle threeFids) (shortKey 1) [x0e] Hproof Hdata
                       (or_introl Hshort)) 0 (idle 0))
    as [Hlen1 Hlen2].
  split; [exact Htag1 | split; [exact Htag2 | split; [exact Hlen1 | exact Hlen2]]].
Defined.

(** On the hub whose query for the second page of FIDs fails. *)
Lemma doJobs_error_sources_witness :
  _running (sched (idle 0)) = false /\
  run (handle fidsFail) (job 5) (idle 0) =
    (Returned (err unavailable), afterFailedPage,
     snd (run (handle fidsFail) (job 5) (idle 0))) /\
  ((snd (run (handle fidsFail) (job 5) (idle 0)) = [event GetHubState (err unavailable)] /\
    _running (sched afterFailedPage) = false) \/
   ((exists pre asked,
        snd (run (handle fidsFail) (job 5) (idle 0)) =
        pre ++ [event (GetFids asked fidsPageSize) (err unavailable)]) /\
    _running (sched afterFailedPage) = true)).
Proof.
  assert (Hidle : _running (sched (idle 0)) = false) by reflexivity.
  assert (Hrun : run (handle fidsFail) (job 5) (idle 0) =
                 (Returned (err unavailable), afterFailedPage,
                  snd (run (handle fidsFail) (job 5) (idle 0))))
    by (vm_compute; reflexivity).
  split; [exact Hidle | split; [exact Hrun |]].
  exact (doJobs_error_sources FID_BYTES TSHASH_LENGTH UserMessagePostfixMax
           UsernameProofMessage UserDataMessage makeUserKey toFarcasterTime
           (handle fidsFail) 5 (idle 0) Hidle Hrun).
Defined.

(** On the three-FID hub: nine records checked, nine validations. *)
Lemma doJobs_total_counts_validations_witness :
  _running (sched (idle 0)) = false /\
  run (handle threeFids) (job 5) (idle 0) =
    (Returned (ok 9), snd (fst (run (handle threeFids) (job 5) (idle 0))),
     snd (run (handle threeFids) (job 5) (idle 0))) /\
  9 = validations (snd (run (handle threeFids) (job 5) (idle 0))).
Proof.
  assert (Hidle : _running (sched (idle 0)) = false) by reflexivity.
  assert (Hrun : run (handle threeFids) (job 5) (idle 0) =
                 (Returned (ok 9), snd (fst (run (handle threeFids) (job 5) (idle 0))),
                  snd (run (handle threeFids) (job 5) (idle 0))))
    by (vm_compute; reflexivity).
  split; [exact Hidle | split; [exact Hrun |]].
  exact (doJobs_total_counts_validations FID_BYTES TSHASH_LENGTH UserMessagePostfixMax
           UsernameProofMessage UserDataMessage makeUserKey toFarcasterTime
           (handle threeFids) 5 (idle 0) Hidle Hrun).
Defined.

(** On the three-FID hub, at FID 2, whose signer event of day 3 is newer
    than the watermark. *)
Lemma doJobForFid_sweeps_changed_fid_witness :
  run (handle threeFids) (signerLoop 5 2) (idle 0) =
    (Returned (ok [mkOnChainEvent day3]), idle 0,
     [event (GetOnChainSignersByFid 2 None)
        (ok {| events := [mkOnChainEvent day3]; eventsNextPageToken := None |})]) /\
  86400 <= latestSignerEventTs toFarcasterTime [mkOnChainEvent day3] /\
  exists count m2 l2,
    run (handle threeFids) (jobForFid 5 86400 2) (idle 0) =
      (Returned (ok count), m2,
       [event (GetOnChainSignersByFid 2 None)
          (ok {| events := [mkOnChainEvent day3]; eventsNextPageToken := None |})]
       ++ event (ForEachIteratorByPrefix (makeUserKey 2) iteratorTimeoutMs) (entriesOf 2)
          :: l2) /\
    decodedValues l2 = [[x0a]; [x0b]; [x0c]] /\
    count = validations l2.
Proof.
  assert (Hfetch : run (handle threeFids) (signerLoop 5 2) (idle 0) =
                   (Returned (ok [mkOnChainEvent day3]), idle 0,
                    [event (GetOnChainSignersByFid 2 None)
                       (ok {| events := [mkOnChainEvent day3];
                              eventsNextPageToken := None |})]))
    by reflexivity.
  assert (Hnew : 86400 <= latestSignerEventTs toFarcasterTime [mkOnChainEvent day3])
    by (vm_compute; discriminate).
  split; [exact Hfetch | split; [exact Hnew |]].
  exact (doJobForFid_sweeps_changed_fid FID_BYTES TSHASH_LENGTH UserMessagePostfixMax
           makeUserKey toFarcasterTime (handle threeFids) 5 2 (idle 0) Hfetch Hnew).
Defined.

(** On the hub whose signer query fails for FID 1. *)
Lemma doJobForFid_error_is_signer_failure_witness :
  run (handle signersFailForFid1) (jobForFid 5 86400 1) (idle 0) =
    (Returned (err unavailable), idle 0,
     [event (GetOnChainSignersByFid 1 None) (err unavailable)]) /\
  (exists pre : list (Event Message unit),
      [event (GetOnChainSignersByFid 1 None) (err unavailable)] =
      pre ++ [event (GetOnChainSignersByFid 1 None) (err unavailable)]) /\
  filter (@isRecordCall Message unit)
    (callsOf
       ([event (GetOnChainSignersByFid 1 None) (err unavailable)]
        : list (Event Message unit))) = [].
Proof.
  assert (Hjob : run (handle signersFailForFid1) (jobForFid 5 86400 1) (idle 0) =
                 (Returned (err unavailable), idle 0,
                  [event (GetOnChainSignersByFid 1 None) (err unavailable)]))
    by reflexivity.
  split; [exact Hjob |].
  exact (doJobForFid_error_is_signer_failure FID_BYTES TSHASH_LENGTH
           UserMessagePostfixMax makeUserKey toFarcasterTime
           (handle signersFailForFid1) 5 86400 1 (idle 0) Hjob).
Defined.

(** On the three-FID hub whose store rejects the write of the terminal
    checkpoint. *)
Lemma doJobs_rejection_leaves_flag_set_witness :
  _running (sched (idle 0)) = false /\
  run (handleReadOnly threeFids) (job 5) (idle 0) =
    (Rejected unavailable,
     snd (fst (run (handleReadOnly threeFids) (job 5) (idle 0))),
     snd (run (handleReadOnly threeFids) (job 5) (idle 0))) /\
  storeFailure unavailable (snd (run (handleReadOnly threeFids) (job 5) (idle 0))) /\
  _running (sched (snd (fst (run (handleReadOnly threeFids) (job 5) (idle 0))))) = true /\
  run (handleReadOnly threeFids) (job 7)
    (snd (fst (run (handleReadOnly threeFids) (job 5) (idle 0)))) =
    (Returned (ok 0), snd (fst (run (handleReadOnly threeFids) (job 5) (idle 0))), []).
Proof.
  assert (Hidle : _running (sched (idle 0)) = false) by reflexivity.
  assert (Hrun : run (handleReadOnly threeFids) (job 5) (idle 0) =
                 (Rejected unavailable,
                  snd (fst (run (handleReadOnly threeFids) (job 5) (idle 0))),
                  snd (run (handleReadOnly threeFids) (job 5) (idle 0))))
    by (vm_compute; reflexivity).
  split; [exact Hidle | split; [exact Hrun |]].
  destruct (doJobs_rejection_leaves_flag_set FID_BYTES TSHASH_LENGTH
              UserMessagePostfixMax UsernameProofMessage UserDataMessage makeUserKey
              toFarcasterTime (handleReadOnly threeFids) 5 (idle 0) Hidle Hrun)
    as (Hfail & Hset & Hnoop).
  split; [exact Hfail | split; [exact Hset | exact (Hnoop 7%nat)]].
Defined.

(** On the three-FID hub, a full scan from the idle scheduler. *)
Lemma checkpoints_of_a_run_witness :
  _running (sched (idle 0)) = false /\
  handle threeFids GetHubState (world (idle 0)) = (ok (checkpointed 0), world (idle 0)) /\
  Forall (checkpointOfRun toFarcasterTime (checkpointTimestamp (checkpointed 0))
            (fst (handle threeFids DateNow (world (idle 0)))))
    (callsOf (snd (run (handle threeFids) (job 5) (idle 0)))).
Proof.
  assert (Hidle : _running (sched (idle 0)) = false) by reflexivity.
  assert (Hget : handle threeFids GetHubState (world (idle 0)) =
                 (ok (checkpointed 0), world (idle 0))) by reflexivity.
  split; [exact Hidle | split; [exact Hget |]].
  exact (checkpoints_of_a_run FID_BYTES TSHASH_LENGTH UserMessagePostfixMax
           UsernameProofMessage UserDataMessage makeUserKey toFarcasterTime
           (handle threeFids) 5 (idle 0) Hidle Hget).
Defined.

(** On the three-FID hub, with 4998 FIDs checked before the page and the
    resume point at FID 2: FIDs 2 and 3 are counted, and the total passes
    5000 once. *)
Lemma progress_checkpoint_cadence_witness :
  run (handle threeFids) (fidLoop 5 86400 2 [1; 2; 3] (0, 4998)) (idle 0) =
    (Returned (7, 5000),
     snd (fst (run (handle threeFids) (fidLoop 5 86400 2 [1; 2; 3] (0, 4998)) (idle 0))),
     snd (run (handle threeFids) (fidLoop 5 86400 2 [1; 2; 3] (0, 4998)) (idle 0))) /\
  0 <= snd (0, 4998) /\
  snd (7, 5000) =
    snd (0, 4998) +
    Z.of_nat (List.length (filter (fun fid => negb (isSkipped 2 fid)) [1; 2; 3])) /\
  checkpointWrites
    (snd (run (handle threeFids) (fidLoop 5 86400 2 [1; 2; 3] (0, 4998)) (idle 0))) =
    snd (7, 5000) / 5000 - snd (0, 4998) / 5000.
Proof.
  assert (Hrun : run (handle threeFids) (fidLoop 5 86400 2 [1; 2; 3] (0, 4998)) (idle 0) =
                 (Returned (7, 5000),
                  snd (fst (run (handle threeFids)
                              (fidLoop 5 86400 2 [1; 2; 3] (0, 4998)) (idle 0))),
                  snd (run (handle threeFids)
                         (fidLoop 5 86400 2 [1; 2; 3] (0, 4998)) (idle 0))))
    by (vm_compute; reflexivity).
  assert (Hpos : 0 <= snd (0, 4998)) by discriminate.
  split; [exact Hrun | split; [exact Hpos |]].
  exact (progress_checkpoint_cadence FID_BYTES TSHASH_LENGTH UserMessagePostfixMax
           UsernameProofMessage UserDataMessage makeUserKey toFarcasterTime
           (handle threeFids) 5 86400 2 [1; 2; 3] (0, 4998) (idle 0) Hrun Hpos).
Defined.

(** On the records of FID 1: the username proof [x0c] is decoded by both
    sweeps. *)
Lemma username_records_are_swept_twice_witness :
  UsernameProofMessage <= UserMessagePostfixMax /\
  UserDataMessage <= UserMessagePostfixMax /\
  In [x0c]
    (decodedValues (snd (run (handle threeFids) (usernameEntries (entriesOf 1) 0) (idle 0)))) /\
  In [x0c]
    (decodedValues (snd (run (handle threeFids) (messageEntries (entriesOf 1) 0) (idle 0)))).
Proof.
  assert (Hproof : UsernameProofMessage <= UserMessagePostfixMax) by discriminate.
  assert (Hdata : UserDataMessage <= UserMessagePostfixMax) by discriminate.
  assert (Hin : In [x0c]
                  (decodedValues
                     (snd (run (handle threeFids) (usernameEntries (entriesOf 1) 0)
                             (idle 0)))))
    by (vm_compute; right; left; reflexivity).
  split; [exact Hproof | split; [exact Hdata | split; [exact Hin |]]].
  unfold messageEntries.
  exact (username_records_are_swept_twice FID_BYTES TSHASH_LENGTH (handle threeFids)
           (entriesOf 1) [x0c] 0 0 (idle 0) (idle 0) Hproof Hdata Hin).
Defined.

(** On the scheduler as constructed: [stop], [status], a run, [stop]. *)
Lemma status_stopped_until_start_witness :
  status (sched fresh) = stopped /\
  (forall cronSchedule,
      ~ In (CallStart cronSchedule) [CallStop; CallStatus; CallDoJobs 5; CallStop]) /\
  status
    (sched
       (fold_left (call_method threeFids) [CallStop; CallStatus; CallDoJobs 5; CallStop]
          fresh)) = stopped.
Proof.
  assert (Hstopped : status (sched fresh) = stopped) by reflexivity.
  assert (Hnever : forall cronSchedule,
             ~ In (CallStart cronSchedule)
                 [CallStop; CallStatus; CallDoJobs 5; CallStop]).
  { intros cronSchedule [H | [H | [H | [H | []]]]]; discriminate H. }
  split; [exact Hstopped | split; [exact Hnever |]].
  unfold call_method.
  exact (status_stopped_until_start FID_BYTES TSHASH_LENGTH UserMessagePostfixMax
           UsernameProofMessage UserDataMessage makeUserKey toFarcasterTime validate
           (handle threeFids) [CallStop; CallStatus; CallDoJobs 5; CallStop] fresh
           Hstopped Hnever).
Defined.

(** On the three-FID hub, without a resume point: the three FIDs are
    counted and worked on, call for call. *)
Lemma no_resume_point_processes_all_witness :
  0 <= 0 /\
  run (handle threeFids) (fidLoop 5 86400 0 [1; 2; 3] (0, 0)) (idle 0) =
    (Returned (9, 3),
     snd (fst (run (handle threeFids) (fidLoop 5 86400 0 [1; 2; 3] (0, 0)) (idle 0))),
     snd (run (handle threeFids) (fidLoop 5 86400 0 [1; 2; 3] (0, 0)) (idle 0))) /\
  callsOf (snd (run (handle threeFids) (fidLoop 5 86400 0 [1; 2; 3] (0, 0)) (idle 0))) =
    [GetOnChainSignersByFid 1 None]
    ++ sweepCalls 1 [[x0b]; [x0c]]
    ++ [GetOnChainSignersByFid 2 None]
    ++ sweepCalls 2 [[x0a]; [x0b]; [x0c]] ++ sweepCalls 2 [[x0b]; [x0c]]
    ++ [GetOnChainSignersByFid 3 None]
    ++ sweepCalls 3 [[x0b]; [x0c]] /\
  snd (9, 3) = snd (0, 0) + Z.of_nat (List.length [1; 2; 3]) /\
  forall fid, In fid [1; 2; 3] ->
    workedOn threeFids 5 86400 fid
      (snd (run (handle threeFids) (fidLoop 5 86400 0 [1; 2; 3] (0, 0)) (idle 0))) /\
    In (GetOnChainSignersByFid fid None)
      (callsOf (snd (run (handle threeFids) (fidLoop 5 86400 0 [1; 2; 3] (0, 0))
                       (idle 0)))) /\
    In (ForEachIteratorByPrefix (makeUserKey fid) iteratorTimeoutMs)
      (callsOf (snd (run (handle threeFids) (fidLoop 5 86400 0 [1; 2; 3] (0, 0))
                       (idle 0)))).
Proof.
  assert (Hnone : 0 <= 0) by reflexivity.
  assert (Hrun : run (handle threeFids) (fidLoop 5 86400 0 [1; 2; 3] (0, 0)) (idle 0) =
                 (Returned (9, 3),
                  snd (fst (run (handle threeFids)
                              (fidLoop 5 86400 0 [1; 2; 3] (0, 0)) (idle 0))),
                  snd (run (handle threeFids)
                         (fidLoop 5 86400 0 [1; 2; 3] (0, 0)) (idle 0))))
    by (vm_compute; reflexivity).
  split; [exact Hnone | split; [exact Hrun | split; [vm_compute; reflexivity |]]].
  unfold workedOn.
  exact (no_resume_point_processes_all FID_BYTES TSHASH_LENGTH UserMessagePostfixMax
           UsernameProofMessage UserDataMessage makeUserKey toFarcasterTime
           (handle threeFids) 5 86400 [1; 2; 3] (0, 0) (idle 0) Hnone Hrun).
Defined.

(** On the three-FID hub, at FID 2 and the watermark 1000000: its one
    signer event, of day 3, is older. *)
Lemma doJobForFid_skips_unchanged_fid_witness :
  run (handle threeFids) (signerLoop 5 2) (idle 0) =
    (Returned (ok [mkOnChainEvent day3]), idle 0,
     [event (GetOnChainSignersByFid 2 None)
        (ok {| events := [mkOnChainEvent day3]; eventsNextPageToken := None |})]) /\
  latestSignerEventTs toFarcasterTime [mkOnChainEvent day3] = 172800 /\
  latestSignerEventTs toFarcasterTime [mkOnChainEvent day3] < 1000000 /\
  run (handle threeFids) (jobForFid 5 1000000 2) (idle 0) =
    (Returned (ok 0), idle 0,
     [event (GetOnChainSignersByFid 2 None)
        (ok {| events := [mkOnChainEvent day3]; eventsNextPageToken := None |})]) /\
  filter (@isRecordCall Message unit)
    (callsOf
       ([event (GetOnChainSignersByFid 2 None)
           (ok {| events := [mkOnChainEvent day3]; eventsNextPageToken := None |})]
        : list (Event Message unit))) = [].
Proof.
  assert (Hfetch : run (handle threeFids) (signerLoop 5 2) (idle 0) =
                   (Returned (ok [mkOnChainEvent day3]), idle 0,
                    [event (GetOnChainSignersByFid 2 None)
                       (ok {| events := [mkOnChainEvent day3];
                              eventsNextPageToken := None |})]))
    by reflexivity.
  assert (Hold : latestSignerEventTs toFarcasterTime [mkOnChainEvent day3] < 1000000)
    by (vm_compute; reflexivity).
  split; [exact Hfetch | split; [vm_compute; reflexivity | split; [exact Hold |]]].
  exact (doJobForFid_skips_unchanged_fid FID_BYTES TSHASH_LENGTH
           UserMessagePostfixMax makeUserKey toFarcasterTime
           (handle threeFids) 5 2 (idle 0) Hfetch Hold).
Defined.

(** On the three-FID hub, with the resume point at FID 2: no call for FID
    1, and FIDs 2 and 3 worked on, call for call. *)
Lemma doJobs_resumes_from_checkpoint_witness :
  _running (sched (idle 2)) = false /\
  handle threeFids GetHubState (world (idle 2)) = (ok (checkpointed 2), world (idle 2)) /\
  checkpointFid (checkpointed 2) = 2 /\
  0 < 2 /\
  run (handle threeFids) (job 5) (idle 2) =
    (Returned (ok 7), snd (fst (run (handle threeFids) (job 5) (idle 2))),
     snd (run (handle threeFids) (job 5) (idle 2))) /\
  callsOf (snd (run (handle threeFids) (job 5) (idle 2))) =
    [GetHubState; DateNow; GetFids None 100]
    ++ [GetOnChainSignersByFid 2 None]
    ++ sweepCalls 2 [[x0a]; [x0b]; [x0c]] ++ sweepCalls 2 [[x0b]; [x0c]]
    ++ [GetOnChainSignersByFid 3 None]
    ++ sweepCalls 3 [[x0b]; [x0c]]
    ++ [DateNow; GetHubState; PutHubState completed] /\
  Forall (callFrom 2) (callsOf (snd (run (handle threeFids) (job 5) (idle 2)))) /\
  forall asked size page fid,
    In (asked, size, ok page) (fidsFetches (snd (run (handle threeFids) (job 5) (idle 2)))) ->
    In fid (fids page) -> 2 <= fid ->
    workedOn threeFids 5 86400 fid (snd (run (handle threeFids) (job 5) (idle 2))) /\
    In (GetOnChainSignersByFid fid None)
      (callsOf (snd (run (handle threeFids) (job 5) (idle 2)))) /\
    In (ForEachIteratorByPrefix (makeUserKey fid) iteratorTimeoutMs)
      (callsOf (snd (run (handle threeFids) (job 5) (idle 2)))).
Proof.
  assert (Hidle : _running (sched (idle 2)) = false) by reflexivity.
  assert (Hget : handle threeFids GetHubState (world (idle 2)) =
                 (ok (checkpointed 2), world (idle 2))) by reflexivity.
  assert (HX : checkpointFid (checkpointed 2) = 2) by reflexivity.
  assert (Hpos : 0 < 2) by reflexivity.
  assert (Hrun : run (handle threeFids) (job 5) (idle 2) =
                 (Returned (ok 7), snd (fst (run (handle threeFids) (job 5) (idle 2))),
                  snd (run (handle threeFids) (job 5) (idle 2))))
    by (vm_compute; reflexivity).
  split; [exact Hidle | split; [exact Hget | split; [exact HX | split; [exact Hpos |]]]].
  split; [exact Hrun | split; [vm_compute; reflexivity |]].
  destruct (doJobs_resumes_from_checkpoint FID_BYTES TSHASH_LENGTH UserMessagePostfixMax
              UsernameProofMessage UserDataMessage makeUserKey toFarcasterTime
              (handle threeFids) 5 (idle 2) Hidle Hget HX Hpos) as [Hskips Hworks].
  split; [exact Hskips |].
  exact (Hworks 7 _ _ Hrun).
Defined.

(** On the three-FID hub, at FID 2, whose signer sweep has returned a
    count: the username sweep decodes and validates its two username
    records. *)
Lemma username_sweep_is_unconditional_witness :
  run (handle threeFids) (jobForFid 5 86400 2) (idle 0) =
    (Returned (ok 3), idle 0,
     snd (run (handle threeFids) (jobForFid 5 86400 2) (idle 0))) /\
  exists count m2 l2,
    run (handle threeFids) (usernamesJobForFid 2) (idle 0) =
      (Returned (ok count), m2,
       event (ForEachIteratorByPrefix (makeUserKey 2) iteratorTimeoutMs) (entriesOf 2)
         :: l2) /\
    decodedValues l2 = [[x0b]; [x0c]] /\
    validatedMessages l2 = decodedMessages l2 /\
    count = validations l2.
Proof.
  assert (Hjob : run (handle threeFids) (jobForFid 5 86400 2) (idle 0) =
                 (Returned (ok 3), idle 0,
                  snd (run (handle threeFids) (jobForFid 5 86400 2) (idle 0))))
    by (vm_compute; reflexivity).
  split; [exact Hjob |].
  exact (proj2 (username_sweep_is_unconditional FID_BYTES TSHASH_LENGTH
                  UserMessagePostfixMax UsernameProofMessage UserDataMessage
                  makeUserKey toFarcasterTime (handle threeFids) 5 86400 2 (0, 0)
                  (idle 0) Hjob)).
Defined.
